(** * ts-bun: the deep mock engine of [src/index.ts]

    A shallow embedding of [createBaseMock], [createMock] (proxy handler and
    protocol overrides), [isMock], [createMockWithDefaults] and [getCallInfo].

    JavaScript objects have identity and are mutated in place, so the
    embedding threads an explicit store: every recorder function allocated by
    [createBaseMock] lives at an address, and a value refers to it by that
    address.  Two values denote the identical object exactly when they are
    equal as terms.

    What lies outside the repository is taken as a parameter: the bodies of
    caller-supplied functions ([user_fn]) and the members a function object
    has from the JavaScript runtime before the code assigns any ([host_get],
    [host_readonly]).  Where the source would have to be followed into
    behaviour the embedding does not represent (a mock installed as the
    implementation of a mock, fields assigned on an opaque host object), the
    operations answer [Unmodelled] rather than guess. *)

From stdpp Require Import gmap strings list fin_maps.
From Stdlib Require Import ZArith.

Open Scope string_scope.
Open Scope list_scope.
Open Scope nat_scope.

(** ** Values *)

Abbreviation addr := nat.

(** The protocol functions that [createBaseMock] (prefix [MB]) and
    [createMock] install as properties of a recorder.  [MReset d] is the
    closure of [createMock(d)]. *)
Inductive method :=
  | MImplementation
  | MImplementationOnce
  | MBReturnValue | MBReturnValueOnce
  | MBResolvedValue | MBResolvedValueOnce
  | MBRejectedValue | MBRejectedValueOnce
  | MBClear | MBReset
  | MReturnValue | MReturnValueOnce
  | MResolvedValue | MResolvedValueOnce
  | MRejectedValue | MRejectedValueOnce
  | MClear
  | MReset (d : nat).

Inductive value :=
  | VUndef
  | VNull
  | VBool (b : bool)
  | VNum (z : Z)
  | VStr (s : string)
  | VObj (o : nat)                 (* opaque caller object, by identity *)
  | VFn (f : nat)                   (* caller-supplied function, by identity *)
  | VPromiseResolve (v : value)     (* the value of Promise.resolve(v) *)
  | VPromiseReject (e : value)      (* the value of Promise.reject(e) *)
  | VTypeError (msg : string)       (* new TypeError(msg) *)
  | VHostTypeError                  (* a TypeError raised by the runtime *)
  | VConstFn (v : value)            (* () => v *)
  | VResolveFn (v : value)          (* () => Promise.resolve(v) *)
  | VRejectFn (e : value)           (* () => Promise.reject(e) *)
  | VNestedFn (d : nat)             (* () => createMock(d) *)
  | VBase (a : addr)                (* the recorder function fn itself *)
  | VProxy (d : nat) (a : addr)     (* new Proxy(baseMock, handler) of createMock(d) *)
  | VMockRec (a : addr)             (* the object first assigned to fn.mock *)
  | VMethod (a : addr) (m : method).

Inductive outcome :=
  | Return (v : value)
  | Raise (e : value).

Inductive result_kind := RReturn | RThrow.

Record result_entry := { rtype : result_kind; rvalue : value }.

(** One recorder: the closure variables [impl], [defaultImpl], [onceQueue] of
    [createBaseMock], the two arrays of the object created for [fn.mock], and
    the own properties of [fn]. *)
Record node := {
  impl : value;
  defaultImpl : value;
  onceQueue : list value;
  calls : list (list value);
  results : list result_entry;
  props : gmap string value;
}.

Abbreviation store := (list node).

Inductive res (A : Type) :=
  | Ok (a : A) (h : store)
  | Throw (e : value) (h : store)
  | Unmodelled.
Arguments Ok {A} a h.
Arguments Throw {A} e h.
Arguments Unmodelled {A}.

Definition bind {A B} (c : res A) (k : A -> store -> res B) : res B :=
  match c with
  | Ok a h => k a h
  | Throw e h => Throw e h
  | Unmodelled => Unmodelled
  end.

Notation "'let*' ( x , h ) := c 'in' k" :=
  (bind c (fun x h => k))
  (at level 10, x name, h name, c at level 100, k at level 200).

(** ** JavaScript primitives used by the source *)

Definition is_undefined (v : value) : bool :=
  match v with VUndef => true | _ => false end.

(** [x ?? y] *)
Definition nullish (v : value) : bool :=
  match v with VUndef | VNull => true | _ => false end.

(** Truthiness, as tested by [toCall ? ... : ...]. *)
Definition truthy (v : value) : bool :=
  match v with
  | VUndef | VNull => false
  | VBool b => b
  | VNum z => negb (z =? 0)%Z
  | VStr s => negb (String.eqb s "")
  | _ => true
  end.

Definition typeof_function (v : value) : bool :=
  match v with
  | VFn _ | VConstFn _ | VResolveFn _ | VRejectFn _ | VNestedFn _
  | VBase _ | VProxy _ _ | VMethod _ _ => true
  | _ => false
  end.

(** [typeof v === 'object'], which holds of [null]. *)
Definition typeof_object (v : value) : bool :=
  match v with
  | VNull | VObj _ | VPromiseResolve _ | VPromiseReject _
  | VTypeError _ | VHostTypeError | VMockRec _ => true
  | _ => false
  end.

Definition is_primitive (v : value) : bool :=
  match v with
  | VUndef | VNull | VBool _ | VNum _ | VStr _ => true
  | _ => false
  end.

(** The names the [get] trap hands to the target without mocking them. *)
Definition reserved (prop : string) : bool :=
  String.eqb prop "mock"
  || String.eqb prop "mockImplementation"
  || String.eqb prop "mockImplementationOnce"
  || String.eqb prop "mockResolvedValue"
  || String.eqb prop "mockResolvedValueOnce"
  || String.eqb prop "mockRejectedValue"
  || String.eqb prop "mockRejectedValueOnce"
  || String.eqb prop "mockReturnValue"
  || String.eqb prop "mockReturnValueOnce"
  || String.eqb prop "mockClear"
  || String.eqb prop "mockReset"
  || String.eqb prop "mockRestore".

Definition MAX_DEPTH : nat := 10.

(** ** The store *)

Definition set_impl (f : value) (n : node) : node :=
  {| impl := f; defaultImpl := defaultImpl n; onceQueue := onceQueue n;
     calls := calls n; results := results n; props := props n |}.

Definition set_onceQueue (q : list value) (n : node) : node :=
  {| impl := impl n; defaultImpl := defaultImpl n; onceQueue := q;
     calls := calls n; results := results n; props := props n |}.

Definition set_calls (c : list (list value)) (n : node) : node :=
  {| impl := impl n; defaultImpl := defaultImpl n; onceQueue := onceQueue n;
     calls := c; results := results n; props := props n |}.

Definition set_results (r : list result_entry) (n : node) : node :=
  {| impl := impl n; defaultImpl := defaultImpl n; onceQueue := onceQueue n;
     calls := calls n; results := r; props := props n |}.

Definition set_props (p : gmap string value) (n : node) : node :=
  {| impl := impl n; defaultImpl := defaultImpl n; onceQueue := onceQueue n;
     calls := calls n; results := results n; props := p |}.

Definition update_node (h : store) (a : addr) (f : node -> node) : store :=
  match h !! a with
  | Some n => <[a := f n]> h
  | None => h
  end.

(** The properties [createBaseMock] assigns to [fn] (lines 20-50). *)
Definition base_props (a : addr) : gmap string value :=
  <["mockReset" := VMethod a MBReset]>
  (<["mockClear" := VMethod a MBClear]>
  (<["mockRejectedValueOnce" := VMethod a MBRejectedValueOnce]>
  (<["mockRejectedValue" := VMethod a MBRejectedValue]>
  (<["mockResolvedValueOnce" := VMethod a MBResolvedValueOnce]>
  (<["mockResolvedValue" := VMethod a MBResolvedValue]>
  (<["mockReturnValueOnce" := VMethod a MBReturnValueOnce]>
  (<["mockReturnValue" := VMethod a MBReturnValue]>
  (<["mockImplementationOnce" := VMethod a MImplementationOnce]>
  (<["mockImplementation" := VMethod a MImplementation]>
  (<["mock" := VMockRec a]> ∅)))))))))).

(** The assignments of [createMock(d)] on its [baseMock] (lines 174-214). *)
Definition mock_overrides (d : nat) (a : addr) (p : gmap string value)
  : gmap string value :=
  <["mockReset" := VMethod a (MReset d)]>
  (<["mockClear" := VMethod a MClear]>
  (<["mockRejectedValueOnce" := VMethod a MRejectedValueOnce]>
  (<["mockRejectedValue" := VMethod a MRejectedValue]>
  (<["mockResolvedValueOnce" := VMethod a MResolvedValueOnce]>
  (<["mockResolvedValue" := VMethod a MResolvedValue]>
  (<["mockReturnValueOnce" := VMethod a MReturnValueOnce]>
  (<["mockReturnValue" := VMethod a MReturnValue]> p))))))).

Definition createBaseMock (h : store) (dflt : value) : addr * store :=
  let a := List.length h in
  (a, h ++ [ {| impl := dflt; defaultImpl := dflt; onceQueue := [];
                calls := []; results := []; props := base_props a |} ]).

Definition createMock (h : store) (depth : nat) : value * store :=
  if (MAX_DEPTH <? depth)%nat then (VUndef, h)
  else
    let '(a, h1) := createBaseMock h (VNestedFn (depth + 1)) in
    (VProxy depth a,
     update_node h1 a (fun n => set_props (mock_overrides depth a (props n)) n)).

(** [Object.keys(target)]: the own enumerable string keys, as a set (the
    order of enumeration is not represented). *)
Definition ownKeys (h : store) (a : addr) : option (gset string) :=
  n ← h !! a; Some (dom (props n)).

(** ** The engine *)

Section Engine.

(** The body of the caller's function [f], applied to an argument list. *)
Variable user_fn : nat -> list value -> outcome.

(** What reading [k] on a function object yields when the code has assigned
    no property [k] to it (own [name] and [length], members inherited from
    the prototype chain); [Return VUndef] when there is none. *)
Variable host_get : string -> outcome.

(** Whether the runtime rejects an assignment to the unassigned member [k]. *)
Variable host_readonly : string -> bool.

(** [target[prop]] *)
Definition target_get (h : store) (a : addr) (prop : string) : res value :=
  match h !! a with
  | None => Unmodelled
  | Some n =>
      match props n !! prop with
      | Some v => Ok v h
      | None =>
          match host_get prop with
          | Return v => Ok v h
          | Raise e => Throw e h
          end
      end
  end.

(** [target[prop] = v], in strict-mode code. *)
Definition target_set (h : store) (a : addr) (prop : string) (v : value)
  : res unit :=
  match h !! a with
  | None => Unmodelled
  | Some n =>
      match props n !! prop with
      | Some _ => Ok tt (<[a := set_props (<[prop := v]> (props n)) n]> h)
      | None =>
          if host_readonly prop then Throw VHostTypeError h
          else Ok tt (<[a := set_props (<[prop := v]> (props n)) n]> h)
      end
  end.

(** The [get] trap of the handler of [createMock(depth)] (lines 106-139),
    for string keys. *)
Definition handler_get (h : store) (depth : nat) (a : addr) (prop : string)
  : res value :=
  if reserved prop then target_get h a prop
  else
    let* (v, h1) := target_get h a prop in
    if negb (is_undefined v) then Ok v h1
    else
      let '(nestedMock, h2) := createMock h1 (depth + 1) in
      let* (_, h3) := target_set h2 a prop nestedMock in
      Ok nestedMock h3.

(** The [set] trap (lines 142-145). *)
Definition handler_set (h : store) (a : addr) (prop : string) (v : value)
  : res unit :=
  target_set h a prop v.

(** [fn.mock.calls.push(x)], [fn.mock.results.push(x)], [fn.mock.calls = []]
    and [fn.mock.results = []]: an update [upd] of the two arrays of the
    object found under [fn.mock]. *)
Definition on_mock_rec (h : store) (a : addr) (upd : node -> node) : res unit :=
  let* (m, h1) := target_get h a "mock" in
  match m with
  | VMockRec c =>
      match h1 !! c with
      | Some n => Ok tt (<[c := upd n]> h1)
      | None => Unmodelled
      end
  | _ => if is_primitive m then Throw VHostTypeError h1 else Unmodelled
  end.

Definition push_call (args : list value) (n : node) : node :=
  set_calls (calls n ++ [args]) n.

Definition push_result (k : result_kind) (v : value) (n : node) : node :=
  set_results (results n ++ [ {| rtype := k; rvalue := v |} ]) n.

(** [toCall(...args)] for a truthy [toCall]. *)
Definition call_value (h : store) (toCall : value) (args : list value)
  : res value :=
  match toCall with
  | VFn f =>
      match user_fn f args with
      | Return v => Ok v h
      | Raise e => Throw e h
      end
  | VConstFn v => Ok v h
  | VResolveFn v => Ok (VPromiseResolve v) h
  | VRejectFn e => Ok (VPromiseReject e) h
  | VNestedFn d => let '(m, h1) := createMock h d in Ok m h1
  | VBase _ | VProxy _ _ | VMethod _ _ => Unmodelled
  | _ => Throw VHostTypeError h
  end.

(** The recorder function [fn] (lines 6-18). *)
Definition invoke (h : store) (a : addr) (args : list value) : res value :=
  let* (_, h1) := on_mock_rec h a (push_call args) in
  match h1 !! a with
  | None => Unmodelled
  | Some n =>
      let next := hd VUndef (onceQueue n) in
      let h2 := <[a := set_onceQueue (tl (onceQueue n)) n]> h1 in
      let toCall := if nullish next then impl n else next in
      match (if truthy toCall then call_value h2 toCall args
             else Ok VUndef h2) with
      | Ok r h3 =>
          match on_mock_rec h3 a (push_result RReturn r) with
          | Ok _ h4 => Ok r h4
          | Throw err h4 =>
              let* (_, h5) := on_mock_rec h4 a (push_result RThrow err) in
              Throw err h5
          | Unmodelled => Unmodelled
          end
      | Throw err h3 =>
          let* (_, h4) := on_mock_rec h3 a (push_result RThrow err) in
          Throw err h4
      | Unmodelled => Unmodelled
      end
  end.

(** Calling the value found under a protocol name from inside another
    protocol function.  The functions that call no further protocol function
    are followed; the others are not. *)
Definition call_leaf (h : store) (f : value) (args : list value) : res value :=
  match f with
  | VMethod b MImplementation =>
      match h !! b with
      | Some n => Ok (VBase b) (<[b := set_impl (hd VUndef args) n]> h)
      | None => Unmodelled
      end
  | VMethod b MImplementationOnce =>
      match h !! b with
      | Some n =>
          Ok (VBase b)
             (<[b := set_onceQueue (onceQueue n ++ [hd VUndef args]) n]> h)
      | None => Unmodelled
      end
  | VMethod b MBClear | VMethod b MClear =>
      let* (_, h1) := on_mock_rec h b (set_calls []) in
      let* (_, h2) := on_mock_rec h1 b (set_results []) in
      Ok (VBase b) h2
  | _ => call_value h f args
  end.

(** [fn.name(x)] with the result of the call as result (lines 32-37). *)
Definition delegate (h : store) (b : addr) (name : string) (x : value)
  : res value :=
  let* (f, h1) := target_get h b name in
  call_leaf h1 f [x].

(** [baseMock.name(x); return baseMock] (lines 174-202). *)
Definition delegate_self (h : store) (b : addr) (name : string) (x : value)
  : res value :=
  let* (_, h1) := delegate h b name x in
  Ok (VBase b) h1.

(** The protocol function [m] of the recorder at [b], applied to [args]. *)
Definition call_method (h : store) (b : addr) (m : method) (args : list value)
  : res value :=
  let x := hd VUndef args in
  match m with
  | MImplementation | MImplementationOnce | MBClear | MClear =>
      call_leaf h (VMethod b m) args
  | MBReturnValue => delegate h b "mockImplementation" (VConstFn x)
  | MBReturnValueOnce => delegate h b "mockImplementationOnce" (VConstFn x)
  | MBResolvedValue => delegate h b "mockImplementation" (VResolveFn x)
  | MBResolvedValueOnce => delegate h b "mockImplementationOnce" (VResolveFn x)
  | MBRejectedValue => delegate h b "mockImplementation" (VRejectFn x)
  | MBRejectedValueOnce => delegate h b "mockImplementationOnce" (VRejectFn x)
  | MBReset =>
      let* (c, h1) := target_get h b "mockClear" in
      let* (_, h2) := call_leaf h1 c [] in
      match h2 !! b with
      | Some n =>
          Ok (VBase b)
             (<[b := set_onceQueue [] (set_impl (defaultImpl n) n)]> h2)
      | None => Unmodelled
      end
  | MReturnValue => delegate_self h b "mockImplementation" (VConstFn x)
  | MReturnValueOnce => delegate_self h b "mockImplementationOnce" (VConstFn x)
  | MResolvedValue => delegate_self h b "mockImplementation" (VResolveFn x)
  | MResolvedValueOnce =>
      delegate_self h b "mockImplementationOnce" (VResolveFn x)
  | MRejectedValue => delegate_self h b "mockImplementation" (VRejectFn x)
  | MRejectedValueOnce =>
      delegate_self h b "mockImplementationOnce" (VRejectFn x)
  | MReset d =>
      let* (c, h1) := target_get h b "mockClear" in
      let* (_, h2) := call_leaf h1 c [] in
      delegate_self h2 b "mockImplementation" (VNestedFn (d + 1))
  end.

(** [v(...args)] as written by a caller of the library. *)
Definition call (h : store) (v : value) (args : list value) : res value :=
  match v with
  | VProxy _ a | VBase a => invoke h a args
  | VMethod b m => call_method h b m args
  | _ => call_value h v args
  end.

Definition lift_outcome (h : store) (o : outcome) : res value :=
  match o with
  | Return v => Ok v h
  | Raise e => Throw e h
  end.

(** [v[prop]] as written by a caller.  A caller-supplied function and the
    closures the library creates carry no properties of their own; the
    members of the remaining values are not represented. *)
Definition get_member (h : store) (v : value) (prop : string) : res value :=
  match v with
  | VProxy d a => handler_get h d a prop
  | VBase a => target_get h a prop
  | VFn _ | VConstFn _ | VResolveFn _ | VRejectFn _ | VNestedFn _
  | VMethod _ _ => lift_outcome h (host_get prop)
  | VUndef | VNull => Throw VHostTypeError h
  | _ => Unmodelled
  end.

(** [v[prop] = x] as written by a caller, for a mock [v]. *)
Definition set_member (h : store) (v : value) (prop : string) (x : value)
  : res unit :=
  match v with
  | VProxy _ a => handler_set h a prop x
  | VBase a => target_set h a prop x
  | _ => Unmodelled
  end.

(** [v.name(...args)] *)
Definition call_member (h : store) (v : value) (name : string)
    (args : list value) : res value :=
  let* (f, h1) := get_member h v name in
  call h1 f args.

(** [isMock] (lines 236-244).  After [typeof value === 'function'] the test
    [value != null] is true and is left out. *)
Definition isMock (h : store) (v : value) : res bool :=
  if negb (typeof_function v) then Ok false h
  else
    let* (m, h1) := get_member h v "mock" in
    if negb (typeof_object m) then Ok false h1
    else
      match m with
      | VNull => Throw VHostTypeError h1
      | VMockRec c =>
          match h1 !! c with
          | Some _ => Ok true h1
          | None => Unmodelled
          end
      | VObj _ => Unmodelled
      | _ => Ok false h1
      end.

Record call_info := {
  callCount : nat;
  info_calls : list (list value);
  info_results : list result_entry;
  lastCall : list value;
  lastResult : result_entry;
}.

(** [getCallInfo] (lines 301-315). *)
Definition getCallInfo (h : store) (mockFn : value) : res call_info :=
  let* (b, h1) := isMock h mockFn in
  if negb b then Throw (VTypeError "Argument must be a mock function") h1
  else
    let* (m, h2) := get_member h1 mockFn "mock" in
    match m with
    | VMockRec c =>
        match h2 !! c with
        | Some n =>
            Ok {| callCount := List.length (calls n);
                  info_calls := calls n;
                  info_results := results n;
                  lastCall := List.last (calls n) [];
                  lastResult :=
                    List.last (results n)
                              {| rtype := RReturn; rvalue := VUndef |} |} h2
        | None => Unmodelled
        end
    | _ => Unmodelled
    end.

(** The body of the [forEach] callback of [createMockWithDefaults]
    (lines 276-285). *)
Definition install_default (h : store) (mockObj : value)
    (entry : string * value) : res unit :=
  let '(key, v) := entry in
  let* (mockProp, h1) := get_member h mockObj key in
  if typeof_function mockProp && typeof_function v then
    let* (_, h2) := call_member h1 mockProp "mockImplementation" [v] in
    Ok tt h2
  else if typeof_function mockProp then
    let* (_, h2) := call_member h1 mockProp "mockReturnValue" [v] in
    Ok tt h2
  else set_member h1 mockObj key v.

Fixpoint forEach (h : store) (mockObj : value) (entries : list (string * value))
  : res unit :=
  match entries with
  | [] => Ok tt h
  | entry :: rest =>
      let* (_, h1) := install_default h mockObj entry in
      forEach h1 mockObj rest
  end.

(** [createMockWithDefaults] (lines 270-289); [defaults] is the list of
    [Object.entries], [None] when the argument is omitted. *)
Definition createMockWithDefaults (h : store)
    (defaults : option (list (string * value))) : res value :=
  let '(mockObj, h1) := createMock h 0 in
  match defaults with
  | Some entries =>
      let* (_, h2) := forEach h1 mockObj entries in
      Ok mockObj h2
  | None => Ok mockObj h1
  end.

(** ** Sequences of caller actions

    What test code does with the library between two observations: property
    reads and writes, calls, and the two constructors.  An exception is
    caught by the caller and the sequence goes on. *)
Inductive op :=
  | OGet (v : value) (prop : string)
  | OSet (v : value) (prop : string) (x : value)
  | OCall (v : value) (args : list value)
  | OCreate (depth : nat)
  | ODefaults (defaults : option (list (string * value))).

Definition forget {A} (r : res A) : res unit :=
  let* (_, h) := r in Ok tt h.

Definition step (h : store) (o : op) : res unit :=
  match o with
  | OGet v prop => forget (get_member h v prop)
  | OSet v prop x => set_member h v prop x
  | OCall v args => forget (call h v args)
  | OCreate depth => Ok tt (snd (createMock h depth))
  | ODefaults defaults => forget (createMockWithDefaults h defaults)
  end.

Fixpoint run (h : store) (ops : list op) : option store :=
  match ops with
  | [] => Some h
  | o :: rest =>
      match step h o with
      | Ok _ h1 | Throw _ h1 => run h1 rest
      | Unmodelled => None
      end
  end.

(** The chain of reads [v.k1.k2...]. *)
Fixpoint walk (h : store) (v : value) (ks : list string) : res value :=
  match ks with
  | [] => Ok v h
  | k :: rest =>
      let* (c, h1) := get_member h v k in
      walk h1 c rest
  end.

(** Successive invocations of one recorder, each outcome observed (a raised
    error is caught by the caller). *)
Fixpoint invocations (h : store) (a : addr) (argss : list (list value))
  : option (list outcome * store) :=
  match argss with
  | [] => Some ([], h)
  | args :: rest =>
      match invoke h a args with
      | Ok v h1 =>
          '(os, h2) ← invocations h1 a rest; Some (Return v :: os, h2)
      | Throw e h1 =>
          '(os, h2) ← invocations h1 a rest; Some (Raise e :: os, h2)
      | Unmodelled => None
      end
  end.

End Engine.

(** ** Vocabulary of the statements *)

(** The properties of a recorder as [createMock(d)] leaves it. *)
Definition protocol_props (d : nat) (a : addr) : gmap string value :=
  mock_overrides d a (base_props a).

Definition fresh_node (d : nat) (a : addr) : node :=
  {| impl := VNestedFn (d + 1); defaultImpl := VNestedFn (d + 1);
     onceQueue := []; calls := []; results := [];
     props := protocol_props d a |}.

(** The own property [k] of the recorder at [a], if assigned. *)
Definition prop_of (h : store) (a : addr) (k : string) : option value :=
  n ← h !! a; props n !! k.

(** The recorder at [a] still carries the protocol members [createMock(d)]
    gave it (no reserved name has been overwritten). *)
Definition is_mock_node (h : store) (d : nat) (a : addr) : Prop :=
  ∃ n, h !! a = Some n ∧ protocol_props d a ⊆ props n.

(** The behaviour the recorder picks for its next invocation (lines 8-9). *)
Definition chosen (n : node) : value :=
  let next := hd VUndef (onceQueue n) in
  if nullish next then impl n else next.

(** Functions whose call the embedding follows: a caller's function or one
    of the closures the protocol creates. *)
Definition callable (f : value) : bool :=
  match f with
  | VFn _ | VConstFn _ | VResolveFn _ | VRejectFn _ | VNestedFn _ => true
  | _ => false
  end.

(** The recorder a mock value stands for. *)
Definition addr_of (v : value) : option addr :=
  match v with
  | VProxy _ a | VBase a => Some a
  | _ => None
  end.

(** The action assigns property [k] of the recorder at [a]. *)
Definition writes (o : op) (a : addr) (k : string) : Prop :=
  match o with
  | OSet v prop _ => addr_of v = Some a ∧ prop = k
  | _ => False
  end.

Definition outcome_of (r : res value) : option outcome :=
  match r with
  | Ok v _ => Some (Return v)
  | Throw e _ => Some (Raise e)
  | Unmodelled => None
  end.

(** ** A concrete runtime, for evaluation *)

(** A function object has the own members [name] and [length], both
    read-only ([fn] is an arrow function named after its binding), the
    functions it inherits from its prototypes (standing here as the function
    identities 100 to 106, their bodies not represented), and the inherited
    accessors [caller] and [arguments], which raise on such a function. *)
Definition sample_host_get (k : string) : outcome :=
  if String.eqb k "name" then Return (VStr "fn")
  else if String.eqb k "length" then Return (VNum 0)
  else if String.eqb k "call" then Return (VFn 100)
  else if String.eqb k "apply" then Return (VFn 101)
  else if String.eqb k "bind" then Return (VFn 102)
  else if String.eqb k "toString" then Return (VFn 103)
  else if String.eqb k "constructor" then Return (VFn 104)
  else if String.eqb k "hasOwnProperty" then Return (VFn 105)
  else if String.eqb k "valueOf" then Return (VFn 106)
  else if String.eqb k "caller" then Raise VHostTypeError
  else if String.eqb k "arguments" then Raise VHostTypeError
  else Return VUndef.

Definition sample_host_readonly (k : string) : bool :=
  String.eqb k "name" || String.eqb k "length".

(** Caller function 0 echoes its first argument, 1 raises its first
    argument, every other one returns [undefined]. *)
Definition sample_user_fn (f : nat) (args : list value) : outcome :=
  match f with
  | 0 => Return (hd VUndef args)
  | 1 => Raise (hd VUndef args)
  | _ => Return VUndef
  end.

(** A root mock and the recorder behind it, at address 0 of an empty store. *)
Definition sample_root : store := snd (createMock [] 0).

Definition sample_with_impl (f : value) : store :=
  <[0 := set_impl f (fresh_node 0 0)]> sample_root.

(** Behaviours whose result does not depend on the store: a caller function
    and the three closures of the return/resolve/reject sugar. *)
Definition stateless (f : value) : bool :=
  match f with
  | VFn _ | VConstFn _ | VResolveFn _ | VRejectFn _ => true
  | _ => false
  end.

(** What a stateless behaviour yields on [args]. *)
Definition apply_stateless (user_fn : nat → list value → outcome)
    (f : value) (args : list value) : outcome :=
  match f with
  | VFn g => user_fn g args
  | VConstFn v => Return v
  | VResolveFn v => Return (VPromiseResolve v)
  | VRejectFn e => Return (VPromiseReject e)
  | _ => Return VUndef
  end.

Definition res_of (o : outcome) (h : store) : res value :=
  match o with
  | Return v => Ok v h
  | Raise e => Throw e h
  end.

(** The recorder at [a] is a mock node of depth [d] with one-shot queue [q]
    and current implementation [dflt]. *)
Definition configured (h : store) (d : nat) (a : addr) (q : list value)
    (dflt : value) : Prop :=
  ∃ n, h !! a = Some n ∧ protocol_props d a ⊆ props n
       ∧ onceQueue n = q ∧ impl n = dflt.

(** The root mock after [mockReturnValue("custom")] and two invocations. *)
Definition sample_used : store :=
  <[0 := set_results [ {| rtype := RReturn; rvalue := VStr "custom" |};
                       {| rtype := RReturn; rvalue := VStr "custom" |} ]
           (set_calls [[]; [VNum 1]]
              (set_impl (VConstFn (VStr "custom")) (fresh_node 0 0)))]>
    sample_root.

(** The action reads or assigns property [k] through a mock value standing
    for the recorder at [b]. *)
Definition touches (o : op) (b : addr) (k : string) : bool :=
  match o with
  | OGet v prop | OSet v prop _ =>
      bool_decide (addr_of v = Some b ∧ prop = k)
  | _ => false
  end.

(** Every recorder of [h] is still there in [h'], with the same properties
    except possibly those selected by [T]. *)
Definition changed_only (T : addr → string → bool) (h h' : store) : Prop :=
  ∀ b n, h !! b = Some n →
    ∃ n', h' !! b = Some n' ∧ ∀ k, T b k = false → props n' !! k = props n !! k.

Definition res_changed {A} (T : addr → string → bool) (h : store) (r : res A)
  : Prop :=
  match r with
  | Ok _ h' | Throw _ h' => changed_only T h h'
  | Unmodelled => True
  end.

(** What [target[k]] evaluates to on the recorder [n]. *)
Definition target_value (host_get : string → outcome) (n : node) (k : string)
  : outcome :=
  match props n !! k with
  | Some v => Return v
  | None => host_get k
  end.

(** Reading property [k] of the recorder at [a] yields [v]. *)
Definition reads_as (host_get : string → outcome) (h : store) (a : addr)
    (k : string) (v : value) : Prop :=
  ∃ n, h !! a = Some n ∧ target_value host_get n k = Return v.

(** A value the [get] trap returns as it finds it: anything but
    [undefined] under a mocked key, anything at all under a reserved one. *)
Definition kept (k : string) (v : value) : Prop :=
  v ≠ VUndef ∨ reserved k = true.

(** The root mock after a first read of [repo], then a run of actions that
    touch other keys, call the child and read [repo] again. *)
Definition sample_read : store :=
  <[0 := set_props (<["repo" := VProxy 1 1]> (protocol_props 0 0))
           (fresh_node 0 0)]>
    (sample_root ++ [fresh_node 1 1]).

Definition sample_ops : list op :=
  [OGet (VProxy 0 0) "cache";
   OCall (VProxy 1 1) [VStr "42"];
   OSet (VProxy 0 0) "limit" (VNum 3);
   OSet (VProxy 1 1) "repo" VNull;
   OCall (VMethod 1 MReturnValueOnce) [VBool true];
   OCreate 0;
   OGet (VProxy 0 0) "repo"].

Definition sample_later : store :=
  default []
    (run sample_user_fn sample_host_get sample_host_readonly sample_read
       sample_ops).

(** The names under which [createBaseMock] and [createMock] store the
    protocol on a recorder. *)
Definition installed_keys : list string :=
  ["mock"; "mockImplementation"; "mockImplementationOnce";
   "mockReturnValue"; "mockReturnValueOnce";
   "mockResolvedValue"; "mockResolvedValueOnce";
   "mockRejectedValue"; "mockRejectedValueOnce";
   "mockClear"; "mockReset"].

(** The implementation [createMockWithDefaults] gives a child for the
    supplied default [v]: [v] itself when it is a function, [() => v]
    otherwise. *)
Definition behaviour_of (v : value) : value :=
  if typeof_function v then v else VConstFn v.

(** Defaults for [getUser] (a caller function) and [limit] (a plain value). *)
Definition sample_defaults : list (string * value) :=
  [("getUser", VFn 0); ("limit", VNum 5)].

(** The store an operation leaves behind, whether it returned or raised. *)
Definition then_store {A} (r : res A) : store :=
  match r with
  | Ok _ h | Throw _ h => h
  | Unmodelled => []
  end.

(** The entry an invocation with outcome [o] leaves in the result log
    (lines 12 and 15). *)
Definition entry_of (o : outcome) : result_entry :=
  match o with
  | Return v => {| rtype := RReturn; rvalue := v |}
  | Raise e => {| rtype := RThrow; rvalue := e |}
  end.

(** The summary [getCallInfo] builds from the two logs of a recorder
    (lines 306-314). *)
Definition summary (n : node) : call_info :=
  {| callCount := List.length (calls n);
     info_calls := calls n;
     info_results := results n;
     lastCall := List.last (calls n) [];
     lastResult :=
       List.last (results n) {| rtype := RReturn; rvalue := VUndef |} |}.

(** The two logs of a recorder have one entry per invocation each. *)
Definition aligned_node (n : node) : Prop :=
  List.length (calls n) = List.length (results n).

(** An operation that returns or raises leaves every recorder aligned. *)
Definition res_aligned {A} (r : res A) : Prop :=
  match r with
  | Ok _ h' | Throw _ h' => Forall aligned_node h'
  | Unmodelled => True
  end.

(** A root mock with a one-shot returning 1 queued and an implementation
    that raises its first argument. *)
Definition sample_mixed : store :=
  <[0 := set_onceQueue [VConstFn (VNum 1)]
           (set_impl (VFn 1) (fresh_node 0 0))]> sample_root.

Definition sample_mixed_after : store :=
  default []
    (snd <$> invocations sample_user_fn sample_host_get sample_mixed 0
               [[VNum 7]; [VObj 3]]).

(** The names of the ten protocol functions of a mock. *)
Definition method_names : list string :=
  ["mockImplementation"; "mockImplementationOnce";
   "mockReturnValue"; "mockReturnValueOnce";
   "mockResolvedValue"; "mockResolvedValueOnce";
   "mockRejectedValue"; "mockRejectedValueOnce";
   "mockClear"; "mockReset"].

(** The protocol functions [createMock] assigns again (lines 174-208), each
    with the [createBaseMock] function it replaces (lines 32-43). *)
Definition replaced_methods : list (method * method) :=
  [(MReturnValue, MBReturnValue); (MReturnValueOnce, MBReturnValueOnce);
   (MResolvedValue, MBResolvedValue);
   (MResolvedValueOnce, MBResolvedValueOnce);
   (MRejectedValue, MBRejectedValue);
   (MRejectedValueOnce, MBRejectedValueOnce);
   (MClear, MBClear)].

(** ** Property descriptors *)

(** The descriptor the handler builds (lines 155-159). *)
Record descriptor := {
  configurable : bool;
  enumerable : bool;
  desc_value : value;
}.

Section Descriptor.

Variable host_get : string -> outcome.

(** Whether a function object has the member [k] from the runtime, own or
    inherited, before the code assigns any. *)
Variable host_has : string -> bool.

(** [prop in target] *)
Definition has_property (n : node) (prop : string) : bool :=
  bool_decide (is_Some (props n !! prop)) || host_has prop.

(** The [getOwnPropertyDescriptor] trap (lines 153-162), for string keys;
    [None] is [undefined]. *)
Definition getOwnPropertyDescriptor (h : store) (a : addr) (prop : string)
  : res (option descriptor) :=
  match h !! a with
  | None => Unmodelled
  | Some n =>
      if has_property n prop then
        let* (v, h1) := target_get host_get h a prop in
        Ok (Some {| configurable := true; enumerable := true;
                    desc_value := v |}) h1
      else Ok None h
  end.

End Descriptor.


(** A mock created at the depth bound. *)
Definition sample_deep : store := snd (createMock [] 10).

(** A root mock whose queue starts with an [undefined] entry. *)
Definition sample_nullish : store :=
  <[0 := set_onceQueue [VUndef; VConstFn (VNum 2)]
           (set_impl (VFn 0) (fresh_node 0 0))]> sample_root.

(** The members of the sample runtime, own or inherited. *)
Definition sample_host_has (k : string) : bool :=
  String.eqb k "name" || String.eqb k "length" || String.eqb k "call"
  || String.eqb k "apply" || String.eqb k "bind" || String.eqb k "toString"
  || String.eqb k "constructor" || String.eqb k "hasOwnProperty"
  || String.eqb k "valueOf" || String.eqb k "caller"
  || String.eqb k "arguments".

(** Every key stored on a recorder of [h] is a protocol name or one that [T]
    allows for that recorder. *)
Definition keys_within (T : addr → string → Prop) (h : store) : Prop :=
  ∀ b n k, h !! b = Some n → is_Some (props n !! k) →
    k ∈ installed_keys ∨ T b k.





(** Defaults that mix two shape keys with the two direct keys. *)
Definition sample_overlay : list (string * value) :=
  [("getUser", VFn 0); ("mock", VNum 7); ("limit", VNum 5);
   ("mockRestore", VNull)].


(** ** Properties *)

Section Properties.

Variable user_fn : nat -> list value -> outcome.
Variable host_get : string -> outcome.
Variable host_readonly : string -> bool.

(** A key that is neither a reserved protocol name nor a member the runtime
    gives every function object. *)
Definition plain_key (k : string) : Prop :=
  reserved k = false ∧ host_get k = Return VUndef ∧ host_readonly k = false.

(** The recorder [n] holds under [k] something that is not a function and
    that the [get] trap returns as it finds it, and [k] accepts an
    assignment. *)
Definition writable_slot (n : node) (k : string) : Prop :=
  ∃ x, target_value host_get n k = Return x ∧ typeof_function x = false
       ∧ kept k x ∧ (props n !! k = None → host_readonly k = false).

(** A key under which a fresh mock holds something that is not a function
    and that accepts an assignment: [mock], whose value is the log record,
    and every name that construction does not store, that the runtime
    answers with a non-function the [get] trap lets through, and that it
    lets the caller assign ([mockRestore] in particular). *)
Definition direct_key (k : string) : Prop :=
  k = "mock"
  ∨ ((k ∉ installed_keys)
     ∧ ∃ x, host_get k = Return x ∧ typeof_function x = false
            ∧ kept k x ∧ host_readonly k = false).

#[local] Abbreviation hget := (handler_get host_get host_readonly).
#[local] Abbreviation hset := (handler_set host_readonly).
#[local] Abbreviation tget := (target_get host_get).
#[local] Abbreviation tset := (target_set host_readonly).
#[local] Abbreviation member := (get_member host_get host_readonly).
#[local] Abbreviation invoke_ := (invoke user_fn host_get).

Lemma createMock_fresh (h : store) (d : nat) :
  d ≤ MAX_DEPTH →
  createMock h d = (VProxy d (List.length h), h ++ [fresh_node d (List.length h)]).
Proof.
  intros Hd. unfold createMock, createBaseMock, update_node.
  destruct (Nat.ltb_spec MAX_DEPTH d) as [Hlt | _]; [lia |].
  cbn beta iota zeta.
  rewrite list_lookup_middle by reflexivity.
  rewrite insert_app_r_alt by reflexivity.
  rewrite Nat.sub_diag. reflexivity.
Qed.

Lemma createMock_exhausted (h : store) (d : nat) :
  MAX_DEPTH < d → createMock h d = (VUndef, h).
Proof.
  intros Hd. unfold createMock.
  destruct (Nat.ltb_spec MAX_DEPTH d) as [_ | Hle]; [reflexivity | lia].
Qed.

Lemma protocol_props_reserved (d : nat) (a : addr) (k : string) :
  reserved k = false → protocol_props d a !! k = None.
Proof.
  intros Hk. unfold protocol_props, mock_overrides, base_props.
  unfold reserved in Hk.
  repeat (apply orb_false_elim in Hk; destruct Hk as [Hk ?]).
  repeat match goal with
         | H : String.eqb _ _ = false |- _ => apply String.eqb_neq in H
         end.
  repeat (rewrite lookup_insert_ne by congruence).
  apply lookup_empty.
Qed.

Lemma fresh_plain_absent (d : nat) (a : addr) (k : string) :
  plain_key k → props (fresh_node d a) !! k = None.
Proof. intros (Hk & _ & _). by apply protocol_props_reserved. Qed.

(** A first read of a plain key below the bound allocates the child and
    stores it under the key. *)
Lemma hget_materialize (h : store) (d : nat) (a : addr) (n : node) (k : string) :
  h !! a = Some n → props n !! k = None → plain_key k → d < MAX_DEPTH →
  hget h d a k =
    Ok (VProxy (d + 1) (List.length h))
       (<[a := set_props (<[k := VProxy (d + 1) (List.length h)]> (props n)) n]>
          (h ++ [fresh_node (d + 1) (List.length h)])).
Proof.
  intros Ha Hk (Hres & Hhost & Hro) Hd.
  unfold handler_get, target_get, target_set. rewrite Hres, Ha, Hk, Hhost.
  cbn [bind is_undefined negb].
  rewrite createMock_fresh by lia.
  rewrite (lookup_app_l_Some _ _ _ _ Ha), Hk, Hro. reflexivity.
Qed.

(** At the bound, [createMock] answers [undefined], which the trap stores and
    returns. *)
Lemma hget_exhausted (h : store) (d : nat) (a : addr) (n : node) (k : string) :
  h !! a = Some n → props n !! k = None → plain_key k → MAX_DEPTH ≤ d →
  hget h d a k = Ok VUndef (<[a := set_props (<[k := VUndef]> (props n)) n]> h).
Proof.
  intros Ha Hk (Hres & Hhost & Hro) Hd.
  unfold handler_get, target_get, target_set. rewrite Hres, Ha, Hk, Hhost.
  cbn [bind is_undefined negb].
  rewrite createMock_exhausted by lia.
  rewrite Ha, Hk, Hro. reflexivity.
Qed.

Lemma fresh_is_mock_node (h : store) (d : nat) (a : addr) :
  h !! a = Some (fresh_node d a) → is_mock_node h d a.
Proof. intros Ha. exists (fresh_node d a). split; [exact Ha | reflexivity]. Qed.

Lemma walk_app (h : store) (v : value) (ks ks' : list string) :
  walk host_get host_readonly h v (ks ++ ks') =
  bind (walk host_get host_readonly h v ks)
       (fun c h1 => walk host_get host_readonly h1 c ks').
Proof.
  revert h v. induction ks as [| k ks IH]; intros h v; [reflexivity |].
  cbn [walk app]. destruct (member h v k) as [c h1 | e h1 |]; cbn [bind];
    [apply IH | reflexivity | reflexivity].
Qed.

(** Walking down from a node in its construction state stays on nodes in
    their construction state, one level deeper per read. *)
Lemma walk_fresh (ks : list string) (h : store) (d : nat) (a : addr) :
  h !! a = Some (fresh_node d a) → Forall plain_key ks →
  d + List.length ks ≤ MAX_DEPTH →
  ∃ b h', walk host_get host_readonly h (VProxy d a) ks
            = Ok (VProxy (d + List.length ks) b) h'
          ∧ h' !! b = Some (fresh_node (d + List.length ks) b).
Proof.
  revert h d a. induction ks as [| k ks IH]; intros h d a Ha Hks Hd.
  - exists a, h. cbn [walk List.length]. rewrite Nat.add_0_r. by split.
  - cbn [List.length] in Hd. apply Forall_cons in Hks as [Hk Hks].
    cbn [walk get_member].
    rewrite (hget_materialize h d a _ k Ha) by
      (first [by apply fresh_plain_absent | done | lia]).
    cbn [bind].
    pose proof (lookup_lt_Some _ _ _ Ha) as Hlt.
    match goal with
    | |- context [walk _ _ ?h1 _ ks] =>
        destruct (IH h1 (d + 1) (List.length h)) as (b & h' & Hw & Hb);
          [| exact Hks | lia |]
    end.
    + rewrite list_lookup_insert_ne by lia.
      by apply list_lookup_middle.
    + exists b, h'. cbn [List.length].
      replace (d + S (List.length ks)) with (d + 1 + List.length ks) by lia.
      by split.
Qed.

(** C1 (amended). From a root made by [createMock()] (depth 0), along every
    chain of reads of plain keys (keys that are neither reserved protocol
    names nor members the runtime gives every function object), each read
    down to depth [MAX_DEPTH] = 10 lands on a mock node and returns a
    materialized child mock node one level deeper, which is stored under its
    key on the node that was read; on the node reached after 10 reads (whose
    depth + 1 exceeds the bound) a read returns [undefined]: it neither
    raises nor allocates a node. *)
Theorem depth_bound (h : store) (ks : list string) (k : string) :
  Forall plain_key ks → plain_key k →
  let root := fst (createMock h 0) in
  let h0 := snd (createMock h 0) in
  (List.length ks < MAX_DEPTH →
     ∃ a h1 b h2,
       walk host_get host_readonly h0 root ks
         = Ok (VProxy (List.length ks) a) h1
       ∧ is_mock_node h1 (List.length ks) a
       ∧ member h1 (VProxy (List.length ks) a) k
         = Ok (VProxy (List.length ks + 1) b) h2
       ∧ is_mock_node h2 (List.length ks + 1) b
       ∧ prop_of h2 a k = Some (VProxy (List.length ks + 1) b)
       ∧ walk host_get host_readonly h0 root (ks ++ [k])
         = Ok (VProxy (List.length ks + 1) b) h2)
  ∧ (List.length ks = MAX_DEPTH →
     ∃ a h1 h2,
       walk host_get host_readonly h0 root ks = Ok (VProxy MAX_DEPTH a) h1
       ∧ is_mock_node h1 MAX_DEPTH a
       ∧ member h1 (VProxy MAX_DEPTH a) k = Ok VUndef h2
       ∧ List.length h2 = List.length h1).
Proof.
  intros Hks Hk root h0. subst root h0.
  rewrite createMock_fresh by (unfold MAX_DEPTH; lia). cbn [fst snd].
  assert (Hroot : (h ++ [fresh_node 0 (List.length h)]) !! List.length h
                  = Some (fresh_node 0 (List.length h)))
    by (by apply list_lookup_middle).
  split; intros Hlen.
  - destruct (walk_fresh ks _ 0 _ Hroot Hks) as (a & h1 & Hw & Ha); [lia |].
    cbn [Nat.add] in Hw, Ha.
    pose proof (lookup_lt_Some _ _ _ Ha) as Hlt.
    pose proof (hget_materialize h1 (List.length ks) a _ k Ha
                  (fresh_plain_absent _ _ k Hk) Hk Hlen) as Hget.
    exists a, h1, (List.length h1). eexists.
    split; [exact Hw |]. split; [by apply fresh_is_mock_node |].
    split; [exact Hget |]. split; [| split].
    + apply fresh_is_mock_node. rewrite list_lookup_insert_ne by lia.
      by apply list_lookup_middle.
    + unfold prop_of.
      rewrite list_lookup_insert_eq by (rewrite length_app; lia).
      cbn. by rewrite lookup_insert_eq.
    + rewrite walk_app, Hw. cbn [bind walk get_member]. by rewrite Hget.
  - destruct (walk_fresh ks _ 0 _ Hroot Hks) as (a & h1 & Hw & Ha); [lia |].
    cbn [Nat.add] in Hw, Ha. rewrite Hlen in Hw, Ha.
    exists a, h1. eexists. split; [exact Hw |].
    split; [by apply fresh_is_mock_node |]. cbn [get_member].
    rewrite (hget_exhausted h1 MAX_DEPTH a _ k Ha) by
      (first [by apply fresh_plain_absent | done | lia]).
    split; [reflexivity | by rewrite length_insert].
Qed.

(** *** Invocation of a recorder whose [mock] record is in place *)

Lemma protocol_mock (d : nat) (a : addr) :
  protocol_props d a !! "mock" = Some (VMockRec a).
Proof. reflexivity. Qed.

Lemma protocol_lookup (d : nat) (a : addr) (n : node) (k : string) (v : value) :
  protocol_props d a ⊆ props n → protocol_props d a !! k = Some v →
  props n !! k = Some v.
Proof. intros Hsub Hk. exact (lookup_weaken _ _ _ _ Hk Hsub). Qed.

Lemma mock_node_lookup (h : store) (d : nat) (a : addr) (k : string) (v : value) :
  is_mock_node h d a → protocol_props d a !! k = Some v →
  ∃ n, h !! a = Some n ∧ props n !! k = Some v.
Proof.
  intros (n & Ha & Hsub) Hk. exists n. split; [exact Ha |].
  by eapply lookup_weaken.
Qed.

Lemma on_mock_rec_ok (h : store) (a : addr) (n : node) (upd : node → node) :
  h !! a = Some n → props n !! "mock" = Some (VMockRec a) →
  on_mock_rec host_get h a upd = Ok tt (<[a := upd n]> h).
Proof.
  intros Ha Hm. unfold on_mock_rec, target_get. rewrite Ha, Hm.
  cbn [bind]. by rewrite Ha.
Qed.

(** A behaviour leaves the store as it is or appends to it. *)
Lemma call_value_ext (h : store) (f : value) (args : list value) :
  match call_value user_fn h f args with
  | Ok _ h' | Throw _ h' => ∃ ext, h' = h ++ ext
  | Unmodelled => True
  end.
Proof.
  assert (Hnil : ∃ ext : store, h = h ++ ext) by (exists []; by rewrite app_nil_r).
  destruct f; cbn [call_value]; try exact Hnil; try exact I.
  - destruct (user_fn f args); exact Hnil.
  - destruct (le_lt_dec d MAX_DEPTH) as [Hd | Hd].
    + rewrite createMock_fresh by exact Hd. by eexists.
    + rewrite createMock_exhausted by exact Hd. exact Hnil.
Qed.

Lemma invoke_mock_node (h : store) (a : addr) (n : node) (args : list value) :
  h !! a = Some n → props n !! "mock" = Some (VMockRec a) →
  let n1 := set_onceQueue (tl (onceQueue n)) (push_call args n) in
  invoke_ h a args =
    match (if truthy (chosen n)
           then call_value user_fn (<[a := n1]> h) (chosen n) args
           else Ok VUndef (<[a := n1]> h)) with
    | Ok r h3 => Ok r (<[a := push_result RReturn r n1]> h3)
    | Throw e h3 => Throw e (<[a := push_result RThrow e n1]> h3)
    | Unmodelled => Unmodelled
    end.
Proof.
  intros Ha Hm n1. pose proof (lookup_lt_Some _ _ _ Ha) as Hlt.
  unfold invoke. rewrite (on_mock_rec_ok h a n _ Ha Hm). cbn [bind].
  rewrite list_lookup_insert_eq by exact Hlt.
  rewrite list_insert_insert_eq.
  change (set_onceQueue (tl (onceQueue (push_call args n))) (push_call args n))
    with n1.
  change (if nullish (hd VUndef (onceQueue (push_call args n)))
          then impl (push_call args n)
          else hd VUndef (onceQueue (push_call args n))) with (chosen n).
  assert (Hn1 : (<[a := n1]> h) !! a = Some n1)
    by (by apply list_lookup_insert_eq).
  assert (Hm1 : props n1 !! "mock" = Some (VMockRec a)) by exact Hm.
  assert (Hlog : ∀ ext k v,
    on_mock_rec host_get (<[a := n1]> h ++ ext) a (push_result k v)
    = Ok tt (<[a := push_result k v n1]> (<[a := n1]> h ++ ext))).
  { intros ext k v. apply on_mock_rec_ok; [| exact Hm1].
    by apply lookup_app_l_Some. }
  destruct (truthy (chosen n)).
  - pose proof (call_value_ext (<[a := n1]> h) (chosen n) args) as Hext.
    destruct (call_value user_fn (<[a := n1]> h) (chosen n) args)
      as [r h3 | e h3 |]; [| | reflexivity];
      destruct Hext as [ext ->]; rewrite Hlog; reflexivity.
  - specialize (Hlog [] RReturn VUndef). rewrite app_nil_r in Hlog.
    by rewrite Hlog.
Qed.

(** C5. On a mock node whose chosen behaviour is a caller function raising
    [E], the invocation appends its arguments to the call log, appends
    [{throw, E}] to the result log and raises [E] itself; a configured
    rejection returns the promise rejected with [E] itself; and the recorder
    raises nothing of its own: whenever an invocation raises [e], the chosen
    behaviour is a caller function that raised [e]. *)
Theorem failure_propagation (h : store) (d : nat) (a : addr) (n : node)
    (args : list value) :
  is_mock_node h d a → h !! a = Some n →
  (∀ f E, chosen n = VFn f → user_fn f args = Raise E →
     ∃ h' n', invoke_ h a args = Throw E h' ∧ h' !! a = Some n'
       ∧ calls n' = calls n ++ [args]
       ∧ results n' = results n ++ [ {| rtype := RThrow; rvalue := E |} ])
  ∧ (∀ E, chosen n = VRejectFn E →
     ∃ h' n', invoke_ h a args = Ok (VPromiseReject E) h' ∧ h' !! a = Some n'
       ∧ results n'
         = results n ++ [ {| rtype := RReturn; rvalue := VPromiseReject E |} ])
  ∧ (∀ e h', callable (chosen n) = true ∨ truthy (chosen n) = false →
     invoke_ h a args = Throw e h' →
     ∃ f, chosen n = VFn f ∧ user_fn f args = Raise e).
Proof.
  intros Hnode Ha.
  destruct (mock_node_lookup h d a _ _ Hnode (protocol_mock d a))
    as (n0 & Ha0 & Hm).
  assert (n0 = n) by congruence. subst n0. clear Ha0.
  pose proof (lookup_lt_Some _ _ _ Ha) as Hlt.
  pose proof (invoke_mock_node h a n args Ha Hm) as Hinv. cbn zeta in Hinv.
  split; [| split].
  - intros f E Hc Hf. rewrite Hc in Hinv. cbn [truthy call_value] in Hinv.
    rewrite Hf in Hinv. eexists. eexists. split; [exact Hinv |].
    split; [by rewrite list_insert_insert_eq, list_lookup_insert_eq |].
    by split.
  - intros E Hc. rewrite Hc in Hinv. cbn [truthy call_value] in Hinv.
    eexists. eexists. split; [exact Hinv |].
    split; [by rewrite list_insert_insert_eq, list_lookup_insert_eq |].
    reflexivity.
  - intros e h' Hty Hthrow. rewrite Hinv in Hthrow.
    destruct (truthy (chosen n)) eqn:Htr.
    + destruct Hty as [Hcall | ?]; [| discriminate].
      destruct (chosen n) as [| | | | | | f | | | | | | | | d' | | | |];
        try discriminate Hcall; cbn [call_value] in Hthrow;
        try discriminate Hthrow.
      * exists f. split; [reflexivity |].
        destruct (user_fn f args); [discriminate | congruence].
      * destruct (createMock _ d'). discriminate.
    + discriminate.
Qed.

(** *** Configuration through the proxy *)

Lemma configured_mock_node (h : store) (d : nat) (a : addr) (q : list value)
    (dflt : value) :
  configured h d a q dflt → is_mock_node h d a.
Proof. intros (n & Ha & Hsub & _). exists n. split; assumption. Qed.

Lemma mock_node_configured (h : store) (d : nat) (a : addr) (n : node) :
  is_mock_node h d a → h !! a = Some n →
  configured h d a (onceQueue n) (impl n).
Proof.
  intros (n0 & Ha0 & Hsub) Ha. assert (n0 = n) by congruence. subst n0.
  exists n. split; [exact Ha | split; [exact Hsub | split; reflexivity]].
Qed.

Lemma member_reserved (h : store) (d : nat) (a : addr) (n : node)
    (k : string) (v : value) :
  h !! a = Some n → protocol_props d a ⊆ props n →
  protocol_props d a !! k = Some v → reserved k = true →
  member h (VProxy d a) k = Ok v h.
Proof.
  intros Ha Hsub Hk Hres. cbn [get_member]. unfold handler_get, target_get.
  rewrite Hres, Ha. by rewrite (lookup_weaken _ _ _ _ Hk Hsub).
Qed.

Lemma queue_once (h : store) (d : nat) (a : addr) (q : list value)
    (dflt f : value) :
  configured h d a q dflt →
  ∃ h', call_member user_fn host_get host_readonly h (VProxy d a)
          "mockImplementationOnce" [f] = Ok (VBase a) h'
        ∧ configured h' d a (q ++ [f]) dflt.
Proof.
  intros (n & Ha & Hsub & Hq & Hi).
  pose proof (lookup_lt_Some _ _ _ Ha) as Hlt.
  unfold call_member.
  rewrite (member_reserved h d a n "mockImplementationOnce"
             (VMethod a MImplementationOnce) Ha Hsub) by reflexivity.
  cbn [bind call call_method call_leaf]. rewrite Ha. eexists. split; [reflexivity |].
  eexists. split; [apply list_lookup_insert_eq; exact Hlt |].
  split; [exact Hsub |]. split; [| exact Hi].
  cbn [set_onceQueue onceQueue hd]. rewrite Hq. reflexivity.
Qed.

Lemma set_implementation (h : store) (d : nat) (a : addr) (q : list value)
    (dflt f : value) :
  configured h d a q dflt →
  ∃ h', call_member user_fn host_get host_readonly h (VProxy d a)
          "mockImplementation" [f] = Ok (VBase a) h'
        ∧ configured h' d a q f.
Proof.
  intros (n & Ha & Hsub & Hq & Hi).
  pose proof (lookup_lt_Some _ _ _ Ha) as Hlt.
  unfold call_member.
  rewrite (member_reserved h d a n "mockImplementation"
             (VMethod a MImplementation) Ha Hsub) by reflexivity.
  cbn [bind call call_method call_leaf]. rewrite Ha. eexists. split; [reflexivity |].
  eexists. split; [apply list_lookup_insert_eq; exact Hlt |].
  split; [exact Hsub |]. split; [exact Hq | reflexivity].
Qed.

Lemma stateless_truthy (f : value) : stateless f = true → truthy f = true.
Proof. by destruct f. Qed.

Lemma stateless_not_nullish (f : value) : stateless f = true → nullish f = false.
Proof. by destruct f. Qed.

Lemma call_stateless (h : store) (f : value) (args : list value) :
  stateless f = true →
  call_value user_fn h f args = res_of (apply_stateless user_fn f args) h.
Proof. destruct f; try discriminate; reflexivity. Qed.

(** One invocation: the head of the queue is consumed, or, on an empty
    queue, the implementation is used. *)
Lemma invoke_configured (h : store) (d : nat) (a : addr) (q : list value)
    (dflt : value) (args : list value) :
  configured h d a q dflt →
  stateless (hd dflt q) = true →
  ∃ h', invoke_ h a args = res_of (apply_stateless user_fn (hd dflt q) args) h'
        ∧ configured h' d a (tl q) dflt.
Proof.
  intros (n & Ha & Hsub & Hq & Hi) Hst.
  pose proof (lookup_lt_Some _ _ _ Ha) as Hlt.
  assert (Hm : props n !! "mock" = Some (VMockRec a))
    by (eapply lookup_weaken; [apply protocol_mock | exact Hsub]).
  assert (Hc : chosen n = hd dflt q).
  { unfold chosen. rewrite Hq, Hi. destruct q as [| b q']; cbn [hd] in *.
    - reflexivity.
    - by rewrite (stateless_not_nullish b Hst). }
  rewrite (invoke_mock_node h a n args Ha Hm). cbn zeta.
  rewrite Hc, (stateless_truthy _ Hst), (call_stateless _ _ _ Hst).
  destruct (apply_stateless user_fn (hd dflt q) args) as [v | e];
    cbn [res_of]; (eexists; split; [reflexivity |]);
    (eexists; split;
       [rewrite list_insert_insert_eq; apply list_lookup_insert_eq;
        exact Hlt |]);
    (split; [exact Hsub |]); (split; [| exact Hi]);
    cbn [push_result set_results set_onceQueue push_call set_calls onceQueue];
    rewrite Hq; reflexivity.
Qed.

(** With the queue empty, every invocation uses the implementation. *)
Lemma invocations_default (argss : list (list value)) (h : store) (d : nat)
    (a : addr) (dflt : value) :
  configured h d a [] dflt → stateless dflt = true →
  ∃ h', invocations user_fn host_get h a argss
          = Some (map (apply_stateless user_fn dflt) argss, h')
        ∧ configured h' d a [] dflt.
Proof.
  revert h. induction argss as [| args rest IH]; intros h Hcfg Hst.
  - exists h. by split.
  - destruct (invoke_configured h d a [] dflt args Hcfg Hst)
      as (h1 & Hinv & Hcfg1). cbn [hd tl] in Hinv, Hcfg1.
    destruct (IH h1 Hcfg1 Hst) as (h2 & Hrest & Hcfg2).
    exists h2. split; [| exact Hcfg2].
    cbn [invocations map]. rewrite Hinv.
    destruct (apply_stateless user_fn dflt args); cbn [res_of];
      rewrite Hrest; reflexivity.
Qed.

(** C3. On a mock node with nothing queued, after a default behaviour [dflt]
    is configured and the one-shot behaviours [b1] then [b2] are queued with
    [mockImplementationOnce], the next two invocations produce the result of
    [b1] and then of [b2], and every further invocation produces the result
    of [dflt]; once a new one-shot [b3] is queued, it is used for exactly the
    next invocation, after which [dflt] is used again. *)
Theorem one_shot_fifo (h : store) (d : nat) (a : addr) (n : node)
    (b1 b2 dflt : value) (args1 args2 : list value)
    (rest : list (list value)) :
  is_mock_node h d a → h !! a = Some n → onceQueue n = [] →
  stateless b1 = true → stateless b2 = true → stateless dflt = true →
  ∃ h1 h2 h3 h4,
    call_member user_fn host_get host_readonly h (VProxy d a)
      "mockImplementation" [dflt] = Ok (VBase a) h1
    ∧ call_member user_fn host_get host_readonly h1 (VProxy d a)
        "mockImplementationOnce" [b1] = Ok (VBase a) h2
    ∧ call_member user_fn host_get host_readonly h2 (VProxy d a)
        "mockImplementationOnce" [b2] = Ok (VBase a) h3
    ∧ invocations user_fn host_get h3 a (args1 :: args2 :: rest)
      = Some (apply_stateless user_fn b1 args1
              :: apply_stateless user_fn b2 args2
              :: map (apply_stateless user_fn dflt) rest, h4)
    ∧ ∀ b3 args3 args4, stateless b3 = true →
        ∃ h5 h6,
          call_member user_fn host_get host_readonly h4 (VProxy d a)
            "mockImplementationOnce" [b3] = Ok (VBase a) h5
          ∧ invocations user_fn host_get h5 a [args3; args4]
            = Some ([apply_stateless user_fn b3 args3;
                     apply_stateless user_fn dflt args4], h6).
Proof.
  intros Hnode Ha Hq Hb1 Hb2 Hd.
  pose proof (mock_node_configured h d a n Hnode Ha) as Hcfg. rewrite Hq in Hcfg.
  destruct (set_implementation h d a [] (impl n) dflt Hcfg) as (h1 & E1 & C1).
  destruct (queue_once h1 d a [] dflt b1 C1) as (h2 & E2 & C2).
  destruct (queue_once h2 d a _ dflt b2 C2) as (h3 & E3 & C3).
  cbn [app] in C2, C3.
  destruct (invoke_configured h3 d a [b1; b2] dflt args1 C3 Hb1)
    as (i1 & I1 & D1). cbn [hd tl] in I1, D1.
  destruct (invoke_configured i1 d a [b2] dflt args2 D1 Hb2)
    as (i2 & I2 & D2). cbn [hd tl] in I2, D2.
  destruct (invocations_default rest i2 d a dflt D2 Hd) as (h4 & I3 & D3).
  exists h1, h2, h3, h4. repeat (split; [assumption |]). split.
  - cbn [invocations]. rewrite I1.
    destruct (apply_stateless user_fn b1 args1); cbn [res_of]; rewrite I2;
      destruct (apply_stateless user_fn b2 args2); cbn [res_of]; rewrite I3;
      reflexivity.
  - intros b3 args3 args4 Hb3.
    destruct (queue_once h4 d a [] dflt b3 D3) as (h5 & E5 & C5).
    cbn [app] in C5.
    destruct (invoke_configured h5 d a [b3] dflt args3 C5 Hb3)
      as (j1 & J1 & F1). cbn [hd tl] in J1, F1.
    destruct (invoke_configured j1 d a [] dflt args4 F1 Hd)
      as (j2 & J2 & F2). cbn [hd tl] in J2.
    exists h5, j2. split; [exact E5 |].
    cbn [invocations]. rewrite J1.
    destruct (apply_stateless user_fn b3 args3); cbn [res_of]; rewrite J2;
      destruct (apply_stateless user_fn dflt args4); reflexivity.
Qed.

(** *** Clearing *)

Lemma call_value_outcome_length (h h' : store) (f : value) (args : list value) :
  List.length h = List.length h' →
  outcome_of (call_value user_fn h f args)
  = outcome_of (call_value user_fn h' f args).
Proof.
  intros Hlen. destruct f; cbn [call_value outcome_of]; try reflexivity.
  - by destruct (user_fn f args).
  - unfold createMock, createBaseMock. rewrite Hlen.
    by destruct (MAX_DEPTH <? d).
Qed.

Lemma clear_leaf (h : store) (a : addr) (n : node) (m : method) :
  h !! a = Some n → props n !! "mock" = Some (VMockRec a) →
  m = MClear ∨ m = MBClear →
  call_leaf user_fn host_get h (VMethod a m) []
  = Ok (VBase a) (<[a := set_results [] (set_calls [] n)]> h).
Proof.
  intros Ha Hm Hcase. pose proof (lookup_lt_Some _ _ _ Ha) as Hlt.
  assert (Hgoal :
    bind (on_mock_rec host_get h a (set_calls []))
      (fun _ h1 => bind (on_mock_rec host_get h1 a (set_results []))
         (fun _ h2 => Ok (VBase a) h2))
    = Ok (VBase a) (<[a := set_results [] (set_calls [] n)]> h)).
  { rewrite (on_mock_rec_ok h a n _ Ha Hm). cbn [bind].
    rewrite (on_mock_rec_ok _ a (set_calls [] n));
      [| by apply list_lookup_insert_eq | exact Hm].
    cbn [bind]. by rewrite list_insert_insert_eq. }
  destruct Hcase as [-> | ->]; exact Hgoal.
Qed.

(** C8. [mockClear()] on a mock node empties the call log and the result
    log and leaves the implementation, the one-shot queue and every property
    as they were, so the invocation that follows yields what it would have
    yielded without the clear.  The [mockClear] of [createBaseMock] does the
    same. *)
Theorem clear_keeps_behaviour (h : store) (d : nat) (a : addr) (n : node)
    (args : list value) :
  is_mock_node h d a → h !! a = Some n →
  ∃ h' n',
    call_member user_fn host_get host_readonly h (VProxy d a) "mockClear" []
      = Ok (VBase a) h'
    ∧ call_method user_fn host_get h a MBClear [] = Ok (VBase a) h'
    ∧ h' !! a = Some n'
    ∧ calls n' = [] ∧ results n' = []
    ∧ impl n' = impl n ∧ onceQueue n' = onceQueue n
    ∧ defaultImpl n' = defaultImpl n ∧ props n' = props n
    ∧ outcome_of (invoke_ h' a args) = outcome_of (invoke_ h a args).
Proof.
  intros Hnode Ha. pose proof (lookup_lt_Some _ _ _ Ha) as Hlt.
  destruct Hnode as (n0 & Ha0 & Hsub).
  assert (n0 = n) by congruence. subst n0. clear Ha0.
  assert (Hm : props n !! "mock" = Some (VMockRec a))
    by (eapply lookup_weaken; [apply protocol_mock | exact Hsub]).
  exists (<[a := set_results [] (set_calls [] n)]> h),
         (set_results [] (set_calls [] n)).
  assert (Ha' : (<[a := set_results [] (set_calls [] n)]> h) !! a
                = Some (set_results [] (set_calls [] n)))
    by (by apply list_lookup_insert_eq).
  split.
  { unfold call_member.
    rewrite (member_reserved h d a n "mockClear" (VMethod a MClear) Ha Hsub)
      by reflexivity.
    cbn [bind call call_method]. apply clear_leaf; auto. }
  split; [cbn [call_method]; apply clear_leaf; auto |].
  split; [exact Ha' |]. do 6 (split; [reflexivity |]).
  rewrite (invoke_mock_node _ a _ args Ha' Hm),
          (invoke_mock_node h a n args Ha Hm). cbn zeta.
  change (chosen (set_results [] (set_calls [] n))) with (chosen n).
  destruct (truthy (chosen n)); [| reflexivity].
  match goal with
  | |- outcome_of (match call_value _ ?s1 _ _ with _ => _ end)
       = outcome_of (match call_value _ ?s2 _ _ with _ => _ end) =>
      pose proof (call_value_outcome_length s1 s2 (chosen n) args) as Hout
  end.
  rewrite !length_insert in Hout. specialize (Hout eq_refl).
  destruct (call_value user_fn _ (chosen n) args);
    destruct (call_value user_fn _ (chosen n) args);
    cbn [outcome_of] in *; congruence.
Qed.

(** *** Resetting *)

(** Whatever the queue holds, the [mockReset] installed by [createMock]
    leaves it in place. *)
Lemma reset_leaves_queue (h : store) (d : nat) (a : addr) (n : node) :
  is_mock_node h d a → h !! a = Some n →
  ∃ h' n',
    call_member user_fn host_get host_readonly h (VProxy d a) "mockReset" []
      = Ok (VBase a) h'
    ∧ h' !! a = Some n'
    ∧ calls n' = [] ∧ results n' = []
    ∧ impl n' = VNestedFn (d + 1)
    ∧ onceQueue n' = onceQueue n.
Proof.
  intros Hnode Ha. pose proof (lookup_lt_Some _ _ _ Ha) as Hlt.
  destruct Hnode as (n0 & Ha0 & Hsub).
  assert (n0 = n) by congruence. subst n0. clear Ha0.
  assert (Hm : props n !! "mock" = Some (VMockRec a))
    by (eapply lookup_weaken; [apply protocol_mock | exact Hsub]).
  assert (Hc : props n !! "mockClear" = Some (VMethod a MClear))
    by (apply (protocol_lookup d a n "mockClear" _ Hsub); reflexivity).
  assert (Hi : props n !! "mockImplementation"
               = Some (VMethod a MImplementation))
    by (apply (protocol_lookup d a n "mockImplementation" _ Hsub);
        reflexivity).
  unfold call_member.
  rewrite (member_reserved h d a n "mockReset" (VMethod a (MReset d)) Ha Hsub)
    by reflexivity.
  cbn [bind call call_method]. unfold target_get at 1. rewrite Ha, Hc.
  cbn [bind]. rewrite (clear_leaf h a n MClear Ha Hm) by auto.
  cbn [bind]. unfold delegate_self, delegate, target_get.
  rewrite list_lookup_insert_eq by exact Hlt.
  cbn [props set_results set_calls]. rewrite Hi. cbn [bind call_leaf].
  rewrite list_lookup_insert_eq by exact Hlt. cbn [bind hd].
  eexists. eexists. split; [reflexivity |].
  split; [rewrite list_insert_insert_eq; apply list_lookup_insert_eq;
          exact Hlt |].
  repeat split; reflexivity.
Qed.

(** *** Introspection *)

(** Reading [mock] never changes the store. *)
Lemma member_mock_store (h h1 : store) (v m : value) :
  member h v "mock" = Ok m h1 → h1 = h.
Proof.
  destruct v; cbn [get_member]; try discriminate.
  - destruct (host_get "mock"); cbn [lift_outcome]; congruence.
  - destruct (host_get "mock"); cbn [lift_outcome]; congruence.
  - destruct (host_get "mock"); cbn [lift_outcome]; congruence.
  - destruct (host_get "mock"); cbn [lift_outcome]; congruence.
  - destruct (host_get "mock"); cbn [lift_outcome]; congruence.
  - unfold target_get. destruct (h !! a) as [n |]; [| discriminate].
    destruct (props n !! "mock"); [congruence |].
    destruct (host_get "mock"); congruence.
  - unfold handler_get. change (reserved "mock") with true. cbv iota.
    unfold target_get. destruct (h !! a) as [n |]; [| discriminate].
    destruct (props n !! "mock"); [congruence |].
    destruct (host_get "mock"); congruence.
  - destruct (host_get "mock"); cbn [lift_outcome]; congruence.
Qed.

(** [isMock] answers [true] exactly on a function whose [mock] member is a
    record of two arrays. *)
Lemma isMock_true (h h' : store) (v : value) :
  isMock host_get host_readonly h v = Ok true h' →
  h' = h ∧ typeof_function v = true
  ∧ ∃ c n, member h v "mock" = Ok (VMockRec c) h ∧ h !! c = Some n.
Proof.
  unfold isMock. destruct (typeof_function v); cbn [negb]; [| discriminate].
  destruct (member h v "mock") as [m h1 | e h1 |] eqn:Hm; cbn [bind];
    [| discriminate | discriminate].
  pose proof (member_mock_store _ _ _ _ Hm) as ->.
  destruct (typeof_object m); cbn [negb]; [| discriminate].
  destruct m; try discriminate.
  destruct (h !! a) as [n |] eqn:Ha; [| discriminate].
  intros [= <-]. split; [reflexivity |]. split; [reflexivity |].
  by exists a, n.
Qed.

(** The part of C9 that holds: [getCallInfo] raises its [TypeError] when
    [isMock] answers [false], returns the summary of the record's two logs
    when [isMock] answers [true], and otherwise passes on what [isMock]
    raised. *)
Lemma getCallInfo_cases (h : store) (v : value) :
  match isMock host_get host_readonly h v with
  | Ok false h' =>
      getCallInfo host_get host_readonly h v
      = Throw (VTypeError "Argument must be a mock function") h'
  | Ok true h' =>
      ∃ c n, member h v "mock" = Ok (VMockRec c) h ∧ h !! c = Some n
        ∧ getCallInfo host_get host_readonly h v
          = Ok {| callCount := List.length (calls n);
                  info_calls := calls n;
                  info_results := results n;
                  lastCall := List.last (calls n) [];
                  lastResult :=
                    List.last (results n)
                              {| rtype := RReturn; rvalue := VUndef |} |} h
  | Throw e h' => getCallInfo host_get host_readonly h v = Throw e h'
  | Unmodelled => getCallInfo host_get host_readonly h v = Unmodelled
  end.
Proof.
  unfold getCallInfo.
  destruct (isMock host_get host_readonly h v) as [[|] h1 | e h1 |] eqn:Him;
    cbn [bind negb]; try reflexivity.
  destruct (isMock_true _ _ _ Him) as (-> & _ & c & n & Hm & Hc).
  exists c, n. split; [exact Hm |]. split; [exact Hc |].
  rewrite Hm. cbn [bind]. by rewrite Hc.
Qed.

(** *** Which properties an operation can change *)

Lemma co_refl (T : addr → string → bool) (h : store) : changed_only T h h.
Proof. intros b n Hb. by exists n. Qed.

Lemma co_trans (T : addr → string → bool) (h1 h2 h3 : store) :
  changed_only T h1 h2 → changed_only T h2 h3 → changed_only T h1 h3.
Proof.
  intros H12 H23 b n Hb.
  destruct (H12 b n Hb) as (n2 & Hb2 & E2).
  destruct (H23 b n2 Hb2) as (n3 & Hb3 & E3).
  exists n3. split; [exact Hb3 |]. intros k Hk.
  rewrite (E3 k Hk). apply (E2 k Hk).
Qed.

Lemma co_mono (T T' : addr → string → bool) (h h' : store) :
  (∀ b k, b < List.length h → T b k = true → T' b k = true) →
  changed_only T h h' → changed_only T' h h'.
Proof.
  intros Hle Hco b n Hb. destruct (Hco b n Hb) as (n' & Hb' & E).
  exists n'. split; [exact Hb' |]. intros k Hk. apply E.
  destruct (T b k) eqn:HT; [| reflexivity].
  rewrite (Hle b k (lookup_lt_Some _ _ _ Hb) HT) in Hk. discriminate.
Qed.

Lemma co_insert (T : addr → string → bool) (h : store) (c : addr) (n n' : node) :
  h !! c = Some n →
  (∀ k, T c k = false → props n' !! k = props n !! k) →
  changed_only T h (<[c := n']> h).
Proof.
  intros Hc Hp b m Hb. destruct (decide (b = c)) as [-> | Hne].
  - exists n'. split.
    + apply list_lookup_insert_eq. by eapply lookup_lt_Some.
    + assert (m = n) by congruence. subst m. exact Hp.
  - exists m. split; [by rewrite list_lookup_insert_ne | done].
Qed.

Lemma co_app (T : addr → string → bool) (h ext : store) :
  changed_only T h (h ++ ext).
Proof. intros b n Hb. exists n. split; [by apply lookup_app_l_Some | done]. Qed.

Lemma co_createMock (T : addr → string → bool) (h : store) (d : nat) :
  changed_only T h (snd (createMock h d)).
Proof.
  destruct (le_lt_dec d MAX_DEPTH) as [Hd | Hd].
  - rewrite createMock_fresh by exact Hd. apply co_app.
  - rewrite createMock_exhausted by exact Hd. apply co_refl.
Qed.

Lemma co_bind {A B} (T : addr → string → bool) (h : store) (c : res A)
    (k : A → store → res B) :
  res_changed T h c →
  (∀ x h1, res_changed T h1 (k x h1)) →
  res_changed T h (bind c k).
Proof.
  intros Hc Hk. destruct c as [x h1 | e h1 |]; cbn [bind res_changed] in *;
    [| exact Hc | exact I].
  specialize (Hk x h1). destruct (k x h1); cbn [res_changed] in *;
    [| | exact I]; by eapply co_trans.
Qed.

Lemma co_target_get (T : addr → string → bool) (h : store) (a : addr)
    (k : string) :
  res_changed T h (tget h a k).
Proof.
  unfold target_get. destruct (h !! a) as [n |]; [| exact I].
  destruct (props n !! k); [apply co_refl |].
  destruct (host_get k); apply co_refl.
Qed.

Lemma co_target_set (T : addr → string → bool) (h : store) (a : addr)
    (k : string) (v : value) :
  T a k = true → res_changed T h (tset h a k v).
Proof.
  intros HT. unfold target_set. destruct (h !! a) as [n |] eqn:Ha; [| exact I].
  assert (Hins : changed_only T h
                   (<[a := set_props (<[k := v]> (props n)) n]> h)).
  { apply (co_insert T h a n _ Ha). intros k' Hk'. cbn [props set_props].
    apply lookup_insert_ne. intros ->. congruence. }
  destruct (props n !! k); [exact Hins |].
  destruct (host_readonly k); [apply co_refl | exact Hins].
Qed.

Lemma co_handler_get_reserved (T : addr → string → bool) (h : store)
    (d : nat) (a : addr) (k : string) :
  reserved k = true → res_changed T h (hget h d a k).
Proof. intros Hk. unfold handler_get. rewrite Hk. apply co_target_get. Qed.

Lemma co_handler_get (T : addr → string → bool) (h : store) (d : nat)
    (a : addr) (k : string) :
  T a k = true → res_changed T h (hget h d a k).
Proof.
  intros HT. unfold handler_get.
  destruct (reserved k); [apply co_target_get |].
  apply co_bind; [apply co_target_get |]. intros v h1.
  destruct (negb (is_undefined v)); [apply co_refl |].
  pose proof (co_createMock T h1 (d + 1)) as Hcm.
  destruct (createMock h1 (d + 1)) as [nested h2]. cbn [snd] in Hcm.
  pose proof (co_target_set T h2 a k nested HT) as Hset.
  destruct (tset h2 a k nested) as [u h3 | e h3 |];
    cbn [bind res_changed] in *; [| | exact I]; by eapply co_trans.
Qed.

Lemma co_on_mock_rec (T : addr → string → bool) (h : store) (a : addr)
    (upd : node → node) :
  (∀ n, props (upd n) = props n) →
  res_changed T h (on_mock_rec host_get h a upd).
Proof.
  intros Hupd. unfold on_mock_rec. apply co_bind; [apply co_target_get |].
  intros m h1.
  destruct m; cbn [is_primitive]; try exact I; try apply co_refl.
  destruct (h1 !! a0) as [n |] eqn:Hc; [| exact I].
  apply (co_insert T h1 a0 n _ Hc). intros k _. by rewrite Hupd.
Qed.

Lemma co_call_value (T : addr → string → bool) (h : store) (f : value)
    (args : list value) :
  res_changed T h (call_value user_fn h f args).
Proof.
  pose proof (call_value_ext h f args) as Hext.
  destruct (call_value user_fn h f args) as [r h' | e h' |]; [| | exact I];
    destruct Hext as [ext ->]; apply co_app.
Qed.

Lemma co_invoke (T : addr → string → bool) (h : store) (a : addr)
    (args : list value) :
  res_changed T h (invoke_ h a args).
Proof.
  unfold invoke. apply co_bind; [by apply co_on_mock_rec |]. intros _ h1.
  destruct (h1 !! a) as [n |] eqn:Ha; [| exact I].
  set (h2 := <[a := set_onceQueue (tl (onceQueue n)) n]> h1).
  assert (H12 : changed_only T h1 h2) by (by apply (co_insert T h1 a n _ Ha)).
  set (toCall := if nullish (hd VUndef (onceQueue n)) then impl n
                 else hd VUndef (onceQueue n)).
  assert (Hcall : res_changed T h1
            (if truthy toCall then call_value user_fn h2 toCall args
             else Ok VUndef h2)).
  { destruct (truthy toCall); [| exact H12].
    pose proof (co_call_value T h2 toCall args) as Hcv.
    destruct (call_value user_fn h2 toCall args); cbn [res_changed] in *;
      [| | exact I]; by eapply co_trans. }
  assert (Hlog : ∀ h3 k v, changed_only T h1 h3 →
            res_changed T h1 (on_mock_rec host_get h3 a (push_result k v))).
  { intros h3 k v H13.
    pose proof (co_on_mock_rec T h3 a (push_result k v) (fun _ => eq_refl))
      as Hp.
    destruct (on_mock_rec host_get h3 a (push_result k v));
      cbn [res_changed] in *; [| | exact I]; by eapply co_trans. }
  destruct (if truthy toCall then call_value user_fn h2 toCall args
            else Ok VUndef h2) as [r h3 | e h3 |];
    cbn [res_changed] in Hcall; [| | exact I].
  - pose proof (Hlog h3 RReturn r Hcall) as Hret.
    destruct (on_mock_rec host_get h3 a (push_result RReturn r))
      as [u h4 | e h4 |]; cbn [res_changed] in *; [exact Hret | | exact I].
    pose proof (Hlog h4 RThrow e Hret) as Hthr.
    destruct (on_mock_rec host_get h4 a (push_result RThrow e));
      cbn [bind res_changed] in *; [exact Hthr | exact Hthr | exact I].
  - pose proof (Hlog h3 RThrow e Hcall) as Hthr.
    destruct (on_mock_rec host_get h3 a (push_result RThrow e));
      cbn [bind res_changed] in *; [exact Hthr | exact Hthr | exact I].
Qed.

Lemma co_clear (T : addr → string → bool) (h : store) (b : addr) :
  res_changed T h
    (bind (on_mock_rec host_get h b (set_calls []))
       (fun _ h1 => bind (on_mock_rec host_get h1 b (set_results []))
          (fun _ h2 => Ok (VBase b) h2))).
Proof.
  apply co_bind; [by apply co_on_mock_rec |]. intros _ h1.
  apply co_bind; [by apply co_on_mock_rec |]. intros _ h2. apply co_refl.
Qed.

Lemma co_call_leaf (T : addr → string → bool) (h : store) (f : value)
    (args : list value) :
  res_changed T h (call_leaf user_fn host_get h f args).
Proof.
  destruct f; try apply co_call_value.
  destruct m; try apply co_call_value; cbn [call_leaf]; try apply co_clear.
  - destruct (h !! a) as [n |] eqn:Ha; [| exact I].
    by apply (co_insert T h a n _ Ha).
  - destruct (h !! a) as [n |] eqn:Ha; [| exact I].
    by apply (co_insert T h a n _ Ha).
Qed.

Lemma co_delegate (T : addr → string → bool) (h : store) (b : addr)
    (name : string) (x : value) :
  res_changed T h (delegate user_fn host_get h b name x).
Proof.
  unfold delegate. apply co_bind; [apply co_target_get |].
  intros f h1. apply co_call_leaf.
Qed.

Lemma co_delegate_self (T : addr → string → bool) (h : store) (b : addr)
    (name : string) (x : value) :
  res_changed T h (delegate_self user_fn host_get h b name x).
Proof.
  unfold delegate_self. apply co_bind; [apply co_delegate |].
  intros _ h1. apply co_refl.
Qed.

Lemma co_call_method (T : addr → string → bool) (h : store) (b : addr)
    (m : method) (args : list value) :
  res_changed T h (call_method user_fn host_get h b m args).
Proof.
  destruct m; cbn [call_method];
    try apply co_call_leaf; try apply co_delegate; try apply co_delegate_self.
  - apply co_bind; [apply co_target_get |]. intros c h1.
    apply co_bind; [apply co_call_leaf |]. intros _ h2.
    destruct (h2 !! b) as [n |] eqn:Hb; [| exact I].
    by apply (co_insert T h2 b n _ Hb).
  - apply co_bind; [apply co_target_get |]. intros c h1.
    apply co_bind; [apply co_call_leaf |]. intros _ h2.
    apply co_delegate_self.
Qed.

Lemma co_call (T : addr → string → bool) (h : store) (v : value)
    (args : list value) :
  res_changed T h (call user_fn host_get h v args).
Proof.
  destruct v; cbn [call]; try apply co_call_value;
    try apply co_invoke; apply co_call_method.
Qed.

Lemma co_lift (T : addr → string → bool) (h : store) (o : outcome) :
  res_changed T h (lift_outcome h o).
Proof. destruct o; apply co_refl. Qed.

Lemma co_get_member (T : addr → string → bool) (h : store) (v : value)
    (k : string) :
  (∀ a, addr_of v = Some a → T a k = true) →
  res_changed T h (member h v k).
Proof.
  intros HT. destruct v; cbn [get_member]; try exact I;
    try apply co_refl; try apply co_lift.
  - apply co_target_get.
  - apply co_handler_get. by apply HT.
Qed.

Lemma co_get_member_reserved (T : addr → string → bool) (h : store)
    (v : value) (k : string) :
  reserved k = true → res_changed T h (member h v k).
Proof.
  intros Hk. destruct v; cbn [get_member]; try exact I;
    try apply co_refl; try apply co_lift.
  - apply co_target_get.
  - by apply co_handler_get_reserved.
Qed.

Lemma co_set_member (T : addr → string → bool) (h : store) (v : value)
    (k : string) (x : value) :
  (∀ a, addr_of v = Some a → T a k = true) →
  res_changed T h (set_member host_readonly h v k x).
Proof.
  intros HT. destruct v; cbn [set_member]; try exact I;
    apply co_target_set; by apply HT.
Qed.

Lemma co_call_member_reserved (T : addr → string → bool) (h : store)
    (v : value) (name : string) (args : list value) :
  reserved name = true →
  res_changed T h (call_member user_fn host_get host_readonly h v name args).
Proof.
  intros Hk. unfold call_member.
  apply co_bind; [by apply co_get_member_reserved |].
  intros f h1. apply co_call.
Qed.

Lemma co_install_default (T : addr → string → bool) (h : store)
    (mockObj : value) (entry : string * value) :
  (∀ a, addr_of mockObj = Some a → T a (fst entry) = true) →
  res_changed T h
    (install_default user_fn host_get host_readonly h mockObj entry).
Proof.
  destruct entry as [key v]. cbn [fst]. intros HT. unfold install_default.
  apply co_bind; [by apply co_get_member |]. intros mockProp h1.
  destruct (typeof_function mockProp && typeof_function v).
  - apply co_bind; [by apply co_call_member_reserved |].
    intros _ h2. apply co_refl.
  - destruct (typeof_function mockProp).
    + apply co_bind; [by apply co_call_member_reserved |].
      intros _ h2. apply co_refl.
    + by apply co_set_member.
Qed.

Lemma co_forEach (T : addr → string → bool) (entries : list (string * value))
    (h : store) (mockObj : value) :
  (∀ a k, addr_of mockObj = Some a → T a k = true) →
  res_changed T h (forEach user_fn host_get host_readonly h mockObj entries).
Proof.
  intros HT. revert h. induction entries as [| entry rest IH]; intros h.
  - apply co_refl.
  - cbn [forEach]. apply co_bind.
    + apply co_install_default. intros a Ha. by apply HT.
    + intros _ h1. apply IH.
Qed.

Lemma co_createMockWithDefaults (T : addr → string → bool) (h : store)
    (defaults : option (list (string * value))) :
  res_changed T h
    (createMockWithDefaults user_fn host_get host_readonly h defaults).
Proof.
  unfold createMockWithDefaults.
  rewrite createMock_fresh by (unfold MAX_DEPTH; lia).
  destruct defaults as [entries |]; [| apply co_app].
  set (r := List.length h).
  pose proof (co_forEach (fun b _ => Nat.eqb b r) entries
                (h ++ [fresh_node 0 r]) (VProxy 0 r)) as Hfe.
  destruct (forEach user_fn host_get host_readonly (h ++ [fresh_node 0 r])
              (VProxy 0 r) entries) as [u h2 | e h2 |];
    cbn [bind res_changed] in *; [| | exact I].
  all: apply (co_mono (fun b _ => Nat.eqb b r)).
  all: try (intros b k Hb Hbr; apply Nat.eqb_eq in Hbr; subst r; lia).
  all: eapply co_trans; [apply co_app |]; apply Hfe.
  all: intros a k [= <-]; apply Nat.eqb_refl.
Qed.

Lemma co_step (h : store) (o : op) :
  res_changed (touches o) h (step user_fn host_get host_readonly h o).
Proof.
  destruct o as [v k | v k x | v args | d | defaults]; cbn [step].
  - unfold forget. apply co_bind.
    + apply co_get_member. intros a Ha. cbn [touches].
      by apply bool_decide_eq_true.
    + intros _ h1. apply co_refl.
  - apply co_set_member. intros a Ha. cbn [touches].
    by apply bool_decide_eq_true.
  - unfold forget. apply co_bind; [apply co_call |].
    intros _ h1. apply co_refl.
  - apply co_createMock.
  - unfold forget. apply co_bind; [apply co_createMockWithDefaults |].
    intros _ h1. apply co_refl.
Qed.

(** *** Stability of what a key reads as *)

Lemma target_get_value (h : store) (a : addr) (n : node) (k : string) :
  h !! a = Some n →
  tget h a k = lift_outcome h (target_value host_get n k).
Proof.
  intros Ha. unfold target_get, target_value. rewrite Ha.
  destruct (props n !! k); [reflexivity |]. by destruct (host_get k).
Qed.

Lemma reads_as_member (h : store) (a : addr) (k : string) (v : value) (d : nat) :
  reads_as host_get h a k v → kept k v →
  member h (VProxy d a) k = Ok v h.
Proof.
  intros (n & Ha & Hv) Hkept. cbn [get_member]. unfold handler_get.
  rewrite (target_get_value h a n k Ha), Hv. cbn [lift_outcome bind].
  destruct (reserved k) eqn:Hres; [reflexivity |].
  destruct Hkept as [Hne | ?]; [| congruence].
  by destruct v.
Qed.

Lemma reads_as_base (h : store) (a : addr) (k : string) (v : value) :
  reads_as host_get h a k v → member h (VBase a) k = Ok v h.
Proof.
  intros (n & Ha & Hv). cbn [get_member].
  by rewrite (target_get_value h a n k Ha), Hv.
Qed.

Lemma reads_as_changed (T : addr → string → bool) (h h' : store) (a : addr)
    (k : string) (v : value) :
  changed_only T h h' → T a k = false →
  reads_as host_get h a k v → reads_as host_get h' a k v.
Proof.
  intros Hco HT (n & Ha & Hv). destruct (Hco a n Ha) as (n' & Ha' & E).
  exists n'. split; [exact Ha' |]. unfold target_value in *.
  by rewrite (E k HT).
Qed.

Lemma reads_as_step (h h' : store) (o : op) (a : addr) (k : string) (v : value) :
  reads_as host_get h a k v → kept k v → ¬ writes o a k →
  (∃ u, step user_fn host_get host_readonly h o = Ok u h')
  ∨ (∃ e, step user_fn host_get host_readonly h o = Throw e h') →
  reads_as host_get h' a k v.
Proof.
  intros Hr Hkept Hw Hstep.
  destruct (touches o a k) eqn:HT.
  - destruct o as [x p | x p y | | |]; cbn [touches] in HT; try discriminate;
      apply bool_decide_eq_true in HT as [Hx ->].
    + assert (Hsame : step user_fn host_get host_readonly h (OGet x k)
                      = Ok tt h).
      { cbn [step]. unfold forget.
        destruct x; try discriminate Hx; injection Hx as ->.
        - by rewrite (reads_as_base h a k v Hr).
        - by rewrite (reads_as_member h a k v d Hr Hkept). }
      rewrite Hsame in Hstep.
      destruct Hstep as [[u [= _ <-]] | [e [=]]]. exact Hr.
    + exfalso. apply Hw. by split.
  - pose proof (co_step h o) as Hco.
    destruct Hstep as [[u Hs] | [e Hs]]; rewrite Hs in Hco;
      by eapply reads_as_changed.
Qed.

Lemma reads_as_run (ops : list op) (h h' : store) (a : addr) (k : string)
    (v : value) :
  reads_as host_get h a k v → kept k v →
  (∀ o, o ∈ ops → ¬ writes o a k) →
  run user_fn host_get host_readonly h ops = Some h' →
  reads_as host_get h' a k v.
Proof.
  revert h. induction ops as [| o ops IH]; intros h Hr Hkept Hw Hrun.
  - cbn [run] in Hrun. by injection Hrun as <-.
  - cbn [run] in Hrun.
    assert (Ho : ¬ writes o a k) by (apply Hw; left).
    assert (Hrest : ∀ o', o' ∈ ops → ¬ writes o' a k)
      by (intros o' Hin; apply Hw; by right).
    destruct (step user_fn host_get host_readonly h o) as [u h1 | e h1 |]
      eqn:Hs; [| | discriminate].
    + apply (IH h1); try assumption.
      apply (reads_as_step h h1 o a k v Hr Hkept Ho). left. by exists u.
    + apply (IH h1); try assumption.
      apply (reads_as_step h h1 o a k v Hr Hkept Ho). right. by exists e.
Qed.

(** What a read returned is what the key reads as afterwards. *)
Lemma member_reads_as (h h1 : store) (d : nat) (a : addr) (k : string)
    (v : value) :
  member h (VProxy d a) k = Ok v h1 → reads_as host_get h1 a k v.
Proof.
  cbn [get_member]. unfold handler_get.
  destruct (h !! a) as [n |] eqn:Ha;
    [| unfold target_get; rewrite Ha; by destruct (reserved k)].
  rewrite (target_get_value h a n k Ha).
  destruct (reserved k).
  { destruct (target_value host_get n k) eqn:Hv; cbn [lift_outcome];
      [| discriminate]. intros [= <- <-]. by exists n. }
  destruct (target_value host_get n k) as [x | e] eqn:Hv;
    cbn [lift_outcome bind]; [| discriminate].
  destruct (negb (is_undefined x)).
  { intros [= <- <-]. by exists n. }
  pose proof (co_createMock (fun _ _ => false) h (d + 1)) as Hcm.
  destruct (createMock h (d + 1)) as [nested h2]. cbn [snd] in Hcm.
  destruct (Hcm a n Ha) as (n2 & Ha2 & _).
  unfold target_set. rewrite Ha2.
  assert (Hdone : reads_as host_get
            (<[a := set_props (<[k := nested]> (props n2)) n2]> h2) a k nested).
  { eexists. split.
    - apply list_lookup_insert_eq. by eapply lookup_lt_Some.
    - unfold target_value. cbn [props set_props].
      by rewrite lookup_insert_eq. }
  destruct (props n2 !! k).
  - cbn [bind]. by intros [= <- <-].
  - destruct (host_readonly k); cbn [bind]; [discriminate |].
    by intros [= <- <-].
Qed.

(** C4. Once a read of key [k] on a node has returned a materialized child
    (a value other than [undefined]), every later read of [k] on that node
    returns the identical value and leaves the store alone, whatever reads,
    writes, calls and constructions happen in between, as long as none of
    them writes [k] on that node. *)
Theorem referential_stability (h h1 h2 : store) (d : nat) (a : addr)
    (k : string) (v : value) (ops : list op) :
  member h (VProxy d a) k = Ok v h1 → v ≠ VUndef →
  (∀ o, o ∈ ops → ¬ writes o a k) →
  run user_fn host_get host_readonly h1 ops = Some h2 →
  member h1 (VProxy d a) k = Ok v h1
  ∧ member h2 (VProxy d a) k = Ok v h2.
Proof.
  intros Hread Hne Hw Hrun.
  pose proof (member_reads_as h h1 d a k v Hread) as Hr.
  assert (Hkept : kept k v) by (by left).
  split; [by apply reads_as_member |].
  apply reads_as_member; [| exact Hkept].
  by apply (reads_as_run ops h1 h2).
Qed.

(** C6 (amended). On a mock node, writing [v] to a key the runtime lets the
    recorder take, where [v] is not [undefined] or the key is a reserved
    protocol name, stores [v] as it is: the next read of that key returns [v]
    itself, whatever child or value the key held before, and so does every
    later read until the key is written again. *)
Theorem write_then_read (h : store) (d : nat) (a : addr) (n : node)
    (k : string) (v : value) :
  h !! a = Some n →
  host_readonly k = false ∨ is_Some (props n !! k) →
  kept k v →
  ∃ h1,
    set_member host_readonly h (VProxy d a) k v = Ok tt h1
    ∧ member h1 (VProxy d a) k = Ok v h1
    ∧ ∀ ops h2, (∀ o, o ∈ ops → ¬ writes o a k) →
        run user_fn host_get host_readonly h1 ops = Some h2 →
        member h2 (VProxy d a) k = Ok v h2.
Proof.
  intros Ha Hwritable Hkept.
  pose proof (lookup_lt_Some _ _ _ Ha) as Hlt.
  exists (<[a := set_props (<[k := v]> (props n)) n]> h).
  assert (Hr : reads_as host_get
                 (<[a := set_props (<[k := v]> (props n)) n]> h) a k v).
  { eexists. split; [by apply list_lookup_insert_eq |].
    unfold target_value. cbn [props set_props]. by rewrite lookup_insert_eq. }
  split; [| split].
  - cbn [set_member]. unfold handler_set, target_set. rewrite Ha.
    destruct (props n !! k) eqn:Hk; [reflexivity |].
    destruct Hwritable as [-> | [x ?]]; [reflexivity | discriminate].
  - by apply reads_as_member.
  - intros ops h2 Hw Hrun. apply reads_as_member; [| exact Hkept].
    exact (reads_as_run ops _ h2 a k v Hr Hkept Hw Hrun).
Qed.

(** *** Enumeration *)

Lemma protocol_dom (d : nat) (a : addr) (k : string) :
  k ∈ dom (protocol_props d a) ↔ k ∈ installed_keys.
Proof.
  unfold protocol_props, mock_overrides, base_props, installed_keys.
  rewrite !dom_insert_L, dom_empty_L.
  rewrite !elem_of_union, !elem_of_singleton, !elem_of_cons.
  rewrite elem_of_empty, elem_of_nil. tauto.
Qed.


(** *** The defaults overlay *)

Lemma delegate_implementation (h : store) (d : nat) (a : addr) (n : node)
    (x : value) :
  h !! a = Some n → protocol_props d a ⊆ props n →
  delegate user_fn host_get h a "mockImplementation" x
  = Ok (VBase a) (<[a := set_impl x n]> h).
Proof.
  intros Ha Hsub. unfold delegate, target_get. rewrite Ha.
  rewrite (protocol_lookup d a n "mockImplementation"
             (VMethod a MImplementation) Hsub) by reflexivity.
  cbn [bind call_leaf hd]. by rewrite Ha.
Qed.

Lemma delegate_once (h : store) (d : nat) (a : addr) (n : node) (x : value) :
  h !! a = Some n → protocol_props d a ⊆ props n →
  delegate user_fn host_get h a "mockImplementationOnce" x
  = Ok (VBase a) (<[a := set_onceQueue (onceQueue n ++ [x]) n]> h).
Proof.
  intros Ha Hsub. unfold delegate, target_get. rewrite Ha.
  rewrite (protocol_lookup d a n "mockImplementationOnce"
             (VMethod a MImplementationOnce) Hsub) by reflexivity.
  cbn [bind call_leaf hd]. by rewrite Ha.
Qed.

Lemma set_return_value (h : store) (d : nat) (a : addr) (n : node) (v : value) :
  h !! a = Some n → protocol_props d a ⊆ props n →
  call_member user_fn host_get host_readonly h (VProxy d a)
    "mockReturnValue" [v]
  = Ok (VBase a) (<[a := set_impl (VConstFn v) n]> h).
Proof.
  intros Ha Hsub. unfold call_member.
  rewrite (member_reserved h d a n "mockReturnValue" (VMethod a MReturnValue)
             Ha Hsub) by reflexivity.
  cbn [bind call call_method hd]. unfold delegate_self.
  by rewrite (delegate_implementation h d a n _ Ha Hsub).
Qed.

Lemma set_implementation_eq (h : store) (d : nat) (a : addr) (n : node)
    (f : value) :
  h !! a = Some n → protocol_props d a ⊆ props n →
  call_member user_fn host_get host_readonly h (VProxy d a)
    "mockImplementation" [f]
  = Ok (VBase a) (<[a := set_impl f n]> h).
Proof.
  intros Ha Hsub. unfold call_member.
  rewrite (member_reserved h d a n "mockImplementation"
             (VMethod a MImplementation) Ha Hsub) by reflexivity.
  cbn [bind call call_method call_leaf hd]. by rewrite Ha.
Qed.

Lemma queue_resolved_once (h : store) (d : nat) (a : addr) (q : list value)
    (dflt w : value) :
  configured h d a q dflt →
  ∃ h', call_member user_fn host_get host_readonly h (VProxy d a)
          "mockResolvedValueOnce" [w] = Ok (VBase a) h'
        ∧ configured h' d a (q ++ [VResolveFn w]) dflt.
Proof.
  intros (n & Ha & Hsub & Hq & Hi).
  pose proof (lookup_lt_Some _ _ _ Ha) as Hlt. unfold call_member.
  rewrite (member_reserved h d a n "mockResolvedValueOnce"
             (VMethod a MResolvedValueOnce) Ha Hsub) by reflexivity.
  cbn [bind call call_method hd]. unfold delegate_self.
  rewrite (delegate_once h d a n _ Ha Hsub). cbn [bind].
  eexists. split; [reflexivity |].
  eexists. split; [apply list_lookup_insert_eq; exact Hlt |].
  split; [exact Hsub |]. split; [| exact Hi].
  cbn [set_onceQueue onceQueue]. by rewrite Hq.
Qed.

(** One entry of the defaults, on a key the root has not materialized. *)
Lemma install_default_plain (h : store) (r : addr) (n : node) (k : string)
    (v : value) :
  h !! r = Some n → props n !! k = None → plain_key k →
  install_default user_fn host_get host_readonly h (VProxy 0 r) (k, v)
  = Ok tt
      (<[List.length h := set_impl (behaviour_of v)
                            (fresh_node 1 (List.length h))]>
         (<[r := set_props (<[k := VProxy 1 (List.length h)]> (props n)) n]>
            (h ++ [fresh_node 1 (List.length h)]))).
Proof.
  intros Hr Hk Hplain. pose proof (lookup_lt_Some _ _ _ Hr) as Hlt.
  unfold install_default. cbn [get_member].
  rewrite (hget_materialize h 0 r n k Hr Hk Hplain)
    by (unfold MAX_DEPTH; lia).
  cbn [bind Nat.add typeof_function andb].
  set (c := List.length h).
  set (h1 := <[r := set_props (<[k := VProxy 1 c]> (props n)) n]>
               (h ++ [fresh_node 1 c])).
  assert (Hc : h1 !! c = Some (fresh_node 1 c)).
  { unfold h1. rewrite list_lookup_insert_ne by (unfold c; lia).
    by apply list_lookup_middle. }
  unfold behaviour_of. destruct (typeof_function v).
  - by rewrite (set_implementation_eq h1 1 c _ v Hc).
  - by rewrite (set_return_value h1 1 c _ v Hc).
Qed.

Lemma install_default_direct (h : store) (d : nat) (r : addr) (n : node)
    (k : string) (v : value) :
  h !! r = Some n → writable_slot n k →
  install_default user_fn host_get host_readonly h (VProxy d r) (k, v)
  = Ok tt (<[r := set_props (<[k := v]> (props n)) n]> h).
Proof.
  intros Hr (x & Hx & Hty & Hkept & Hro). unfold install_default.
  rewrite (reads_as_member h r k x d);
    [| exists n; split; [exact Hr | exact Hx] | exact Hkept].
  cbn [bind]. rewrite Hty. cbn [andb set_member].
  unfold handler_set, target_set. rewrite Hr.
  destruct (props n !! k) eqn:Hk; [reflexivity |].
  rewrite Hro by reflexivity. reflexivity.
Qed.

Lemma writable_slot_stable (n n1 : node) (k : string) :
  props n1 !! k = props n !! k → writable_slot n k → writable_slot n1 k.
Proof.
  intros E (x & Hx & Hty & Hkept & Hro). exists x.
  unfold target_value in *. rewrite E.
  split; [exact Hx |]. split; [exact Hty |]. split; [exact Hkept | exact Hro].
Qed.

(** The whole walk over the entries, on pairwise distinct keys each of which
    is either plain and not yet materialized on the root, or a slot of the
    root that holds a non-function. *)
Lemma forEach_mixed (entries : list (string * value)) (h : store) (r : addr)
    (n : node) :
  h !! r = Some n → NoDup entries.*1 →
  (∀ k, k ∈ entries.*1 →
     (plain_key k ∧ props n !! k = None) ∨ writable_slot n k) →
  ∃ h' n',
    forEach user_fn host_get host_readonly h (VProxy 0 r) entries = Ok tt h'
    ∧ h' !! r = Some n'
    ∧ (∀ k, k ∉ entries.*1 → props n' !! k = props n !! k)
    ∧ (∀ b m, b ≠ r → h !! b = Some m → h' !! b = Some m)
    ∧ ∀ k v, (k, v) ∈ entries →
        ((plain_key k ∧ props n !! k = None)
         ∧ ∃ c, c ≠ r ∧ props n' !! k = Some (VProxy 1 c)
                ∧ h' !! c = Some (set_impl (behaviour_of v) (fresh_node 1 c)))
        ∨ (writable_slot n k ∧ props n' !! k = Some v).
Proof.
  revert h n. induction entries as [| [k v] rest IH];
    intros h n Hr Hnd Hready.
  - exists h, n. cbn [forEach]. split; [reflexivity |].
    split; [exact Hr |]. split; [reflexivity |].
    split; [intros b m _ Hb; exact Hb |].
    intros k v Hin. exfalso. exact (not_elem_of_nil _ Hin).
  - cbn [fmap list_fmap fst] in Hnd, Hready.
    apply NoDup_cons in Hnd as [Hk Hnd].
    pose proof (lookup_lt_Some _ _ _ Hr) as Hlt.
    cbn [forEach].
    assert (Hstep : ∃ h1 n1,
              install_default user_fn host_get host_readonly h (VProxy 0 r)
                (k, v) = Ok tt h1
              ∧ h1 !! r = Some n1
              ∧ (∀ k', k' ≠ k → props n1 !! k' = props n !! k')
              ∧ (∀ b m, b ≠ r → h !! b = Some m → h1 !! b = Some m)
              ∧ (((plain_key k ∧ props n !! k = None)
                  ∧ ∃ c, c ≠ r ∧ props n1 !! k = Some (VProxy 1 c)
                         ∧ h1 !! c
                           = Some (set_impl (behaviour_of v) (fresh_node 1 c)))
                 ∨ (writable_slot n k ∧ props n1 !! k = Some v))).
    { destruct (Hready k) as [[Hpk Habs] | Hslot]; [by left | |].
      - rewrite (install_default_plain h r n k v Hr Habs Hpk).
        set (c := List.length h).
        set (n1 := set_props (<[k := VProxy 1 c]> (props n)) n).
        eexists _, n1. split; [reflexivity |]. split; [| split; [| split]].
        + rewrite list_lookup_insert_ne by (unfold c; lia).
          apply list_lookup_insert_eq. rewrite length_app. lia.
        + intros k' Hne. unfold n1. cbn [props set_props].
          by rewrite lookup_insert_ne.
        + intros b m Hb Hbm.
          pose proof (lookup_lt_Some _ _ _ Hbm) as Hblt.
          rewrite list_lookup_insert_ne by (unfold c; lia).
          rewrite list_lookup_insert_ne by congruence.
          by apply lookup_app_l_Some.
        + left. split; [split; [exact Hpk | exact Habs] |].
          exists c. split; [unfold c; lia |]. split.
          * unfold n1. cbn [props set_props]. by rewrite lookup_insert_eq.
          * apply list_lookup_insert_eq.
            rewrite length_insert, length_app. cbn. unfold c. lia.
      - rewrite (install_default_direct h 0 r n k v Hr Hslot).
        set (n1 := set_props (<[k := v]> (props n)) n).
        eexists _, n1. split; [reflexivity |]. split; [| split; [| split]].
        + by apply list_lookup_insert_eq.
        + intros k' Hne. unfold n1. cbn [props set_props].
          by rewrite lookup_insert_ne.
        + intros b m Hb Hbm. by rewrite list_lookup_insert_ne by congruence.
        + right. split; [exact Hslot |].
          unfold n1. cbn [props set_props]. by rewrite lookup_insert_eq. }
    destruct Hstep as (h1 & n1 & Hinst & Hr1 & Hsame & Hfr1 & Hhere).
    rewrite Hinst. cbn [bind].
    assert (Hrest : ∀ k', k' ∈ rest.*1 → props n1 !! k' = props n !! k').
    { intros k' Hk'. apply Hsame. intros ->. contradiction. }
    destruct (IH h1 n1 Hr1 Hnd)
      as (h' & n' & Hfe & Hr' & Hkeys & Hfr & Hent).
    { intros k' Hk'. pose proof (Hrest k' Hk') as E.
      destruct (Hready k') as [[Hpk Habs] | Hslot]; [by right | |].
      - left. split; [exact Hpk |]. by rewrite E.
      - right. by apply (writable_slot_stable n n1). }
    exists h', n'. split; [exact Hfe |]. split; [exact Hr' |].
    split; [| split].
    + intros k' Hk'. apply not_elem_of_cons in Hk' as [Hne Hk'].
      rewrite (Hkeys k' Hk'). by apply Hsame.
    + intros b m Hb Hbm. apply Hfr; [exact Hb |]. by apply Hfr1.
    + intros k' v' Hin. apply elem_of_cons in Hin as [[= -> ->] | Hin].
      * destruct Hhere as [[Hp (c & Hcr & Hkc & Hc)] | [Hs Hkv]].
        -- left. split; [exact Hp |]. exists c. split; [exact Hcr |]. split.
           ++ by rewrite (Hkeys k Hk).
           ++ by apply Hfr.
        -- right. split; [exact Hs |]. by rewrite (Hkeys k Hk).
      * assert (Hk' : k' ∈ rest.*1).
        { apply list_elem_of_fmap. by exists (k', v'). }
        pose proof (Hrest k' Hk') as E.
        destruct (Hent k' v' Hin) as [[[Hp Habs] Hc] | [Hs Hkv]].
        -- left. split; [split; [exact Hp | by rewrite <- E] | exact Hc].
        -- right. split; [| exact Hkv].
           by apply (writable_slot_stable n1 n).
Qed.

Lemma fresh_direct_slot (d : nat) (a : addr) (k : string) :
  direct_key k → writable_slot (fresh_node d a) k.
Proof.
  intros [-> | (Hni & x & Hx & Hty & Hkept & Hro)].
  - exists (VMockRec a). unfold target_value.
    rewrite (protocol_lookup d a (fresh_node d a) "mock" (VMockRec a))
      by reflexivity.
    split; [reflexivity |]. split; [reflexivity |].
    split; [by right | intros [=]].
  - exists x. unfold target_value.
    assert (Habs : props (fresh_node d a) !! k = None).
    { apply not_elem_of_dom. intros Hin. apply Hni.
      by apply (protocol_dom d a). }
    rewrite Habs. split; [exact Hx |]. split; [exact Hty |].
    split; [exact Hkept | by intros _].
Qed.

Lemma plain_not_direct (k : string) : plain_key k → direct_key k → False.
Proof.
  intros (Hres & Hhost & _) [-> | (_ & x & Hx & _ & Hkept & _)].
  - discriminate.
  - rewrite Hhost in Hx. injection Hx as <-.
    destruct Hkept as [? | ?]; congruence.
Qed.

(** C10 (amended). For a defaults map on pairwise distinct keys, each of
    which is plain or direct, [createMockWithDefaults(defaults)] returns the
    root it creates.  For every entry [(k, v)] on a plain key, [k] on the
    root resolves to a child mock node with an empty one-shot queue whose
    implementation is [v] itself when [v] is a function and [() => v]
    otherwise; invoking the child applies that implementation to the
    arguments; and after [mockResolvedValueOnce(w)] on the child, the next
    invocation returns the promise resolved with [w] and the one after it
    uses the installed default again.  For every entry on a direct key
    ([mock], [mockRestore]), under which the root holds something that is
    not a function, the entry is written over the key: the recorder then
    holds [v] under [k], and a read of [k] on the root returns [v].  In any
    state, when what is found under a key is not a function the entry is
    assigned to the key through the [set] trap. *)
Theorem defaults_overlay (h : store) (entries : list (string * value)) :
  NoDup entries.*1 →
  Forall (fun k => plain_key k ∨ direct_key k) entries.*1 →
  (∀ h0 h1 mockObj k v mockProp,
     member h0 mockObj k = Ok mockProp h1 →
     typeof_function mockProp = false →
     install_default user_fn host_get host_readonly h0 mockObj (k, v)
     = set_member host_readonly h1 mockObj k v)
  ∧ ∃ h',
      createMockWithDefaults user_fn host_get host_readonly h (Some entries)
        = Ok (VProxy 0 (List.length h)) h'
      ∧ (∀ k v, (k, v) ∈ entries → direct_key k →
           prop_of h' (List.length h) k = Some v
           ∧ (kept k v → member h' (VProxy 0 (List.length h)) k = Ok v h'))
      ∧ ∀ k v, (k, v) ∈ entries → plain_key k →
          ∃ c,
            member h' (VProxy 0 (List.length h)) k = Ok (VProxy 1 c) h'
            ∧ configured h' 1 c [] (behaviour_of v)
            ∧ (stateless (behaviour_of v) = true →
               ∀ w args1 args2,
                 (∃ h'', invoke_ h' c args1
                    = res_of (apply_stateless user_fn (behaviour_of v) args1)
                        h'')
                 ∧ ∃ h1 h2 h3,
                     call_member user_fn host_get host_readonly h'
                       (VProxy 1 c) "mockResolvedValueOnce" [w]
                       = Ok (VBase c) h1
                     ∧ invoke_ h1 c args1 = Ok (VPromiseResolve w) h2
                     ∧ invoke_ h2 c args2
                       = res_of
                           (apply_stateless user_fn (behaviour_of v) args2)
                           h3).
Proof.
  intros Hnd Hkeys. split.
  { intros h0 h1 mockObj k v mockProp Hget Hty. unfold install_default.
    rewrite Hget. cbn [bind]. by rewrite Hty. }
  unfold createMockWithDefaults.
  rewrite createMock_fresh by (unfold MAX_DEPTH; lia).
  set (r := List.length h).
  assert (Hr : (h ++ [fresh_node 0 r]) !! r = Some (fresh_node 0 r))
    by (by apply list_lookup_middle).
  destruct (forEach_mixed entries _ r _ Hr Hnd)
    as (h' & n' & Hfe & Hr' & _ & _ & Hent).
  { intros k Hk.
    destruct (proj1 (Forall_forall _ _) Hkeys k Hk) as [Hp | Hd].
    - left. split; [exact Hp | by apply fresh_plain_absent].
    - right. by apply fresh_direct_slot. }
  exists h'. rewrite Hfe. cbn [bind]. split; [reflexivity |]. split.
  - intros k v Hin Hd.
    assert (Hkv : props n' !! k = Some v).
    { destruct (Hent k v Hin) as [[[Hp _] _] | [_ Hkv]]; [| exact Hkv].
      destruct (plain_not_direct k Hp Hd). }
    split.
    + unfold prop_of. rewrite Hr'. exact Hkv.
    + intros Hkept. apply reads_as_member; [| exact Hkept].
      exists n'. split; [exact Hr' |]. unfold target_value. by rewrite Hkv.
  - intros k v Hin Hp.
    assert (Hchild : ∃ c, c ≠ r ∧ props n' !! k = Some (VProxy 1 c)
              ∧ h' !! c = Some (set_impl (behaviour_of v) (fresh_node 1 c))).
    { destruct (Hent k v Hin) as [[_ Hc] | [Hs _]]; [exact Hc |].
      destruct (plain_not_direct k Hp).
      destruct Hs as (x & Hx & Hty & Hkept & Hro).
      unfold target_value in Hx.
      rewrite (fresh_plain_absent 0 r k Hp) in Hx.
      destruct Hp as (Hres & Hhost & Hrd).
      rewrite Hhost in Hx. injection Hx as <-.
      destruct Hkept as [? | ?]; congruence. }
    destruct Hchild as (c & Hcr & Hk & Hc).
    exists c.
    assert (Hcfg : configured h' 1 c [] (behaviour_of v)).
    { eexists. split; [exact Hc |].
      split; [reflexivity | split; reflexivity]. }
    split; [| split; [exact Hcfg |]].
    + apply reads_as_member; [| left; discriminate].
      exists n'. split; [exact Hr' |]. unfold target_value. by rewrite Hk.
    + intros Hst w args1 args2. split.
      * destruct (invoke_configured h' 1 c [] _ args1 Hcfg Hst)
          as (h'' & Hi & _).
        by exists h''.
      * destruct (queue_resolved_once h' 1 c [] _ w Hcfg) as (h1 & Hq & C1).
        cbn [app] in C1.
        destruct (invoke_configured h1 1 c _ _ args1 C1 eq_refl)
          as (h2 & I1 & C2). cbn [hd tl apply_stateless res_of] in I1, C2.
        destruct (invoke_configured h2 1 c [] _ args2 C2 Hst) as (h3 & I2 & _).
        cbn [hd] in I2. by exists h1, h2, h3.
Qed.

(** Each invocation of a mock node, returning or raising, appends its
    argument list to the call log and exactly one entry to the result log,
    so the two logs stay aligned and [callCount] counts the invocations. *)
Lemma invoke_logs (h h' : store) (d : nat) (a : addr) (n : node)
    (args : list value) :
  is_mock_node h d a → h !! a = Some n →
  then_store (invoke_ h a args) = h' →
  invoke_ h a args ≠ Unmodelled →
  ∃ n' entry, h' !! a = Some n'
    ∧ calls n' = calls n ++ [args]
    ∧ results n' = results n ++ [entry]
    ∧ props n' = props n.
Proof.
  intros (n0 & Ha0 & Hsub) Ha. assert (n0 = n) by congruence. subst n0.
  pose proof (lookup_lt_Some _ _ _ Ha) as Hlt.
  assert (Hm : props n !! "mock" = Some (VMockRec a))
    by exact (protocol_lookup d a n "mock" _ Hsub (protocol_mock d a)).
  rewrite (invoke_mock_node h a n args Ha Hm). cbn zeta.
  set (n1 := set_onceQueue (tl (onceQueue n)) (push_call args n)).
  assert (Hins : ∀ ext k v,
    (<[a := push_result k v n1]> (<[a := n1]> h ++ ext)) !! a
    = Some (push_result k v n1)).
  { intros ext k v. apply list_lookup_insert_eq.
    rewrite length_app, length_insert. lia. }
  destruct (truthy (chosen n)).
  - pose proof (call_value_ext (<[a := n1]> h) (chosen n) args) as Hext.
    destruct (call_value user_fn (<[a := n1]> h) (chosen n) args)
      as [r h3 | e h3 |];
      [| | intros _ Hne; exfalso; apply Hne; reflexivity];
      destruct Hext as [ext ->]; cbn [then_store]; intros <- _;
      eexists; eexists; (split; [apply Hins |]);
      (split; [reflexivity | split; reflexivity]).
  - cbn [then_store]. intros <- _. eexists. eexists.
    split; [rewrite list_insert_insert_eq; by apply list_lookup_insert_eq |].
    split; [reflexivity | split; reflexivity].
Qed.

(** *** The logs as a record of the invocations *)

Lemma invoke_entry (h : store) (d : nat) (a : addr) (n : node)
    (args : list value) :
  is_mock_node h d a → h !! a = Some n →
  match invoke_ h a args with
  | Unmodelled => True
  | r =>
      ∃ o n', outcome_of r = Some o ∧ then_store r !! a = Some n'
        ∧ calls n' = calls n ++ [args]
        ∧ results n' = results n ++ [entry_of o]
        ∧ props n' = props n
        ∧ (∀ b m, b ≠ a → h !! b = Some m → then_store r !! b = Some m)
  end.
Proof.
  intros (n0 & Ha0 & Hsub) Ha. assert (n0 = n) by congruence. subst n0.
  pose proof (lookup_lt_Some _ _ _ Ha) as Hlt.
  assert (Hm : props n !! "mock" = Some (VMockRec a))
    by exact (protocol_lookup d a n "mock" _ Hsub (protocol_mock d a)).
  rewrite (invoke_mock_node h a n args Ha Hm). cbn zeta.
  set (n1 := set_onceQueue (tl (onceQueue n)) (push_call args n)).
  assert (Hins : ∀ ext k v,
    (<[a := push_result k v n1]> (<[a := n1]> h ++ ext)) !! a
    = Some (push_result k v n1)).
  { intros ext k v. apply list_lookup_insert_eq.
    rewrite length_app, length_insert. lia. }
  assert (Hfr : ∀ ext k v b m, b ≠ a → h !! b = Some m →
    (<[a := push_result k v n1]> (<[a := n1]> h ++ ext)) !! b = Some m).
  { intros ext k v b m Hb Hbm.
    rewrite list_lookup_insert_ne by congruence.
    apply lookup_app_l_Some. by rewrite list_lookup_insert_ne by congruence. }
  assert (Hcase :
    ∀ ext o,
      ∃ n', (<[a := push_result (rtype (entry_of o)) (rvalue (entry_of o)) n1]>
               (<[a := n1]> h ++ ext)) !! a = Some n'
        ∧ calls n' = calls n ++ [args]
        ∧ results n' = results n ++ [entry_of o]
        ∧ props n' = props n
        ∧ (∀ b m, b ≠ a → h !! b = Some m →
             (<[a := push_result (rtype (entry_of o)) (rvalue (entry_of o)) n1]>
                (<[a := n1]> h ++ ext)) !! b = Some m)).
  { intros ext o. eexists. split; [apply Hins |].
    split; [reflexivity |]. split; [by destruct o |].
    split; [reflexivity |]. apply Hfr. }
  destruct (truthy (chosen n)).
  - pose proof (call_value_ext (<[a := n1]> h) (chosen n) args) as Hext.
    destruct (call_value user_fn (<[a := n1]> h) (chosen n) args)
      as [r h3 | e h3 |]; [| | exact I]; destruct Hext as [ext ->].
    + exists (Return r). cbn [outcome_of then_store].
      destruct (Hcase ext (Return r)) as (n' & ?). exists n'. by split.
    + exists (Raise e). cbn [outcome_of then_store].
      destruct (Hcase ext (Raise e)) as (n' & ?). exists n'. by split.
  - exists (Return VUndef). cbn [outcome_of then_store].
    destruct (Hcase [] (Return VUndef)) as (n' & Hn').
    rewrite app_nil_r in Hn'. exists n'. by split.
Qed.

Lemma getCallInfo_mock_node (h : store) (d : nat) (a : addr) (n : node) :
  h !! a = Some n → props n !! "mock" = Some (VMockRec a) →
  getCallInfo host_get host_readonly h (VProxy d a) = Ok (summary n) h.
Proof.
  intros Ha Hm.
  assert (Hget : member h (VProxy d a) "mock" = Ok (VMockRec a) h).
  { cbn [get_member]. unfold handler_get. change (reserved "mock") with true.
    cbv iota. unfold target_get. by rewrite Ha, Hm. }
  unfold getCallInfo, isMock. cbn [typeof_function negb].
  rewrite Hget. cbn [bind typeof_object negb]. rewrite Ha.
  cbn [bind negb]. rewrite Hget. cbn [bind]. by rewrite Ha.
Qed.

(** X1. Successive invocations of a mock node whose behaviours leave mocks
    alone (a function the caller supplies computes its outcome from the
    arguments and does not itself invoke, clear, reset or configure a mock,
    the invoked one included) are recorded in call order: the call log grows
    by exactly the argument lists, the result log by one entry per
    invocation ([return] with the value, or [throw] with the error), in the
    same order; [getCallInfo] then reports these logs, their length as
    [callCount], and their last elements.  A behaviour that re-enters its
    own mock is outside this statement: the code logs its arguments before
    and its result after the behaviour runs. *)
Theorem logs_record_invocations (argss : list (list value)) (h h' : store)
    (d : nat) (a : addr) (n : node) (os : list outcome) :
  is_mock_node h d a → h !! a = Some n →
  invocations user_fn host_get h a argss = Some (os, h') →
  ∃ n', h' !! a = Some n'
    ∧ List.length os = List.length argss
    ∧ calls n' = calls n ++ argss
    ∧ results n' = results n ++ map entry_of os
    ∧ getCallInfo host_get host_readonly h' (VProxy d a) = Ok (summary n') h'
    ∧ callCount (summary n') = List.length (calls n) + List.length argss.
Proof.
  revert h n os. induction argss as [| args rest IH]; intros h n os Hnode Ha Hinv.
  - cbn [invocations] in Hinv. injection Hinv as <- <-.
    destruct Hnode as (n0 & Ha0 & Hsub).
    assert (n0 = n) by congruence. subst n0.
    exists n. split; [exact Ha |]. split; [reflexivity |].
    rewrite !app_nil_r. split; [reflexivity |]. split; [reflexivity |].
    split; [| cbn; lia].
    apply getCallInfo_mock_node; [exact Ha |].
    exact (protocol_lookup d a n "mock" _ Hsub (protocol_mock d a)).
  - cbn [invocations] in Hinv.
    pose proof (invoke_entry h d a n args Hnode Ha) as Hent.
    assert (Hstep : ∃ o h1 os1,
      outcome_of (invoke_ h a args) = Some o
      ∧ then_store (invoke_ h a args) = h1
      ∧ invoke_ h a args ≠ Unmodelled
      ∧ invocations user_fn host_get h1 a rest = Some (os1, h')
      ∧ os = o :: os1).
    { destruct (invoke_ h a args) as [v h1 | e h1 |]; [| | discriminate].
      - destruct (invocations user_fn host_get h1 a rest) as [[os1 h2] |]
          eqn:Hr; [| discriminate]. cbn in Hinv. injection Hinv as <- <-.
        exists (Return v), h1, os1. split; [reflexivity |].
        split; [reflexivity |]. split; [discriminate |].
        split; [exact Hr | reflexivity].
      - destruct (invocations user_fn host_get h1 a rest) as [[os1 h2] |]
          eqn:Hr; [| discriminate]. cbn in Hinv. injection Hinv as <- <-.
        exists (Raise e), h1, os1. split; [reflexivity |].
        split; [reflexivity |]. split; [discriminate |].
        split; [exact Hr | reflexivity]. }
    destruct Hstep as (o & h1 & os1 & Ho & Hs & Hne & Hrest & ->).
    assert (Hn1 : ∃ n1, h1 !! a = Some n1
              ∧ calls n1 = calls n ++ [args]
              ∧ results n1 = results n ++ [entry_of o]
              ∧ props n1 = props n).
    { destruct (invoke_ h a args) as [v hx | e hx |]; [| | by destruct Hne];
        destruct Hent as (o' & n1 & Ho' & Ha1 & Hc & Hr & Hp & _);
        cbn [then_store] in Hs, Ha1; subst hx;
        assert (o' = o) by congruence; subst o'; by exists n1. }
    destruct Hn1 as (n1 & Ha1 & Hc1 & Hr1 & Hp1).
    assert (Hnode1 : is_mock_node h1 d a).
    { destruct Hnode as (n0 & Ha0 & Hsub).
      assert (n0 = n) by congruence. subst n0.
      exists n1. split; [exact Ha1 |]. rewrite Hp1. exact Hsub. }
    destruct (IH h1 n1 os1 Hnode1 Ha1 Hrest)
      as (n' & Ha' & Hlen & Hc' & Hr' & Hinfo & Hcount).
    exists n'. split; [exact Ha' |]. split; [cbn; lia |].
    split; [rewrite Hc', Hc1, <- app_assoc; reflexivity |].
    split; [rewrite Hr', Hr1, <- app_assoc; reflexivity |].
    split; [exact Hinfo |].
    rewrite Hcount, Hc1, length_app. cbn. lia.
Qed.

(** *** Alignment of the two logs *)

Lemma omr_ok (h : store) (a c : addr) (n m : node) (upd : node → node) :
  h !! a = Some n → target_value host_get n "mock" = Return (VMockRec c) →
  h !! c = Some m →
  on_mock_rec host_get h a upd = Ok tt (<[c := upd m]> h).
Proof.
  intros Ha Hv Hc. unfold on_mock_rec.
  rewrite (target_get_value h a n "mock" Ha), Hv. cbn [lift_outcome bind].
  by rewrite Hc.
Qed.

Lemma omr_spec (h : store) (a : addr) (upd : node → node) :
  (∃ n c m, h !! a = Some n
      ∧ target_value host_get n "mock" = Return (VMockRec c)
      ∧ h !! c = Some m
      ∧ on_mock_rec host_get h a upd = Ok tt (<[c := upd m]> h))
  ∨ (∃ e, on_mock_rec host_get h a upd = Throw e h)
  ∨ on_mock_rec host_get h a upd = Unmodelled.
Proof.
  unfold on_mock_rec. destruct (h !! a) as [n |] eqn:Ha;
    [| right; right; unfold target_get; by rewrite Ha].
  rewrite (target_get_value h a n "mock" Ha).
  destruct (target_value host_get n "mock") as [v | e] eqn:Hv;
    cbn [lift_outcome bind]; [| right; left; by exists e].
  destruct v; cbn [is_primitive];
    try (right; left; by eexists); try (right; right; reflexivity).
  destruct (h !! a0) as [m |] eqn:Hc; [| right; right; reflexivity].
  left. exists n, a0, m. by repeat split.
Qed.

Lemma al_insert (h : store) (c : addr) (m : node) :
  Forall aligned_node h → aligned_node m → Forall aligned_node (<[c := m]> h).
Proof. intros Hh Hm. by apply Forall_insert. Qed.

Lemma al_fresh (d : nat) (a : addr) : aligned_node (fresh_node d a).
Proof. reflexivity. Qed.

Lemma al_createMock (h : store) (d : nat) :
  Forall aligned_node h → Forall aligned_node (snd (createMock h d)).
Proof.
  intros Hh. destruct (le_lt_dec d MAX_DEPTH) as [Hd | Hd].
  - rewrite createMock_fresh by exact Hd. cbn [snd].
    apply Forall_app. split; [exact Hh |]. by repeat constructor.
  - by rewrite createMock_exhausted by exact Hd.
Qed.

Lemma al_bind {A B} (c : res A) (k : A → store → res B) :
  res_aligned c →
  (∀ x h1, Forall aligned_node h1 → res_aligned (k x h1)) →
  res_aligned (bind c k).
Proof.
  intros Hc Hk. destruct c as [x h1 | e h1 |]; cbn [bind res_aligned] in *;
    [by apply Hk | exact Hc | exact I].
Qed.

Lemma al_lookup (h : store) (a : addr) (n : node) :
  Forall aligned_node h → h !! a = Some n → aligned_node n.
Proof. intros Hh Ha. by eapply Forall_lookup_1. Qed.

Lemma al_target_get (h : store) (a : addr) (k : string) :
  Forall aligned_node h → res_aligned (tget h a k).
Proof.
  intros Hh. unfold target_get. destruct (h !! a) as [n |]; [| exact I].
  destruct (props n !! k); [exact Hh |]. by destruct (host_get k).
Qed.

Lemma al_target_set (h : store) (a : addr) (k : string) (v : value) :
  Forall aligned_node h → res_aligned (tset h a k v).
Proof.
  intros Hh. unfold target_set. destruct (h !! a) as [n |] eqn:Ha; [| exact I].
  assert (Hins : Forall aligned_node
                   (<[a := set_props (<[k := v]> (props n)) n]> h))
    by (apply al_insert; [exact Hh | exact (al_lookup h a n Hh Ha)]).
  destruct (props n !! k); [exact Hins |].
  destruct (host_readonly k); [exact Hh | exact Hins].
Qed.

Lemma al_handler_get (h : store) (d : nat) (a : addr) (k : string) :
  Forall aligned_node h → res_aligned (hget h d a k).
Proof.
  intros Hh. unfold handler_get.
  destruct (reserved k); [by apply al_target_get |].
  apply al_bind; [by apply al_target_get |]. intros v h1 Hh1.
  destruct (negb (is_undefined v)); [exact Hh1 |].
  pose proof (al_createMock h1 (d + 1) Hh1) as Hcm.
  destruct (createMock h1 (d + 1)) as [nested h2]. cbn [snd] in Hcm.
  apply al_bind; [by apply al_target_set |]. intros _ h3 Hh3. exact Hh3.
Qed.

Lemma call_value_ext_aligned (h : store) (f : value) (args : list value) :
  match call_value user_fn h f args with
  | Ok _ h' | Throw _ h' => ∃ ext, h' = h ++ ext ∧ Forall aligned_node ext
  | Unmodelled => True
  end.
Proof.
  assert (Hnil : ∃ ext : store, h = h ++ ext ∧ Forall aligned_node ext)
    by (exists []; split; [by rewrite app_nil_r | constructor]).
  destruct f; cbn [call_value]; try exact Hnil; try exact I.
  - destruct (user_fn f args); exact Hnil.
  - destruct (le_lt_dec d MAX_DEPTH) as [Hd | Hd].
    + rewrite createMock_fresh by exact Hd. eexists. split; [reflexivity |].
      by repeat constructor.
    + rewrite createMock_exhausted by exact Hd. exact Hnil.
Qed.

Lemma al_call_value (h : store) (f : value) (args : list value) :
  Forall aligned_node h → res_aligned (call_value user_fn h f args).
Proof.
  intros Hh. pose proof (call_value_ext_aligned h f args) as Hext.
  destruct (call_value user_fn h f args) as [r h' | e h' |]; [| | exact I];
    destruct Hext as (ext & -> & Hal); apply Forall_app; by split.
Qed.

Lemma insert_keeps_props (h : store) (b c : addr) (n m m' : node) :
  h !! b = Some n → h !! c = Some m → props m' = props m →
  ∃ n1, (<[c := m']> h) !! b = Some n1 ∧ props n1 = props n.
Proof.
  intros Hb Hc Hp. destruct (decide (b = c)) as [-> | Hne].
  - exists m'. split; [apply list_lookup_insert_eq; by eapply lookup_lt_Some |].
    rewrite Hp. congruence.
  - exists n. split; [by rewrite list_lookup_insert_ne | reflexivity].
Qed.

Lemma target_value_props (n n1 : node) (k : string) :
  props n1 = props n →
  target_value host_get n1 k = target_value host_get n k.
Proof. intros Hp. unfold target_value. by rewrite Hp. Qed.

Lemma al_clear (h : store) (b : addr) :
  Forall aligned_node h →
  res_aligned
    (bind (on_mock_rec host_get h b (set_calls []))
       (fun _ h1 => bind (on_mock_rec host_get h1 b (set_results []))
          (fun _ h2 => Ok (VBase b) h2))).
Proof.
  intros Hh.
  destruct (omr_spec h b (set_calls []))
    as [(n & c & m & Hb & Hv & Hc & ->) | [(e & ->) | ->]];
    cbn [bind res_aligned]; [| exact Hh | exact I].
  destruct (insert_keeps_props h b c n m (set_calls [] m) Hb Hc eq_refl)
    as (n1 & Hb1 & Hp1).
  rewrite (omr_ok _ b c n1 (set_calls [] m) (set_results []) Hb1).
  - cbn [bind res_aligned]. rewrite list_insert_insert_eq.
    apply al_insert; [exact Hh | reflexivity].
  - by rewrite (target_value_props n n1 "mock" Hp1).
  - apply list_lookup_insert_eq. by eapply lookup_lt_Some.
Qed.

Lemma al_invoke (h : store) (a : addr) (args : list value) :
  Forall aligned_node h → res_aligned (invoke_ h a args).
Proof.
  intros Hh. unfold invoke.
  destruct (omr_spec h a (push_call args))
    as [(n & c & m & Ha & Hv & Hc & ->) | [(e & ->) | ->]];
    cbn [bind res_aligned]; [| exact Hh | exact I].
  pose proof (lookup_lt_Some _ _ _ Ha) as Hlta.
  pose proof (lookup_lt_Some _ _ _ Hc) as Hltc.
  pose proof (al_lookup h a n Hh Ha) as Hna.
  pose proof (al_lookup h c m Hh Hc) as Hmc.
  destruct (insert_keeps_props h a c n m (push_call args m) Ha Hc eq_refl)
    as (n1 & Ha1 & Hp1).
  rewrite Ha1.
  set (h2 := <[a := set_onceQueue (tl (onceQueue n1)) n1]>
               (<[c := push_call args m]> h)).
  set (toCall := if nullish (hd VUndef (onceQueue n1)) then impl n1
                 else hd VUndef (onceQueue n1)).
  (* the recorder found under [mock] once the behaviour has run *)
  assert (Hc2 : ∃ mc, h2 !! c = Some mc
            ∧ List.length (calls mc) = S (List.length (results mc))).
  { unfold h2. destruct (decide (a = c)) as [-> | Hne].
    - eexists. split; [apply list_lookup_insert_eq; by rewrite length_insert |].
      rewrite list_lookup_insert_eq in Ha1 by exact Hltc.
      injection Ha1 as <-. cbn. rewrite length_app. cbn.
      unfold aligned_node in Hmc. lia.
    - eexists. split.
      + rewrite list_lookup_insert_ne by exact Hne.
        by apply list_lookup_insert_eq.
      + cbn. rewrite length_app. cbn. unfold aligned_node in Hmc. lia. }
  destruct Hc2 as (mc & Hc2 & Hlen).
  assert (Ha2 : h2 !! a = Some (set_onceQueue (tl (onceQueue n1)) n1))
    by (apply list_lookup_insert_eq; by rewrite length_insert).
  assert (Hal2 : ∀ x, aligned_node x → Forall aligned_node (<[c := x]> h2)).
  { intros x Hx. unfold h2. destruct (decide (a = c)) as [-> | Hne].
    - rewrite !list_insert_insert_eq. by apply al_insert.
    - rewrite list_insert_insert_ne by congruence.
      rewrite list_insert_insert_eq.
      apply al_insert; [by apply al_insert |].
      rewrite list_lookup_insert_ne in Ha1 by congruence.
      assert (n1 = n) by congruence. subst n1. exact Hna. }
  assert (Hlog : ∀ ext k v, Forall aligned_node ext →
    res_aligned (on_mock_rec host_get (h2 ++ ext) a (push_result k v))).
  { intros ext k v Hext.
    rewrite (omr_ok (h2 ++ ext) a c _ mc (push_result k v)
               (lookup_app_l_Some _ _ _ _ Ha2)).
    - cbn [res_aligned].
      rewrite insert_app_l
        by (unfold h2; rewrite !length_insert; exact Hltc).
      apply Forall_app. split; [| exact Hext]. apply Hal2.
      unfold aligned_node. cbn. rewrite length_app. cbn. lia.
    - rewrite (target_value_props n _ "mock"); [exact Hv |].
      cbn [props set_onceQueue]. exact Hp1.
    - by apply lookup_app_l_Some. }
  assert (Hlog' : ∀ ext k v, Forall aligned_node ext →
    match on_mock_rec host_get (h2 ++ ext) a (push_result k v) with
    | Ok _ h4 => Forall aligned_node h4
    | _ => False
    end).
  { intros ext k v Hext. pose proof (Hlog ext k v Hext) as Hl.
    rewrite (omr_ok (h2 ++ ext) a c _ mc (push_result k v)
               (lookup_app_l_Some _ _ _ _ Ha2)) in Hl |- *.
    - exact Hl.
    - rewrite (target_value_props n _ "mock"); [exact Hv |].
      cbn [props set_onceQueue]. exact Hp1.
    - by apply lookup_app_l_Some.
    - rewrite (target_value_props n _ "mock"); [exact Hv |].
      cbn [props set_onceQueue]. exact Hp1.
    - by apply lookup_app_l_Some. }
  assert (Hcases : ∀ (r : res value),
    match r with
    | Ok _ h3 | Throw _ h3 => ∃ ext, h3 = h2 ++ ext ∧ Forall aligned_node ext
    | Unmodelled => True
    end →
    res_aligned
      match r with
      | Ok v h3 =>
          match on_mock_rec host_get h3 a (push_result RReturn v) with
          | Ok _ h4 => Ok v h4
          | Throw err h4 =>
              bind (on_mock_rec host_get h4 a (push_result RThrow err))
                   (fun _ h5 => Throw err h5)
          | Unmodelled => Unmodelled
          end
      | Throw err h3 =>
          bind (on_mock_rec host_get h3 a (push_result RThrow err))
               (fun _ h4 => Throw err h4)
      | Unmodelled => Unmodelled
      end).
  { intros r Hr. destruct r as [v h3 | err h3 |]; [| | exact I];
      destruct Hr as (ext & -> & Hext).
    - pose proof (Hlog' ext RReturn v Hext) as Hl.
      destruct (on_mock_rec host_get (h2 ++ ext) a (push_result RReturn v));
        [exact Hl | contradiction | contradiction].
    - pose proof (Hlog' ext RThrow err Hext) as Hl.
      destruct (on_mock_rec host_get (h2 ++ ext) a (push_result RThrow err));
        [exact Hl | contradiction | contradiction]. }
  apply Hcases. destruct (truthy toCall).
  - apply call_value_ext_aligned.
  - exists []. split; [by rewrite app_nil_r | constructor].
Qed.

Lemma al_call_leaf (h : store) (f : value) (args : list value) :
  Forall aligned_node h → res_aligned (call_leaf user_fn host_get h f args).
Proof.
  intros Hh. destruct f; try by apply al_call_value.
  destruct m; try (by apply al_call_value); cbn [call_leaf];
    try by apply al_clear.
  - destruct (h !! a) as [n |] eqn:Ha; [| exact I].
    apply al_insert; [exact Hh | exact (al_lookup h a n Hh Ha)].
  - destruct (h !! a) as [n |] eqn:Ha; [| exact I].
    apply al_insert; [exact Hh | exact (al_lookup h a n Hh Ha)].
Qed.

Lemma al_delegate (h : store) (b : addr) (name : string) (x : value) :
  Forall aligned_node h →
  res_aligned (delegate user_fn host_get h b name x).
Proof.
  intros Hh. unfold delegate. apply al_bind; [by apply al_target_get |].
  intros f h1 Hh1. by apply al_call_leaf.
Qed.

Lemma al_delegate_self (h : store) (b : addr) (name : string) (x : value) :
  Forall aligned_node h →
  res_aligned (delegate_self user_fn host_get h b name x).
Proof.
  intros Hh. unfold delegate_self. apply al_bind; [by apply al_delegate |].
  intros _ h1 Hh1. exact Hh1.
Qed.

Lemma al_call_method (h : store) (b : addr) (m : method) (args : list value) :
  Forall aligned_node h →
  res_aligned (call_method user_fn host_get h b m args).
Proof.
  intros Hh. destruct m; cbn [call_method];
    try (by apply al_call_leaf); try (by apply al_delegate);
    try (by apply al_delegate_self).
  - apply al_bind; [by apply al_target_get |]. intros c h1 Hh1.
    apply al_bind; [by apply al_call_leaf |]. intros _ h2 Hh2.
    destruct (h2 !! b) as [n |] eqn:Hb; [| exact I].
    apply al_insert; [exact Hh2 | exact (al_lookup h2 b n Hh2 Hb)].
  - apply al_bind; [by apply al_target_get |]. intros c h1 Hh1.
    apply al_bind; [by apply al_call_leaf |]. intros _ h2 Hh2.
    by apply al_delegate_self.
Qed.

Lemma al_call (h : store) (v : value) (args : list value) :
  Forall aligned_node h → res_aligned (call user_fn host_get h v args).
Proof.
  intros Hh. destruct v; cbn [call]; try (by apply al_call_value);
    try (by apply al_invoke); by apply al_call_method.
Qed.

Lemma al_get_member (h : store) (v : value) (k : string) :
  Forall aligned_node h → res_aligned (member h v k).
Proof.
  intros Hh. destruct v; cbn [get_member]; try exact I; try exact Hh;
    try (by destruct (host_get k)).
  - by apply al_target_get.
  - by apply al_handler_get.
Qed.

Lemma al_set_member (h : store) (v : value) (k : string) (x : value) :
  Forall aligned_node h → res_aligned (set_member host_readonly h v k x).
Proof.
  intros Hh. destruct v; cbn [set_member]; try exact I;
    by apply al_target_set.
Qed.

Lemma al_call_member (h : store) (v : value) (name : string)
    (args : list value) :
  Forall aligned_node h →
  res_aligned (call_member user_fn host_get host_readonly h v name args).
Proof.
  intros Hh. unfold call_member. apply al_bind; [by apply al_get_member |].
  intros f h1 Hh1. by apply al_call.
Qed.

Lemma al_install_default (h : store) (mockObj : value)
    (entry : string * value) :
  Forall aligned_node h →
  res_aligned (install_default user_fn host_get host_readonly h mockObj entry).
Proof.
  intros Hh. destruct entry as [key v]. unfold install_default.
  apply al_bind; [by apply al_get_member |]. intros mockProp h1 Hh1.
  destruct (typeof_function mockProp && typeof_function v).
  - apply al_bind; [by apply al_call_member |]. by intros _ h2 Hh2.
  - destruct (typeof_function mockProp).
    + apply al_bind; [by apply al_call_member |]. by intros _ h2 Hh2.
    + by apply al_set_member.
Qed.

Lemma al_forEach (entries : list (string * value)) (h : store)
    (mockObj : value) :
  Forall aligned_node h →
  res_aligned (forEach user_fn host_get host_readonly h mockObj entries).
Proof.
  revert h. induction entries as [| entry rest IH]; intros h Hh.
  - exact Hh.
  - cbn [forEach]. apply al_bind; [by apply al_install_default |].
    intros _ h1 Hh1. by apply IH.
Qed.

Lemma al_createMockWithDefaults (h : store)
    (defaults : option (list (string * value))) :
  Forall aligned_node h →
  res_aligned
    (createMockWithDefaults user_fn host_get host_readonly h defaults).
Proof.
  intros Hh. unfold createMockWithDefaults.
  pose proof (al_createMock h 0 Hh) as Hcm.
  destruct (createMock h 0) as [mockObj h1]. cbn [snd] in Hcm.
  destruct defaults as [entries |]; [| exact Hcm].
  apply al_bind; [by apply al_forEach |]. by intros _ h2 Hh2.
Qed.

Lemma al_step (h : store) (o : op) :
  Forall aligned_node h →
  res_aligned (step user_fn host_get host_readonly h o).
Proof.
  intros Hh. destruct o as [v k | v k x | v args | d | defaults]; cbn [step].
  - unfold forget. apply al_bind; [by apply al_get_member |].
    by intros _ h1 Hh1.
  - by apply al_set_member.
  - unfold forget. apply al_bind; [by apply al_call |]. by intros _ h1 Hh1.
  - by apply al_createMock.
  - unfold forget. apply al_bind; [by apply al_createMockWithDefaults |].
    by intros _ h1 Hh1.
Qed.

(** X2. Between caller actions the two logs of every recorder have the same
    length, provided the behaviours the caller supplies leave mocks alone
    (none of them invokes, clears, resets or configures a mock while it
    runs) and the log records are the ones the library made (the caller
    neither writes into a record nor installs an object of its own under
    [mock]): under these conditions, whatever the caller does (reads,
    writes, calls of mocks and of protocol functions, constructions, also
    when a call raises), a store whose recorders have aligned logs is
    followed by one whose recorders have aligned logs.  A behaviour that
    clears its own mock while it runs is outside this statement. *)
Theorem logs_stay_aligned (ops : list op) (h h' : store) :
  Forall aligned_node h →
  run user_fn host_get host_readonly h ops = Some h' →
  Forall aligned_node h'.
Proof.
  revert h. induction ops as [| o ops IH]; intros h Hh Hrun.
  - cbn [run] in Hrun. by injection Hrun as <-.
  - cbn [run] in Hrun. pose proof (al_step h o Hh) as Hstep.
    destruct (step user_fn host_get host_readonly h o) as [u h1 | e h1 |];
      [| | discriminate]; cbn [res_aligned] in Hstep; by apply (IH h1).
Qed.

(** *** The default behaviour of a mock *)

Lemma invoke_nested (h : store) (d k : nat) (a : addr) (args : list value) :
  configured h d a [] (VNestedFn k) → k ≤ MAX_DEPTH →
  ∃ h', invoke_ h a args = Ok (VProxy k (List.length h)) h'
        ∧ List.length h' = S (List.length h)
        ∧ h' !! List.length h = Some (fresh_node k (List.length h))
        ∧ configured h' d a [] (VNestedFn k).
Proof.
  intros (n & Ha & Hsub & Hq & Hi) Hk.
  pose proof (lookup_lt_Some _ _ _ Ha) as Hlt.
  assert (Hm : props n !! "mock" = Some (VMockRec a))
    by exact (protocol_lookup d a n "mock" _ Hsub (protocol_mock d a)).
  assert (Hc : chosen n = VNestedFn k) by (unfold chosen; by rewrite Hq, Hi).
  rewrite (invoke_mock_node h a n args Ha Hm). cbn zeta.
  rewrite Hc. cbn [truthy call_value].
  rewrite createMock_fresh by exact Hk. rewrite length_insert.
  eexists. split; [reflexivity |]. split; [| split].
  - rewrite length_insert, length_app, length_insert. cbn. lia.
  - rewrite list_lookup_insert_ne by lia.
    apply list_lookup_middle. by rewrite length_insert.
  - eexists. split.
    + apply list_lookup_insert_eq. rewrite length_app, length_insert. lia.
    + split; [exact Hsub |]. split; [| exact Hi].
      cbn [push_result set_results set_onceQueue push_call set_calls onceQueue].
      by rewrite Hq.
Qed.

Lemma invoke_exhausted (h : store) (d k : nat) (a : addr) (args : list value) :
  configured h d a [] (VNestedFn k) → MAX_DEPTH < k →
  ∃ h', invoke_ h a args = Ok VUndef h'
        ∧ List.length h' = List.length h
        ∧ configured h' d a [] (VNestedFn k).
Proof.
  intros (n & Ha & Hsub & Hq & Hi) Hk.
  pose proof (lookup_lt_Some _ _ _ Ha) as Hlt.
  assert (Hm : props n !! "mock" = Some (VMockRec a))
    by exact (protocol_lookup d a n "mock" _ Hsub (protocol_mock d a)).
  assert (Hc : chosen n = VNestedFn k) by (unfold chosen; by rewrite Hq, Hi).
  rewrite (invoke_mock_node h a n args Ha Hm). cbn zeta.
  rewrite Hc. cbn [truthy call_value].
  rewrite createMock_exhausted by exact Hk.
  eexists. split; [reflexivity |]. split; [by rewrite !length_insert |].
  eexists. split.
  - rewrite list_insert_insert_eq. by apply list_lookup_insert_eq.
  - split; [exact Hsub |]. split; [| exact Hi].
    cbn [push_result set_results set_onceQueue push_call set_calls onceQueue].
    by rewrite Hq.
Qed.

(** X3. A mock node of depth [d] still in its default configuration (empty
    queue, the nested-mock implementation of construction) answers every
    invocation below the bound with a newly allocated mock node of depth
    [d + 1]: two invocations return two different objects, unlike two reads
    of one key.  At depth 10 the invocation returns [undefined] and
    allocates nothing. *)
Theorem default_invocation_fresh (h : store) (d : nat) (a : addr)
    (args1 args2 : list value) :
  configured h d a [] (VNestedFn (d + 1)) →
  (d < MAX_DEPTH →
     ∃ h1 h2,
       invoke_ h a args1 = Ok (VProxy (d + 1) (List.length h)) h1
       ∧ invoke_ h1 a args2 = Ok (VProxy (d + 1) (S (List.length h))) h2
       ∧ is_mock_node h2 (d + 1) (List.length h)
       ∧ is_mock_node h2 (d + 1) (S (List.length h)))
  ∧ (MAX_DEPTH ≤ d →
     ∃ h1, invoke_ h a args1 = Ok VUndef h1
           ∧ List.length h1 = List.length h).
Proof.
  intros Hcfg. split; intros Hd.
  - destruct (invoke_nested h d (d + 1) a args1 Hcfg) as (h1 & I1 & L1 & F1 & C1);
      [lia |].
    destruct (invoke_nested h1 d (d + 1) a args2 C1) as (h2 & I2 & L2 & F2 & C2);
      [lia |].
    rewrite L1 in I2, F2. exists h1, h2. split; [exact I1 |].
    split; [exact I2 |]. split; [| by apply fresh_is_mock_node].
    apply fresh_is_mock_node.
    assert (Hfr : ∀ b m, b ≠ a → h1 !! b = Some m → h2 !! b = Some m).
    { pose proof (invoke_entry h1 d a) as Hent.
      destruct C1 as (n1 & Ha1 & Hsub1 & _).
      specialize (Hent n1 args2 (ex_intro _ n1 (conj Ha1 Hsub1)) Ha1).
      rewrite I2 in Hent. destruct Hent as (_ & _ & _ & _ & _ & _ & _ & Hfr).
      exact Hfr. }
    apply Hfr; [| exact F1].
    destruct Hcfg as (n & Ha & _). pose proof (lookup_lt_Some _ _ _ Ha). lia.
  - destruct (invoke_exhausted h d (d + 1) a args1 Hcfg) as (h1 & I1 & L1 & _);
      [lia |].
    by exists h1.
Qed.

(** *** What the protocol functions return *)

Lemma protocol_call (h : store) (d : nat) (a : addr) (n : node)
    (name : string) (args : list value) :
  h !! a = Some n → protocol_props d a ⊆ props n → name ∈ method_names →
  ∃ n', call_member user_fn host_get host_readonly h (VProxy d a) name args
          = Ok (VBase a) (<[a := n']> h)
        ∧ props n' = props n.
Proof.
  intros Ha Hsub Hname. pose proof (lookup_lt_Some _ _ _ Ha) as Hlt.
  assert (Hm : props n !! "mock" = Some (VMockRec a))
    by exact (protocol_lookup d a n "mock" _ Hsub (protocol_mock d a)).
  assert (Hi : ∀ x, delegate user_fn host_get h a "mockImplementation" x
                    = Ok (VBase a) (<[a := set_impl x n]> h))
    by (intros x; exact (delegate_implementation h d a n x Ha Hsub)).
  assert (Ho : ∀ x, delegate user_fn host_get h a "mockImplementationOnce" x
                    = Ok (VBase a)
                        (<[a := set_onceQueue (onceQueue n ++ [x]) n]> h))
    by (intros x; exact (delegate_once h d a n x Ha Hsub)).
  unfold method_names in Hname.
  repeat (apply elem_of_cons in Hname as [-> | Hname]);
    [.. | exfalso; exact (not_elem_of_nil _ Hname)]; unfold call_member.
  - rewrite (member_reserved h d a n _ (VMethod a MImplementation) Ha Hsub)
      by reflexivity.
    cbn [bind call call_method call_leaf]. rewrite Ha. eexists; split; reflexivity.
  - rewrite (member_reserved h d a n _ (VMethod a MImplementationOnce) Ha Hsub)
      by reflexivity.
    cbn [bind call call_method call_leaf]. rewrite Ha. eexists; split; reflexivity.
  - rewrite (member_reserved h d a n _ (VMethod a MReturnValue) Ha Hsub)
      by reflexivity.
    cbn [bind call call_method]. unfold delegate_self. rewrite Hi. eexists; split; reflexivity.
  - rewrite (member_reserved h d a n _ (VMethod a MReturnValueOnce) Ha Hsub)
      by reflexivity.
    cbn [bind call call_method]. unfold delegate_self. rewrite Ho. eexists; split; reflexivity.
  - rewrite (member_reserved h d a n _ (VMethod a MResolvedValue) Ha Hsub)
      by reflexivity.
    cbn [bind call call_method]. unfold delegate_self. rewrite Hi. eexists; split; reflexivity.
  - rewrite (member_reserved h d a n _ (VMethod a MResolvedValueOnce) Ha Hsub)
      by reflexivity.
    cbn [bind call call_method]. unfold delegate_self. rewrite Ho. eexists; split; reflexivity.
  - rewrite (member_reserved h d a n _ (VMethod a MRejectedValue) Ha Hsub)
      by reflexivity.
    cbn [bind call call_method]. unfold delegate_self. rewrite Hi. eexists; split; reflexivity.
  - rewrite (member_reserved h d a n _ (VMethod a MRejectedValueOnce) Ha Hsub)
      by reflexivity.
    cbn [bind call call_method]. unfold delegate_self. rewrite Ho. eexists; split; reflexivity.
  - rewrite (member_reserved h d a n _ (VMethod a MClear) Ha Hsub)
      by reflexivity.
    cbn [bind call call_method].
    change (call_leaf user_fn host_get h (VMethod a MClear) args)
      with (call_leaf user_fn host_get h (VMethod a MClear) []).
    rewrite (clear_leaf h a n MClear Ha Hm) by auto.
    eexists; split; reflexivity.
  - rewrite (member_reserved h d a n _ (VMethod a (MReset d)) Ha Hsub)
      by reflexivity.
    cbn [bind call call_method]. unfold target_get at 1. rewrite Ha.
    rewrite (protocol_lookup d a n "mockClear" (VMethod a MClear) Hsub)
      by reflexivity.
    cbn [bind]. rewrite (clear_leaf h a n MClear Ha Hm) by auto. cbn [bind].
    unfold delegate_self.
    rewrite (delegate_implementation _ d a (set_results [] (set_calls [] n)))
      by (first [by apply list_lookup_insert_eq | exact Hsub]).
    cbn [bind]. rewrite list_insert_insert_eq. eexists; split; reflexivity.
Qed.

(** X4. Every protocol function of a mock node returns the recorder
    function itself, not the proxy that [createMock] returned, and leaves
    the node a mock node.  On that returned value a key that was never
    materialized reads as [undefined] and stays unmaterialized, so a chain
    such as [m.mockReturnValue(1).child] does not reach a child mock. *)
Theorem protocol_returns_recorder (h : store) (d : nat) (a : addr)
    (name : string) (args : list value) :
  is_mock_node h d a → name ∈ method_names →
  ∃ h',
    call_member user_fn host_get host_readonly h (VProxy d a) name args
      = Ok (VBase a) h'
    ∧ is_mock_node h' d a
    ∧ ∀ k, plain_key k → prop_of h a k = None →
        member h' (VBase a) k = Ok VUndef h'.
Proof.
  intros (n & Ha & Hsub) Hname. pose proof (lookup_lt_Some _ _ _ Ha) as Hlt.
  destruct (protocol_call h d a n name args Ha Hsub Hname) as (n' & Hcall & Hp).
  exists (<[a := n']> h). split; [exact Hcall |].
  assert (Ha' : (<[a := n']> h) !! a = Some n')
    by (by apply list_lookup_insert_eq).
  split.
  - exists n'. split; [exact Ha' |]. rewrite Hp. exact Hsub.
  - intros k (_ & Hhost & _) Hk. unfold prop_of in Hk. rewrite Ha in Hk.
    cbn in Hk. cbn [get_member]. unfold target_get.
    by rewrite Ha', Hp, Hk, Hhost.
Qed.

(** X5. On a mock node, each sugar function and the [mockClear] that
    [createMock] installs does exactly what the [createBaseMock] function it
    replaces would have done: same returned value, same resulting store.
    (Only [mockReset] differs from the function it replaces.) *)
Theorem replaced_methods_agree (h : store) (d : nat) (a : addr)
    (m mb : method) (args : list value) :
  is_mock_node h d a → (m, mb) ∈ replaced_methods →
  call_method user_fn host_get h a m args
  = call_method user_fn host_get h a mb args
  ∧ ∃ h', call_method user_fn host_get h a m args = Ok (VBase a) h'.
Proof.
  intros (n & Ha & Hsub) Hin.
  assert (Hm : props n !! "mock" = Some (VMockRec a))
    by exact (protocol_lookup d a n "mock" _ Hsub (protocol_mock d a)).
  assert (Hi : ∀ x, delegate user_fn host_get h a "mockImplementation" x
                    = Ok (VBase a) (<[a := set_impl x n]> h))
    by (intros x; exact (delegate_implementation h d a n x Ha Hsub)).
  assert (Ho : ∀ x, delegate user_fn host_get h a "mockImplementationOnce" x
                    = Ok (VBase a)
                        (<[a := set_onceQueue (onceQueue n ++ [x]) n]> h))
    by (intros x; exact (delegate_once h d a n x Ha Hsub)).
  unfold replaced_methods in Hin.
  repeat (apply elem_of_cons in Hin as [[= -> ->] | Hin]);
    [.. | exfalso; exact (not_elem_of_nil _ Hin)];
    cbn [call_method]; unfold delegate_self;
    try (rewrite Hi; cbn [bind]; split; [reflexivity | eexists; reflexivity]);
    try (rewrite Ho; cbn [bind]; split; [reflexivity | eexists; reflexivity]).
  split; [reflexivity |].
  change (call_leaf user_fn host_get h (VMethod a MClear) args)
    with (call_leaf user_fn host_get h (VMethod a MClear) []).
  rewrite (clear_leaf h a n MClear Ha Hm) by auto. eexists; reflexivity.
Qed.

(** X6. [mockReset()] on any mock node empties both logs and makes the
    implementation the nested-mock default of the node's depth again, and
    it leaves the one-shot queue, every property of the node (materialized
    children and written values included) and every other recorder as they
    were; when the queue is empty and the node is below the depth bound, the
    next invocation therefore returns a newly created nested mock. *)
Theorem reset_restores_default (h : store) (d : nat) (a : addr) (n : node)
    (args : list value) :
  is_mock_node h d a → h !! a = Some n →
  ∃ h1,
    call_member user_fn host_get host_readonly h (VProxy d a) "mockReset" []
      = Ok (VBase a) h1
    ∧ configured h1 d a (onceQueue n) (VNestedFn (d + 1))
    ∧ (∃ n1, h1 = <[a := n1]> h ∧ props n1 = props n
             ∧ calls n1 = [] ∧ results n1 = []
             ∧ onceQueue n1 = onceQueue n ∧ impl n1 = VNestedFn (d + 1))
    ∧ getCallInfo host_get host_readonly h1 (VProxy d a)
      = Ok {| callCount := 0; info_calls := []; info_results := [];
              lastCall := [];
              lastResult := {| rtype := RReturn; rvalue := VUndef |} |} h1
    ∧ (onceQueue n = [] → d < MAX_DEPTH →
       ∃ h2, invoke_ h1 a args = Ok (VProxy (d + 1) (List.length h)) h2).
Proof.
  intros Hnode Ha. pose proof (lookup_lt_Some _ _ _ Ha) as Hlt.
  destruct (reset_leaves_queue h d a n Hnode Ha)
    as (h1 & n1 & Hcall & Ha1 & Hc & Hr & Hi & Hq).
  destruct Hnode as (n0 & Ha0 & Hsub).
  assert (n0 = n) by congruence. subst n0. clear Ha0.
  assert (Hreset : "mockReset" ∈ method_names)
    by (unfold method_names; repeat (first [left | right])).
  destruct (protocol_call h d a n "mockReset" [] Ha Hsub Hreset)
    as (n' & Hcall' & Hp).
  rewrite Hcall in Hcall'. injection Hcall' as ->.
  rewrite list_lookup_insert_eq in Ha1 by exact Hlt. injection Ha1 as ->.
  assert (Ha1 : (<[a := n1]> h) !! a = Some n1)
    by (by apply list_lookup_insert_eq).
  assert (Hcfg : configured (<[a := n1]> h) d a (onceQueue n)
                   (VNestedFn (d + 1))).
  { exists n1. split; [exact Ha1 |]. split; [rewrite Hp; exact Hsub |].
    split; [exact Hq | exact Hi]. }
  exists (<[a := n1]> h). split; [exact Hcall |]. split; [exact Hcfg |].
  split.
  { exists n1. split; [reflexivity |]. split; [exact Hp |].
    split; [exact Hc |]. split; [exact Hr |]. split; [exact Hq | exact Hi]. }
  split.
  - rewrite (getCallInfo_mock_node _ d a n1 Ha1).
    + unfold summary. by rewrite Hc, Hr.
    + rewrite Hp.
      exact (protocol_lookup d a n "mock" _ Hsub (protocol_mock d a)).
  - intros Hempty Hd. rewrite Hempty in Hcfg.
    destruct (invoke_nested _ d (d + 1) a args Hcfg) as (h2 & Hinv & _);
      [lia |].
    rewrite length_insert in Hinv. by exists h2.
Qed.

(** X7. [isMock] answers [true] on every mock node, through the proxy and
    on the recorder function itself, without changing the store; it answers
    [false] on every value that is not a function, and, when plain function
    objects have no [mock] member, on caller functions and on the protocol
    functions of a mock. *)
Theorem isMock_recognises (h : store) (d : nat) (a : addr) :
  is_mock_node h d a →
  isMock host_get host_readonly h (VProxy d a) = Ok true h
  ∧ isMock host_get host_readonly h (VBase a) = Ok true h
  ∧ (∀ v, typeof_function v = false →
       isMock host_get host_readonly h v = Ok false h)
  ∧ (host_get "mock" = Return VUndef →
     ∀ f b m, isMock host_get host_readonly h (VFn f) = Ok false h
              ∧ isMock host_get host_readonly h (VMethod b m) = Ok false h).
Proof.
  intros (n & Ha & Hsub).
  assert (Hm : props n !! "mock" = Some (VMockRec a))
    by exact (protocol_lookup d a n "mock" _ Hsub (protocol_mock d a)).
  split; [| split; [| split]].
  - unfold isMock. cbn [typeof_function negb get_member].
    unfold handler_get. change (reserved "mock") with true. cbv iota.
    unfold target_get. rewrite Ha, Hm. cbn [bind typeof_object negb].
    by rewrite Ha.
  - unfold isMock. cbn [typeof_function negb get_member].
    unfold target_get. rewrite Ha, Hm. cbn [bind typeof_object negb].
    by rewrite Ha.
  - intros v Hv. unfold isMock. by rewrite Hv.
  - intros Hhost f b m. unfold isMock. cbn [typeof_function negb get_member].
    rewrite Hhost. by split.
Qed.

(** *** Reserved names and reads at the bound *)

(** X8. A read of a reserved protocol name through the proxy hands back what
    the recorder holds under that name and changes nothing: it never
    materializes a child, even when nothing is stored there.  In particular
    [mockRestore], which the [get] trap reserves but no code installs, reads
    as [undefined] on a node where it was never written, and calling it
    raises a [TypeError]. *)
Theorem reserved_read_is_direct (h : store) (d : nat) (a : addr) (n : node)
    (k : string) (args : list value) :
  h !! a = Some n → reserved k = true →
  member h (VProxy d a) k = lift_outcome h (target_value host_get n k)
  ∧ (k = "mockRestore" → props n !! k = None →
     host_get k = Return VUndef →
     member h (VProxy d a) k = Ok VUndef h
     ∧ call_member user_fn host_get host_readonly h (VProxy d a) k args
       = Throw VHostTypeError h).
Proof.
  intros Ha Hres.
  assert (Hread : member h (VProxy d a) k
                  = lift_outcome h (target_value host_get n k)).
  { cbn [get_member]. unfold handler_get. rewrite Hres.
    by apply target_get_value. }
  split; [exact Hread |]. intros -> Hk Hhost.
  assert (Hv : target_value host_get n "mockRestore" = Return VUndef)
    by (unfold target_value; by rewrite Hk).
  rewrite Hv in Hread. cbn [lift_outcome] in Hread.
  split; [exact Hread |]. unfold call_member. by rewrite Hread.
Qed.

(** X9. A first read of a plain key on a node at or beyond the depth bound
    returns [undefined] and allocates nothing, but it does leave the key on
    the node, holding [undefined]: the key is enumerated from then on, and
    reading it again returns [undefined] and leaves the store as it is. *)
Theorem exhausted_read_marks_key (h : store) (d : nat) (a : addr) (n : node)
    (k : string) :
  h !! a = Some n → props n !! k = None → plain_key k → MAX_DEPTH ≤ d →
  ∃ h',
    member h (VProxy d a) k = Ok VUndef h'
    ∧ List.length h' = List.length h
    ∧ prop_of h' a k = Some VUndef
    ∧ (∃ ks, ownKeys h' a = Some ks ∧ k ∈ ks)
    ∧ (∃ ks, ownKeys h a = Some ks ∧ k ∉ ks)
    ∧ member h' (VProxy d a) k = Ok VUndef h'.
Proof.
  intros Ha Hk Hplain Hd. pose proof (lookup_lt_Some _ _ _ Ha) as Hlt.
  set (n' := set_props (<[k := VUndef]> (props n)) n).
  exists (<[a := n']> h).
  assert (Ha' : (<[a := n']> h) !! a = Some n')
    by (by apply list_lookup_insert_eq).
  assert (Hk' : props n' !! k = Some VUndef)
    by (unfold n'; cbn [props set_props]; by rewrite lookup_insert_eq).
  split; [exact (hget_exhausted h d a n k Ha Hk Hplain Hd) |].
  split; [by rewrite length_insert |].
  split; [unfold prop_of; rewrite Ha'; exact Hk' |].
  split; [| split].
  - exists (dom (props n')). split; [unfold ownKeys; by rewrite Ha' |].
    apply elem_of_dom. by rewrite Hk'.
  - exists (dom (props n)). split; [unfold ownKeys; by rewrite Ha |].
    by apply not_elem_of_dom.
  - destruct Hplain as (Hres & Hhost & Hro). cbn [get_member].
    unfold handler_get, target_get, target_set. rewrite Hres, Ha', Hk'.
    cbn [bind is_undefined negb].
    rewrite createMock_exhausted by lia. rewrite Ha', Hk'.
    rewrite list_insert_insert_eq. unfold n'. cbn [props set_props].
    by rewrite insert_insert_eq.
Qed.

(** *** Defaults named after protocol members *)

Lemma method_names_installed (d : nat) (a : addr) (name : string) :
  name ∈ method_names →
  reserved name = true
  ∧ ∃ m, protocol_props d a !! name = Some (VMethod a m).
Proof.
  intros Hname. unfold method_names in Hname.
  repeat (apply elem_of_cons in Hname as [-> | Hname]);
    [.. | exfalso; exact (not_elem_of_nil _ Hname)];
    (split; [reflexivity | eexists; reflexivity]).
Qed.

(** X10. A defaults entry whose key is the name of a protocol function makes
    [createMockWithDefaults] raise a [TypeError]: what it finds under the key
    is that function, which is treated as a mocked method, and it has no
    [mockImplementation] or [mockReturnValue] of its own to call (plain
    function objects carry neither).  The root has been created; the
    entries after the failing one are not applied. *)
Theorem defaults_on_method_name (h : store) (k : string) (v : value)
    (rest : list (string * value)) :
  k ∈ method_names →
  host_get "mockImplementation" = Return VUndef →
  host_get "mockReturnValue" = Return VUndef →
  createMockWithDefaults user_fn host_get host_readonly h
    (Some ((k, v) :: rest))
  = Throw VHostTypeError (h ++ [fresh_node 0 (List.length h)]).
Proof.
  intros Hk Himpl Hret.
  destruct (method_names_installed 0 (List.length h) k Hk) as (Hres & m & Hm).
  unfold createMockWithDefaults.
  rewrite createMock_fresh by (unfold MAX_DEPTH; lia).
  set (r := List.length h) in *. set (h0 := h ++ [fresh_node 0 r]).
  assert (Hr : h0 !! r = Some (fresh_node 0 r))
    by (by apply list_lookup_middle).
  cbn [forEach]. unfold install_default.
  rewrite (member_reserved h0 0 r (fresh_node 0 r) k (VMethod r m) Hr)
    by (first [reflexivity | exact Hm | exact Hres]).
  cbn [bind typeof_function andb]. unfold call_member. cbn [get_member].
  destruct (typeof_function v).
  - rewrite Himpl. reflexivity.
  - rewrite Hret. reflexivity.
Qed.

(** X11. A defaults entry named [mock] is written over the recorder's log
    record, whatever its value.  When the value is a primitive other than
    [null], the root that [createMockWithDefaults] returns is no longer
    recognised by [isMock], [getCallInfo] on it raises its type-mismatch
    error, and invoking it raises a [TypeError] before anything is
    logged. *)
Theorem defaults_on_mock_key (h : store) (v : value) (args : list value) :
  is_primitive v = true → v ≠ VNull →
  ∃ h',
    createMockWithDefaults user_fn host_get host_readonly h
      (Some [("mock", v)]) = Ok (VProxy 0 (List.length h)) h'
    ∧ prop_of h' (List.length h) "mock" = Some v
    ∧ isMock host_get host_readonly h' (VProxy 0 (List.length h))
      = Ok false h'
    ∧ getCallInfo host_get host_readonly h' (VProxy 0 (List.length h))
      = Throw (VTypeError "Argument must be a mock function") h'
    ∧ invoke_ h' (List.length h) args = Throw VHostTypeError h'.
Proof.
  intros Hprim Hnull. unfold createMockWithDefaults.
  rewrite createMock_fresh by (unfold MAX_DEPTH; lia).
  set (r := List.length h). set (h0 := h ++ [fresh_node 0 r]).
  assert (Hr : h0 !! r = Some (fresh_node 0 r))
    by (by apply list_lookup_middle).
  pose proof (lookup_lt_Some _ _ _ Hr) as Hlt.
  set (n' := set_props (<["mock" := v]> (props (fresh_node 0 r)))
               (fresh_node 0 r)).
  assert (Hinst : install_default user_fn host_get host_readonly h0
                    (VProxy 0 r) ("mock", v) = Ok tt (<[r := n']> h0)).
  { unfold install_default.
    rewrite (member_reserved h0 0 r (fresh_node 0 r) "mock" (VMockRec r) Hr)
      by reflexivity.
    cbn [bind typeof_function andb set_member].
    unfold handler_set, target_set. rewrite Hr.
    change (props (fresh_node 0 r) !! "mock") with (Some (VMockRec r)).
    reflexivity. }
  cbn [forEach]. rewrite Hinst. cbn [bind].
  exists (<[r := n']> h0). split; [reflexivity |].
  assert (Hr' : (<[r := n']> h0) !! r = Some n')
    by (by apply list_lookup_insert_eq).
  assert (Hm : props n' !! "mock" = Some v)
    by (unfold n'; cbn [props set_props]; by rewrite lookup_insert_eq).
  assert (Hget : member (<[r := n']> h0) (VProxy 0 r) "mock"
                 = Ok v (<[r := n']> h0)).
  { cbn [get_member]. unfold handler_get. change (reserved "mock") with true.
    cbv iota. unfold target_get. by rewrite Hr', Hm. }
  assert (Hobj : typeof_object v = false) by (by destruct v).
  assert (Hmock : isMock host_get host_readonly (<[r := n']> h0) (VProxy 0 r)
                  = Ok false (<[r := n']> h0)).
  { unfold isMock. cbn [typeof_function negb]. rewrite Hget. cbn [bind].
    by rewrite Hobj. }
  split; [unfold prop_of; by rewrite Hr' |]. split; [exact Hmock |].
  split; [unfold getCallInfo; by rewrite Hmock |].
  unfold invoke, on_mock_rec, target_get. rewrite Hr', Hm. cbn [bind].
  destruct v; try discriminate Hprim; reflexivity.
Qed.

(** *** Edge cases of the choice of behaviour *)

(** X12. A one-shot entry that is [undefined] or [null] (queued by
    [mockImplementationOnce()] without a function) still takes its turn in
    the queue, but the invocation that consumes it runs the default
    implementation. *)
Theorem nullish_one_shot_falls_through (h : store) (d : nat) (a : addr)
    (x : value) (q : list value) (dflt : value) (args : list value) :
  configured h d a (x :: q) dflt → nullish x = true →
  stateless dflt = true →
  ∃ h', invoke_ h a args = res_of (apply_stateless user_fn dflt args) h'
        ∧ configured h' d a q dflt.
Proof.
  intros (n & Ha & Hsub & Hq & Hi) Hx Hst.
  pose proof (lookup_lt_Some _ _ _ Ha) as Hlt.
  assert (Hm : props n !! "mock" = Some (VMockRec a))
    by exact (protocol_lookup d a n "mock" _ Hsub (protocol_mock d a)).
  assert (Hc : chosen n = dflt)
    by (unfold chosen; rewrite Hq; cbn [hd]; by rewrite Hx).
  rewrite (invoke_mock_node h a n args Ha Hm). cbn zeta.
  rewrite Hc, (stateless_truthy _ Hst), (call_stateless _ _ _ Hst).
  destruct (apply_stateless user_fn dflt args) as [v | e];
    cbn [res_of]; (eexists; split; [reflexivity |]);
    (eexists; split;
       [rewrite list_insert_insert_eq; apply list_lookup_insert_eq;
        exact Hlt |]);
    (split; [exact Hsub |]); (split; [| exact Hi]);
    cbn [push_result set_results set_onceQueue push_call set_calls onceQueue];
    rewrite Hq; reflexivity.
Qed.

(** X13. When the chosen behaviour is not a function: a falsy value (such
    as [undefined], [null], [0], the empty string or [false]) makes the
    invocation return [undefined], logged as a return; any other value makes
    it raise a [TypeError], which is logged as a throw like an error of the
    behaviour.  The arguments are logged in both cases. *)
Theorem non_function_behaviour (h : store) (d : nat) (a : addr) (n : node)
    (args : list value) :
  is_mock_node h d a → h !! a = Some n →
  typeof_function (chosen n) = false →
  ∃ h' n',
    invoke_ h a args
      = (if truthy (chosen n) then Throw VHostTypeError h'
         else Ok VUndef h')
    ∧ h' !! a = Some n'
    ∧ calls n' = calls n ++ [args]
    ∧ results n'
      = results n
        ++ [if truthy (chosen n)
            then {| rtype := RThrow; rvalue := VHostTypeError |}
            else {| rtype := RReturn; rvalue := VUndef |}].
Proof.
  intros (n0 & Ha0 & Hsub) Ha Hty. assert (n0 = n) by congruence. subst n0.
  pose proof (lookup_lt_Some _ _ _ Ha) as Hlt.
  assert (Hm : props n !! "mock" = Some (VMockRec a))
    by exact (protocol_lookup d a n "mock" _ Hsub (protocol_mock d a)).
  rewrite (invoke_mock_node h a n args Ha Hm). cbn zeta.
  destruct (truthy (chosen n)) eqn:Htr.
  - assert (Hcv : ∀ s, call_value user_fn s (chosen n) args
                       = Throw VHostTypeError s)
      by (intros s; destruct (chosen n); try discriminate Hty;
          try discriminate Htr; reflexivity).
    rewrite Hcv. eexists. eexists. split; [reflexivity |].
    split; [rewrite list_insert_insert_eq; by apply list_lookup_insert_eq |].
    split; reflexivity.
  - eexists. eexists. split; [reflexivity |].
    split; [rewrite list_insert_insert_eq; by apply list_lookup_insert_eq |].
    split; reflexivity.
Qed.

(** *** The default sugar, and locality *)

Lemma configure_default (h : store) (d : nat) (a : addr) (n : node)
    (name : string) (m : method) (f : value → value) (v : value) :
  h !! a = Some n → protocol_props d a ⊆ props n →
  (name, m, f) ∈ [("mockReturnValue", MReturnValue, VConstFn);
                  ("mockResolvedValue", MResolvedValue, VResolveFn);
                  ("mockRejectedValue", MRejectedValue, VRejectFn)] →
  call_member user_fn host_get host_readonly h (VProxy d a) name [v]
  = Ok (VBase a) (<[a := set_impl (f v) n]> h).
Proof.
  intros Ha Hsub Hin.
  repeat (apply elem_of_cons in Hin as [[= -> -> ->] | Hin]);
    [.. | exfalso; exact (not_elem_of_nil _ Hin)]; unfold call_member.
  - rewrite (member_reserved h d a n _ (VMethod a MReturnValue) Ha Hsub)
      by reflexivity.
    cbn [bind call call_method hd]. unfold delegate_self.
    by rewrite (delegate_implementation h d a n _ Ha Hsub).
  - rewrite (member_reserved h d a n _ (VMethod a MResolvedValue) Ha Hsub)
      by reflexivity.
    cbn [bind call call_method hd]. unfold delegate_self.
    by rewrite (delegate_implementation h d a n _ Ha Hsub).
  - rewrite (member_reserved h d a n _ (VMethod a MRejectedValue) Ha Hsub)
      by reflexivity.
    cbn [bind call call_method hd]. unfold delegate_self.
    by rewrite (delegate_implementation h d a n _ Ha Hsub).
Qed.

(** X14. On a mock node with an empty one-shot queue, after
    [mockReturnValue(v)] every invocation returns [v]; after
    [mockResolvedValue(v)] every invocation returns a promise resolved with
    [v]; after [mockRejectedValue(v)] every invocation returns (it does not
    raise) a promise rejected with [v].  The arguments play no part. *)
Theorem default_sugar (h : store) (d : nat) (a : addr) (n : node) (v : value)
    (argss : list (list value)) :
  is_mock_node h d a → h !! a = Some n → onceQueue n = [] →
  (∃ h1 h2,
     call_member user_fn host_get host_readonly h (VProxy d a)
       "mockReturnValue" [v] = Ok (VBase a) h1
     ∧ invocations user_fn host_get h1 a argss
       = Some (map (fun _ => Return v) argss, h2))
  ∧ (∃ h1 h2,
     call_member user_fn host_get host_readonly h (VProxy d a)
       "mockResolvedValue" [v] = Ok (VBase a) h1
     ∧ invocations user_fn host_get h1 a argss
       = Some (map (fun _ => Return (VPromiseResolve v)) argss, h2))
  ∧ (∃ h1 h2,
     call_member user_fn host_get host_readonly h (VProxy d a)
       "mockRejectedValue" [v] = Ok (VBase a) h1
     ∧ invocations user_fn host_get h1 a argss
       = Some (map (fun _ => Return (VPromiseReject v)) argss, h2)).
Proof.
  intros (n0 & Ha0 & Hsub) Ha Hq. assert (n0 = n) by congruence. subst n0.
  pose proof (lookup_lt_Some _ _ _ Ha) as Hlt.
  assert (Hcfg : ∀ f, configured (<[a := set_impl f n]> h) d a [] f).
  { intros f. eexists. split; [by apply list_lookup_insert_eq |].
    split; [exact Hsub |]. split; [exact Hq | reflexivity]. }
  split; [| split].
  - destruct (invocations_default argss _ d a _ (Hcfg (VConstFn v)) eq_refl)
      as (h2 & Hinv & _).
    eexists. exists h2. split; [| exact Hinv].
    apply (configure_default h d a n _ MReturnValue VConstFn v Ha Hsub).
    left.
  - destruct (invocations_default argss _ d a _ (Hcfg (VResolveFn v)) eq_refl)
      as (h2 & Hinv & _).
    eexists. exists h2. split; [| exact Hinv].
    apply (configure_default h d a n _ MResolvedValue VResolveFn v Ha Hsub).
    right; left.
  - destruct (invocations_default argss _ d a _ (Hcfg (VRejectFn v)) eq_refl)
      as (h2 & Hinv & _).
    eexists. exists h2. split; [| exact Hinv].
    apply (configure_default h d a n _ MRejectedValue VRejectFn v Ha Hsub).
    right; right; left.
Qed.


(** *** Descriptors *)

Lemma plain_read_own (h h1 : store) (d : nat) (a : addr) (k : string)
    (v : value) :
  plain_key k → member h (VProxy d a) k = Ok v h1 →
  ∃ n1, h1 !! a = Some n1 ∧ props n1 !! k = Some v.
Proof.
  intros (Hres & Hhost & Hro). cbn [get_member].
  unfold handler_get, target_get. rewrite Hres.
  destruct (h !! a) as [n |] eqn:Ha; [| discriminate].
  assert (Hset : ∀ x nested h2 n2, h2 !! a = Some n2 →
            bind (tset h2 a k nested) (fun _ h3 => Ok nested h3) = Ok x h1 →
            ∃ n1, h1 !! a = Some n1 ∧ props n1 !! k = Some x).
  { intros x nested h2 n2 Ha2. unfold target_set. rewrite Ha2, Hro.
    assert (Hins : (<[a := set_props (<[k := nested]> (props n2)) n2]> h2) !! a
                   = Some (set_props (<[k := nested]> (props n2)) n2))
      by (apply list_lookup_insert_eq; by eapply lookup_lt_Some).
    destruct (props n2 !! k); cbn [bind]; intros [= <- <-];
      (eexists; split; [exact Hins |]); cbn [props set_props];
      by rewrite lookup_insert_eq. }
  assert (Hmat : ∀ h0 n0, h0 !! a = Some n0 →
            (let '(nestedMock, h2) := createMock h0 (d + 1) in
             bind (tset h2 a k nestedMock) (fun _ h3 => Ok nestedMock h3))
            = Ok v h1 →
            ∃ n1, h1 !! a = Some n1 ∧ props n1 !! k = Some v).
  { intros h0 n0 Ha0.
    pose proof (co_createMock (fun _ _ => false) h0 (d + 1)) as Hcm.
    destruct (createMock h0 (d + 1)) as [nested h2]. cbn [snd] in Hcm.
    destruct (Hcm a n0 Ha0) as (n2 & Ha2 & _). by apply (Hset v nested h2 n2). }
  destruct (props n !! k) as [x |] eqn:Hk; cbn [bind].
  - destruct (negb (is_undefined x)).
    + intros [= <- <-]. by exists n.
    + by apply (Hmat h n).
  - rewrite Hhost. cbn [bind is_undefined negb]. by apply (Hmat h n).
Qed.

(** *** One-shot sugar, materialization, summaries *)

Lemma queue_sugar (h : store) (d : nat) (a : addr) (q : list value)
    (dflt : value) (name : string) (f : value → value) (v : value) :
  configured h d a q dflt →
  (name, f) ∈ [("mockReturnValueOnce", VConstFn);
               ("mockResolvedValueOnce", VResolveFn);
               ("mockRejectedValueOnce", VRejectFn)] →
  ∃ h', call_member user_fn host_get host_readonly h (VProxy d a) name [v]
          = Ok (VBase a) h'
        ∧ configured h' d a (q ++ [f v]) dflt.
Proof.
  intros (n & Ha & Hsub & Hq & Hi) Hin.
  pose proof (lookup_lt_Some _ _ _ Ha) as Hlt.
  assert (Hcfg : configured (<[a := set_onceQueue (onceQueue n ++ [f v]) n]> h)
                   d a (q ++ [f v]) dflt).
  { eexists. split; [by apply list_lookup_insert_eq |].
    split; [exact Hsub |]. split; [| exact Hi].
    cbn [set_onceQueue onceQueue]. by rewrite Hq. }
  exists (<[a := set_onceQueue (onceQueue n ++ [f v]) n]> h).
  split; [| exact Hcfg]. clear Hcfg.
  repeat (apply elem_of_cons in Hin as [[= -> ->] | Hin]);
    [.. | exfalso; exact (not_elem_of_nil _ Hin)]; unfold call_member.
  - rewrite (member_reserved h d a n _ (VMethod a MReturnValueOnce) Ha Hsub)
      by reflexivity.
    cbn [bind call call_method hd]. unfold delegate_self.
    by rewrite (delegate_once h d a n _ Ha Hsub).
  - rewrite (member_reserved h d a n _ (VMethod a MResolvedValueOnce) Ha Hsub)
      by reflexivity.
    cbn [bind call call_method hd]. unfold delegate_self.
    by rewrite (delegate_once h d a n _ Ha Hsub).
  - rewrite (member_reserved h d a n _ (VMethod a MRejectedValueOnce) Ha Hsub)
      by reflexivity.
    cbn [bind call call_method hd]. unfold delegate_self.
    by rewrite (delegate_once h d a n _ Ha Hsub).
Qed.

(** X17. The one-shot sugar queues in call order: after
    [mockReturnValueOnce(v1)], [mockResolvedValueOnce(v2)] and
    [mockRejectedValueOnce(v3)] on a mock node with an empty queue, the next
    three invocations return [v1], a promise resolved with [v2] and a promise
    rejected with [v3] (returned, not raised), and every later invocation
    uses the default implementation. *)
Theorem one_shot_sugar (h : store) (d : nat) (a : addr) (dflt : value)
    (v1 v2 v3 : value) (a1 a2 a3 : list value) (rest : list (list value)) :
  configured h d a [] dflt → stateless dflt = true →
  ∃ h1 h2 h3 h4,
    call_member user_fn host_get host_readonly h (VProxy d a)
      "mockReturnValueOnce" [v1] = Ok (VBase a) h1
    ∧ call_member user_fn host_get host_readonly h1 (VProxy d a)
        "mockResolvedValueOnce" [v2] = Ok (VBase a) h2
    ∧ call_member user_fn host_get host_readonly h2 (VProxy d a)
        "mockRejectedValueOnce" [v3] = Ok (VBase a) h3
    ∧ invocations user_fn host_get h3 a (a1 :: a2 :: a3 :: rest)
      = Some (Return v1 :: Return (VPromiseResolve v2)
              :: Return (VPromiseReject v3)
              :: map (apply_stateless user_fn dflt) rest, h4).
Proof.
  intros C0 Hd.
  destruct (queue_sugar h d a [] dflt "mockReturnValueOnce" VConstFn v1 C0)
    as (h1 & E1 & C1); [left |].
  destruct (queue_sugar h1 d a _ dflt "mockResolvedValueOnce" VResolveFn v2 C1)
    as (h2 & E2 & C2); [right; left |].
  destruct (queue_sugar h2 d a _ dflt "mockRejectedValueOnce" VRejectFn v3 C2)
    as (h3 & E3 & C3); [right; right; left |].
  cbn [app] in C1, C2, C3.
  destruct (invoke_configured h3 d a _ dflt a1 C3 eq_refl) as (i1 & I1 & D1).
  cbn [hd tl apply_stateless res_of] in I1, D1.
  destruct (invoke_configured i1 d a _ dflt a2 D1 eq_refl) as (i2 & I2 & D2).
  cbn [hd tl apply_stateless res_of] in I2, D2.
  destruct (invoke_configured i2 d a _ dflt a3 D2 eq_refl) as (i3 & I3 & D3).
  cbn [hd tl apply_stateless res_of] in I3, D3.
  destruct (invocations_default rest i3 d a dflt D3 Hd) as (h4 & I4 & _).
  exists h1, h2, h3, h4. repeat (split; [assumption |]).
  cbn [invocations]. rewrite I1, I2, I3, I4. reflexivity.
Qed.

(** X18. On any recorder below the depth bound, the first read of a plain
    key that is not stored on it allocates exactly one recorder: a mock node
    one level deeper, in its construction state, which is returned and
    stored under the key.  Nothing else changes: the other properties of the
    node, its implementation, queue and logs, and every other recorder stay
    as they were. *)
Theorem first_read_materializes (h : store) (d : nat) (a : addr) (n : node)
    (k : string) :
  h !! a = Some n → props n !! k = None → plain_key k → d < MAX_DEPTH →
  ∃ h' n',
    member h (VProxy d a) k = Ok (VProxy (d + 1) (List.length h)) h'
    ∧ List.length h' = S (List.length h)
    ∧ h' !! List.length h = Some (fresh_node (d + 1) (List.length h))
    ∧ is_mock_node h' (d + 1) (List.length h)
    ∧ h' !! a = Some n'
    ∧ props n' !! k = Some (VProxy (d + 1) (List.length h))
    ∧ (∀ k', k' ≠ k → props n' !! k' = props n !! k')
    ∧ impl n' = impl n ∧ onceQueue n' = onceQueue n
    ∧ calls n' = calls n ∧ results n' = results n
    ∧ ∀ b m, b ≠ a → h !! b = Some m → h' !! b = Some m.
Proof.
  intros Ha Hk Hplain Hd. pose proof (lookup_lt_Some _ _ _ Ha) as Hlt.
  set (c := List.length h).
  set (n' := set_props (<[k := VProxy (d + 1) c]> (props n)) n).
  exists (<[a := n']> (h ++ [fresh_node (d + 1) c])), n'.
  assert (Hc : (<[a := n']> (h ++ [fresh_node (d + 1) c])) !! c
               = Some (fresh_node (d + 1) c)).
  { rewrite list_lookup_insert_ne by (unfold c; lia).
    by apply list_lookup_middle. }
  split; [exact (hget_materialize h d a n k Ha Hk Hplain Hd) |].
  split; [rewrite length_insert, length_app; cbn; lia |].
  split; [exact Hc |]. split; [by apply fresh_is_mock_node |].
  split; [apply list_lookup_insert_eq; rewrite length_app; lia |].
  split; [unfold n'; cbn [props set_props]; by rewrite lookup_insert_eq |].
  split.
  { intros k' Hne. unfold n'. cbn [props set_props].
    by rewrite lookup_insert_ne. }
  do 4 (split; [reflexivity |]).
  intros b m Hb Hbm. rewrite list_lookup_insert_ne by congruence.
  by apply lookup_app_l_Some.
Qed.

(** X19. On a mock node [getCallInfo] returns, without changing the store,
    the number of logged calls, the last logged argument list (the empty
    list when nothing is logged) and the last logged result (a return of
    [undefined] when nothing is logged).  On any value that is not a
    function it raises [TypeError("Argument must be a mock function")]. *)
Theorem call_info_summary (h : store) (d : nat) (a : addr) (n : node) :
  is_mock_node h d a → h !! a = Some n →
  (∃ info,
     getCallInfo host_get host_readonly h (VProxy d a) = Ok info h
     ∧ callCount info = List.length (calls n)
     ∧ info_calls info = calls n ∧ info_results info = results n
     ∧ (calls n = [] → lastCall info = [])
     ∧ (results n = [] →
        lastResult info = {| rtype := RReturn; rvalue := VUndef |})
     ∧ (∀ cs c, calls n = cs ++ [c] → lastCall info = c)
     ∧ (∀ rs r, results n = rs ++ [r] → lastResult info = r))
  ∧ ∀ v, typeof_function v = false →
      getCallInfo host_get host_readonly h v
      = Throw (VTypeError "Argument must be a mock function") h.
Proof.
  intros (n0 & Ha0 & Hsub) Ha. assert (n0 = n) by congruence. subst n0.
  assert (Hm : props n !! "mock" = Some (VMockRec a))
    by exact (protocol_lookup d a n "mock" _ Hsub (protocol_mock d a)).
  split.
  - exists (summary n). split; [by apply getCallInfo_mock_node |].
    unfold summary. cbn [callCount info_calls info_results lastCall lastResult].
    do 3 (split; [reflexivity |]).
    split; [by intros -> |]. split; [by intros -> |].
    split; intros xs x ->; apply last_last.
  - intros v Hv. unfold getCallInfo, isMock. by rewrite Hv.
Qed.

(** *** Resetting a mock node *)


(** *** The call summary *)


(** *** The keys of every recorder *)

Lemma kw_mono (T T' : addr → string → Prop) (h : store) :
  (∀ b k, T b k → T' b k) → keys_within T h → keys_within T' h.
Proof.
  intros Hle Hh b n k Hb Hk. destruct (Hh b n k Hb Hk) as [? | ?];
    [by left | right; by apply Hle].
Qed.































End Properties.

Section DescriptorProperties.

Variable host_get : string -> outcome.
Variable host_readonly : string -> bool.
Variable host_has : string -> bool.

(** X16. What a read of a plain key through the proxy returned is what the
    [getOwnPropertyDescriptor] trap reports for that key afterwards, as a
    configurable and enumerable property, and the key is among those
    [ownKeys] lists; asking for the descriptor changes nothing.  A key that
    is neither stored on the recorder nor a member of function objects has
    no descriptor, and asking does not materialize it. *)
Theorem descriptor_after_read (h h1 : store) (d : nat) (a : addr)
    (k : string) (v : value) :
  plain_key host_get host_readonly k →
  get_member host_get host_readonly h (VProxy d a) k = Ok v h1 →
  getOwnPropertyDescriptor host_get host_has h1 a k
    = Ok (Some {| configurable := true; enumerable := true;
                  desc_value := v |}) h1
  ∧ (∃ ks, ownKeys h1 a = Some ks ∧ k ∈ ks)
  ∧ ∀ k' n1, h1 !! a = Some n1 → props n1 !! k' = None →
      host_has k' = false →
      getOwnPropertyDescriptor host_get host_has h1 a k' = Ok None h1.
Proof.
  intros Hplain Hread.
  destruct (plain_read_own host_get host_readonly h h1 d a k v Hplain Hread)
    as (n1 & Ha1 & Hk).
  split; [| split].
  - unfold getOwnPropertyDescriptor, has_property, target_get.
    rewrite Ha1, Hk.
    rewrite bool_decide_eq_true_2 by (by eexists). reflexivity.
  - exists (dom (props n1)). split; [unfold ownKeys; by rewrite Ha1 |].
    apply elem_of_dom. by eexists.
  - intros k' n' Ha' Hk' Hhas.
    unfold getOwnPropertyDescriptor, has_property. rewrite Ha', Hk', Hhas.
    rewrite bool_decide_eq_false_2 by (intros [? ?]; discriminate).
    reflexivity.
Qed.

End DescriptorProperties.

(** ** Evaluation at concrete inputs *)

Lemma sample_plain (k : string) :
  reserved k = false → sample_host_get k = Return VUndef →
  sample_host_readonly k = false →
  plain_key sample_host_get sample_host_readonly k.
Proof. by repeat split. Qed.

Lemma depth_bound_witness :
  ∃ a h1 b h2,
    walk sample_host_get sample_host_readonly sample_root (VProxy 0 0)
      ["a"; "b"; "c"; "d"; "e"; "f"; "g"; "h"; "i"]
      = Ok (VProxy 9 a) h1
    ∧ is_mock_node h1 9 a
    ∧ get_member sample_host_get sample_host_readonly h1 (VProxy 9 a) "j"
      = Ok (VProxy (9 + 1) b) h2
    ∧ is_mock_node h2 (9 + 1) b
    ∧ prop_of h2 a "j" = Some (VProxy (9 + 1) b)
    ∧ walk sample_host_get sample_host_readonly sample_root (VProxy 0 0)
        (["a"; "b"; "c"; "d"; "e"; "f"; "g"; "h"; "i"] ++ ["j"])
      = Ok (VProxy (9 + 1) b) h2.
Proof.
  apply (proj1 (depth_bound sample_host_get sample_host_readonly []
                  ["a"; "b"; "c"; "d"; "e"; "f"; "g"; "h"; "i"] "j"
                  ltac:(repeat constructor) ltac:(by repeat split))).
  unfold MAX_DEPTH. cbn. lia.
Defined.

(** C1 as stated fails on keys the runtime owns: on the child [user] of a
    root, [name] reads as the string ["fn"], [length] as the number 0 and
    [call] as a native function, none of them a child mock node, and a read
    of [caller] raises. *)
Lemma chain_reaches_runtime_member :
  outcome_of (walk sample_host_get sample_host_readonly sample_root
                (VProxy 0 0) ["user"; "name"]) = Some (Return (VStr "fn"))
  ∧ outcome_of (walk sample_host_get sample_host_readonly sample_root
                  (VProxy 0 0) ["user"; "length"]) = Some (Return (VNum 0))
  ∧ outcome_of (walk sample_host_get sample_host_readonly sample_root
                  (VProxy 0 0) ["user"; "call"]) = Some (Return (VFn 100))
  ∧ outcome_of (walk sample_host_get sample_host_readonly sample_root
                  (VProxy 0 0) ["user"; "caller"])
    = Some (Raise VHostTypeError).
Proof. repeat split; vm_compute; reflexivity. Qed.

Lemma failure_propagation_witness :
  ∃ h' n',
    invoke sample_user_fn sample_host_get (sample_with_impl (VFn 1)) 0 [VObj 7]
      = Throw (VObj 7) h'
    ∧ h' !! 0 = Some n'
    ∧ calls n' = [] ++ [[VObj 7]]
    ∧ results n' = [] ++ [ {| rtype := RThrow; rvalue := VObj 7 |} ].
Proof.
  assert (Hnode : is_mock_node (sample_with_impl (VFn 1)) 0 0)
    by (eexists; split; reflexivity).
  apply (proj1 (failure_propagation sample_user_fn sample_host_get
                  (sample_with_impl (VFn 1)) 0 0
                  (set_impl (VFn 1) (fresh_node 0 0)) [VObj 7]
                  Hnode eq_refl)
               1 (VObj 7)); reflexivity.
Defined.

Lemma one_shot_fifo_witness :
  ∃ h1 h2 h3 h4,
    call_member sample_user_fn sample_host_get sample_host_readonly
      sample_root (VProxy 0 0) "mockImplementation" [VConstFn (VStr "dflt")]
      = Ok (VBase 0) h1
    ∧ call_member sample_user_fn sample_host_get sample_host_readonly
        h1 (VProxy 0 0) "mockImplementationOnce" [VFn 0] = Ok (VBase 0) h2
    ∧ call_member sample_user_fn sample_host_get sample_host_readonly
        h2 (VProxy 0 0) "mockImplementationOnce" [VResolveFn (VNum 2)]
        = Ok (VBase 0) h3
    ∧ invocations sample_user_fn sample_host_get h3 0
        ([VNum 1] :: [] :: [[]; [VNum 5]])
      = Some (apply_stateless sample_user_fn (VFn 0) [VNum 1]
              :: apply_stateless sample_user_fn (VResolveFn (VNum 2)) []
              :: map (apply_stateless sample_user_fn (VConstFn (VStr "dflt")))
                     [[]; [VNum 5]], h4)
    ∧ ∀ b3 args3 args4, stateless b3 = true →
        ∃ h5 h6,
          call_member sample_user_fn sample_host_get sample_host_readonly
            h4 (VProxy 0 0) "mockImplementationOnce" [b3] = Ok (VBase 0) h5
          ∧ invocations sample_user_fn sample_host_get h5 0 [args3; args4]
            = Some ([apply_stateless sample_user_fn b3 args3;
                     apply_stateless sample_user_fn (VConstFn (VStr "dflt"))
                       args4], h6).
Proof.
  assert (Hnode : is_mock_node sample_root 0 0)
    by (eexists; split; reflexivity).
  exact (one_shot_fifo sample_user_fn sample_host_get sample_host_readonly
           sample_root 0 0 (fresh_node 0 0)
           (VFn 0) (VResolveFn (VNum 2)) (VConstFn (VStr "dflt"))
           [VNum 1] [] [[]; [VNum 5]]
           Hnode eq_refl eq_refl eq_refl eq_refl eq_refl).
Defined.

Lemma sample_used_run :
  run sample_user_fn sample_host_get sample_host_readonly sample_root
    [OCall (VMethod 0 MReturnValue) [VStr "custom"];
     OCall (VProxy 0 0) [];
     OCall (VProxy 0 0) [VNum 1]]
  = Some sample_used.
Proof. vm_compute. reflexivity. Qed.

Lemma clear_keeps_behaviour_witness :
  ∃ n, sample_used !! 0 = Some n
    ∧ calls n = [[]; [VNum 1]]
    ∧ ∃ h' n',
        call_member sample_user_fn sample_host_get sample_host_readonly
          sample_used (VProxy 0 0) "mockClear" [] = Ok (VBase 0) h'
        ∧ call_method sample_user_fn sample_host_get sample_used 0 MBClear []
          = Ok (VBase 0) h'
        ∧ h' !! 0 = Some n'
        ∧ calls n' = [] ∧ results n' = []
        ∧ impl n' = impl n ∧ onceQueue n' = onceQueue n
        ∧ defaultImpl n' = defaultImpl n ∧ props n' = props n
        ∧ outcome_of (invoke sample_user_fn sample_host_get h' 0 [VNum 3])
          = outcome_of
              (invoke sample_user_fn sample_host_get sample_used 0 [VNum 3]).
Proof.
  eexists. split; [reflexivity |]. split; [reflexivity |].
  assert (Hnode : is_mock_node sample_used 0 0)
    by (eexists; split; reflexivity).
  exact (clear_keeps_behaviour sample_user_fn sample_host_get
           sample_host_readonly sample_used 0 0 _ [VNum 3] Hnode eq_refl).
Defined.

Lemma sample_ops_spare (k : string) :
  k ≠ "limit" → ∀ o, o ∈ sample_ops → ¬ writes o 0 k.
Proof.
  intros Hk o Ho. unfold sample_ops in Ho.
  repeat (apply elem_of_cons in Ho as [-> | Ho]);
    try (by apply not_elem_of_nil in Ho); cbn [writes addr_of];
    first [ by intros [] | intros [[=] _] | intros [_ ?]; congruence ].
Defined.

Lemma referential_stability_witness :
  get_member sample_host_get sample_host_readonly sample_read (VProxy 0 0)
    "repo" = Ok (VProxy 1 1) sample_read
  ∧ get_member sample_host_get sample_host_readonly sample_later (VProxy 0 0)
      "repo" = Ok (VProxy 1 1) sample_later.
Proof.
  apply (referential_stability sample_user_fn sample_host_get
           sample_host_readonly sample_root sample_read sample_later
           0 0 "repo" (VProxy 1 1) sample_ops).
  - vm_compute. reflexivity.
  - discriminate.
  - apply sample_ops_spare. discriminate.
  - vm_compute. reflexivity.
Defined.

(** C6 as stated fails for [undefined]: written to a mocked key of the root,
    it is not read back; the read materializes a child instead. *)
Lemma write_undefined_not_read_back :
  ∃ h1 h2,
    set_member sample_host_readonly sample_root (VProxy 0 0) "token" VUndef
      = Ok tt h1
    ∧ get_member sample_host_get sample_host_readonly h1 (VProxy 0 0) "token"
      = Ok (VProxy 1 1) h2
    ∧ VProxy 1 1 ≠ VUndef.
Proof.
  do 2 eexists. split; [vm_compute; reflexivity |].
  split; [vm_compute; reflexivity | discriminate].
Qed.

Lemma write_then_read_witness :
  ∃ h1,
    set_member sample_host_readonly sample_read (VProxy 0 0) "repo" (VNum 7)
      = Ok tt h1
    ∧ get_member sample_host_get sample_host_readonly h1 (VProxy 0 0) "repo"
      = Ok (VNum 7) h1
    ∧ ∀ ops h2, (∀ o, o ∈ ops → ¬ writes o 0 "repo") →
        run sample_user_fn sample_host_get sample_host_readonly h1 ops
          = Some h2 →
        get_member sample_host_get sample_host_readonly h2 (VProxy 0 0) "repo"
          = Ok (VNum 7) h2.
Proof.
  apply (write_then_read sample_user_fn sample_host_get sample_host_readonly
           sample_read 0 0
           (set_props (<["repo" := VProxy 1 1]> (protocol_props 0 0))
              (fresh_node 0 0))
           "repo" (VNum 7)).
  - reflexivity.
  - left. reflexivity.
  - left. discriminate.
Defined.



Lemma defaults_overlay_witness :
  (∀ h0 h1 mockObj k v mockProp,
     get_member sample_host_get sample_host_readonly h0 mockObj k
       = Ok mockProp h1 →
     typeof_function mockProp = false →
     install_default sample_user_fn sample_host_get sample_host_readonly
       h0 mockObj (k, v)
     = set_member sample_host_readonly h1 mockObj k v)
  ∧ ∃ h',
      createMockWithDefaults sample_user_fn sample_host_get
        sample_host_readonly [] (Some sample_overlay)
        = Ok (VProxy 0 (List.length ([] : store))) h'
      ∧ (∀ k v, (k, v) ∈ sample_overlay →
           direct_key sample_host_get sample_host_readonly k →
           prop_of h' (List.length ([] : store)) k = Some v
           ∧ (kept k v →
              get_member sample_host_get sample_host_readonly h'
                (VProxy 0 (List.length ([] : store))) k = Ok v h'))
      ∧ ∀ k v, (k, v) ∈ sample_overlay →
          plain_key sample_host_get sample_host_readonly k →
          ∃ c,
            get_member sample_host_get sample_host_readonly h'
              (VProxy 0 (List.length ([] : store))) k = Ok (VProxy 1 c) h'
            ∧ configured h' 1 c [] (behaviour_of v)
            ∧ (stateless (behaviour_of v) = true →
               ∀ w args1 args2,
                 (∃ h'', invoke sample_user_fn sample_host_get h' c args1
                    = res_of
                        (apply_stateless sample_user_fn (behaviour_of v) args1)
                        h'')
                 ∧ ∃ h1 h2 h3,
                     call_member sample_user_fn sample_host_get
                       sample_host_readonly h' (VProxy 1 c)
                       "mockResolvedValueOnce" [w] = Ok (VBase c) h1
                     ∧ invoke sample_user_fn sample_host_get h1 c args1
                       = Ok (VPromiseResolve w) h2
                     ∧ invoke sample_user_fn sample_host_get h2 c args2
                       = res_of
                           (apply_stateless sample_user_fn (behaviour_of v)
                              args2)
                           h3).
Proof.
  apply (defaults_overlay sample_user_fn sample_host_get sample_host_readonly
           [] sample_overlay).
  - vm_compute. repeat (apply NoDup_cons; split);
      [| | | | apply NoDup_nil; exact I].
    all: intros Hin;
      repeat (apply elem_of_cons in Hin as [Hin | Hin]; [discriminate |]);
      exact (not_elem_of_nil _ Hin).
  - cbn [fmap list_fmap fst sample_overlay].
    constructor; [| constructor; [| constructor; [| constructor]]].
    + left. split; [reflexivity |]. split; reflexivity.
    + right. left. reflexivity.
    + left. split; [reflexivity |]. split; reflexivity.
    + right. right. split.
      * intros Hin.
        repeat (apply elem_of_cons in Hin as [Hin | Hin]; [discriminate |]).
        exact (not_elem_of_nil _ Hin).
      * exists VUndef. split; [reflexivity |]. split; [reflexivity |].
        split; [right; reflexivity | reflexivity].
    + constructor.
Defined.

(** The defaults of the sample, evaluated: [getUser("1")] applies the
    caller function, [limit()] returns the plain value, and a key without a
    default is an ordinary nested mock. *)
Lemma sample_defaults_run :
  match createMockWithDefaults sample_user_fn sample_host_get
          sample_host_readonly [] (Some sample_defaults) with
  | Ok root h1 =>
      root = VProxy 0 0
      ∧ outcome_of (call_member sample_user_fn sample_host_get
                      sample_host_readonly h1 root "getUser" [VStr "1"])
        = Some (Return (VStr "1"))
      ∧ outcome_of (call_member sample_user_fn sample_host_get
                      sample_host_readonly h1 root "limit" [])
        = Some (Return (VNum 5))
      ∧ outcome_of (call_member sample_user_fn sample_host_get
                      sample_host_readonly h1 root "other" [])
        = Some (Return (VProxy 2 4))
  | _ => False
  end.
Proof. vm_compute. repeat split; reflexivity. Qed.

(** ** Agreement with the repository's tests *)

(** "should track function calls": two calls, then [getCallInfo]. *)
Lemma test_track_function_calls :
  let h2 :=
    then_store (invoke sample_user_fn sample_host_get
      (then_store (invoke sample_user_fn sample_host_get sample_root 0
                     [VNum 42])) 0 [VNum 100]) in
  match getCallInfo sample_host_get sample_host_readonly h2 (VProxy 0 0) with
  | Ok info _ =>
      callCount info = 2 ∧ info_calls info = [[VNum 42]; [VNum 100]]
      ∧ lastCall info = [VNum 100]
      ∧ lastResult info = {| rtype := RReturn; rvalue := VProxy 1 2 |}
  | _ => False
  end.
Proof. vm_compute. repeat split; reflexivity. Qed.

(** [getCallInfo] on a mock that was never called, and on a plain value. *)
Lemma test_call_info_edges :
  match getCallInfo sample_host_get sample_host_readonly sample_root
          (VProxy 0 0) with
  | Ok info _ =>
      callCount info = 0 ∧ lastCall info = []
      ∧ lastResult info = {| rtype := RReturn; rvalue := VUndef |}
  | _ => False
  end
  ∧ outcome_of
      (bind (getCallInfo sample_host_get sample_host_readonly sample_root
               (VStr "plain"))
            (fun _ h => Ok VUndef h))
    = Some (Raise (VTypeError "Argument must be a mock function"))
  ∧ isMock sample_host_get sample_host_readonly sample_root (VFn 0)
    = Ok false sample_root.
Proof. vm_compute. repeat split; reflexivity. Qed.

(** "should handle mockResolvedValueOnce": the one-shot first, then the
    default. *)
Lemma test_mockResolvedValueOnce :
  let h1 :=
    then_store (call_member sample_user_fn sample_host_get
      sample_host_readonly sample_root (VProxy 0 0)
      "mockResolvedValueOnce" [VStr "first"]) in
  let h2 :=
    then_store (call_member sample_user_fn sample_host_get
      sample_host_readonly h1 (VProxy 0 0)
      "mockResolvedValue" [VStr "default"]) in
  fst <$> invocations sample_user_fn sample_host_get h2 0 [[]; []]
  = Some [Return (VPromiseResolve (VStr "first"));
          Return (VPromiseResolve (VStr "default"))].
Proof. vm_compute. reflexivity. Qed.

(** "should support mockReset": a value configured after the reset is the
    one returned. *)
Lemma test_mockReset :
  let h1 :=
    then_store (call_member sample_user_fn sample_host_get
      sample_host_readonly sample_used (VProxy 0 0) "mockReset" []) in
  let h2 :=
    then_store (call_member sample_user_fn sample_host_get
      sample_host_readonly h1 (VProxy 0 0) "mockReturnValue" [VStr "reset"]) in
  outcome_of (invoke sample_user_fn sample_host_get h2 0 [])
  = Some (Return (VStr "reset")).
Proof. vm_compute. reflexivity. Qed.

(** "should handle deeply nested method calls":
    [mock.cache.get.mockReturnValue(x)] then [mock.cache.get("user:1")]. *)
Lemma test_deeply_nested :
  match walk sample_host_get sample_host_readonly sample_root (VProxy 0 0)
          ["cache"; "get"] with
  | Ok get h1 =>
      let h2 :=
        then_store (call_member sample_user_fn sample_host_get
          sample_host_readonly h1 get "mockReturnValue" [VObj 1]) in
      isMock sample_host_get sample_host_readonly h2 get = Ok true h2
      ∧ outcome_of
          (bind (walk sample_host_get sample_host_readonly h2 (VProxy 0 0)
                   ["cache"; "get"])
                (fun f h3 => call sample_user_fn sample_host_get h3 f
                               [VStr "user:1"]))
        = Some (Return (VObj 1))
  | _ => False
  end.
Proof. vm_compute. repeat split; reflexivity. Qed.

(** ** Further evaluation at concrete inputs *)

Lemma logs_record_invocations_witness :
  ∃ n', sample_mixed_after !! 0 = Some n'
    ∧ List.length [Return (VNum 1); Raise (VObj 3)]
      = List.length [[VNum 7]; [VObj 3]]
    ∧ calls n' = [] ++ [[VNum 7]; [VObj 3]]
    ∧ results n' = [] ++ map entry_of [Return (VNum 1); Raise (VObj 3)]
    ∧ getCallInfo sample_host_get sample_host_readonly sample_mixed_after
        (VProxy 0 0) = Ok (summary n') sample_mixed_after
    ∧ callCount (summary n')
      = List.length ([] : list (list value))
        + List.length [[VNum 7]; [VObj 3]].
Proof.
  assert (Hnode : is_mock_node sample_mixed 0 0)
    by (eexists; split; reflexivity).
  apply (logs_record_invocations sample_user_fn sample_host_get
           sample_host_readonly [[VNum 7]; [VObj 3]] sample_mixed
           sample_mixed_after 0 0
           (set_onceQueue [VConstFn (VNum 1)]
              (set_impl (VFn 1) (fresh_node 0 0)))
           [Return (VNum 1); Raise (VObj 3)] Hnode eq_refl).
  vm_compute. reflexivity.
Defined.

Lemma logs_stay_aligned_witness : Forall aligned_node sample_later.
Proof.
  apply (logs_stay_aligned sample_user_fn sample_host_get sample_host_readonly
           sample_ops sample_read sample_later).
  - repeat constructor.
  - vm_compute. reflexivity.
Defined.

Lemma default_invocation_fresh_witness :
  ∃ h1 h2,
    invoke sample_user_fn sample_host_get sample_root 0 [VNum 1]
      = Ok (VProxy 1 1) h1
    ∧ invoke sample_user_fn sample_host_get h1 0 [] = Ok (VProxy 1 2) h2
    ∧ is_mock_node h2 1 1
    ∧ is_mock_node h2 1 2.
Proof.
  assert (Hcfg : configured sample_root 0 0 [] (VNestedFn (0 + 1)))
    by (eexists; split; [reflexivity | split; [reflexivity | split; reflexivity]]).
  apply (proj1 (default_invocation_fresh sample_user_fn sample_host_get
                  sample_root 0 0 [VNum 1] [] Hcfg)).
  unfold MAX_DEPTH. lia.
Defined.

Lemma protocol_returns_recorder_witness :
  ∃ h',
    call_member sample_user_fn sample_host_get sample_host_readonly
      sample_root (VProxy 0 0) "mockReturnValue" [VNum 1] = Ok (VBase 0) h'
    ∧ is_mock_node h' 0 0
    ∧ ∀ k, plain_key sample_host_get sample_host_readonly k →
        prop_of sample_root 0 k = None →
        get_member sample_host_get sample_host_readonly h' (VBase 0) k
          = Ok VUndef h'.
Proof.
  assert (Hnode : is_mock_node sample_root 0 0)
    by (eexists; split; reflexivity).
  apply (protocol_returns_recorder sample_user_fn sample_host_get
           sample_host_readonly sample_root 0 0 "mockReturnValue" [VNum 1]
           Hnode).
  unfold method_names. right. right. left.
Defined.

Lemma replaced_methods_agree_witness :
  call_method sample_user_fn sample_host_get sample_used 0 MClear []
  = call_method sample_user_fn sample_host_get sample_used 0 MBClear []
  ∧ ∃ h', call_method sample_user_fn sample_host_get sample_used 0 MClear []
          = Ok (VBase 0) h'.
Proof.
  assert (Hnode : is_mock_node sample_used 0 0)
    by (eexists; split; reflexivity).
  apply (replaced_methods_agree sample_user_fn sample_host_get sample_used
           0 0 MClear MBClear [] Hnode).
  unfold replaced_methods. do 6 right. left.
Defined.

Lemma reset_restores_default_witness :
  ∃ h1,
    call_member sample_user_fn sample_host_get sample_host_readonly
      sample_used (VProxy 0 0) "mockReset" [] = Ok (VBase 0) h1
    ∧ configured h1 0 0
        (onceQueue
           (set_results [ {| rtype := RReturn; rvalue := VStr "custom" |};
                          {| rtype := RReturn; rvalue := VStr "custom" |} ]
              (set_calls [[]; [VNum 1]]
                 (set_impl (VConstFn (VStr "custom")) (fresh_node 0 0)))))
        (VNestedFn (0 + 1))
    ∧ (∃ n1, h1 = <[0 := n1]> sample_used
             ∧ props n1
               = props
                   (set_results
                      [ {| rtype := RReturn; rvalue := VStr "custom" |};
                        {| rtype := RReturn; rvalue := VStr "custom" |} ]
                      (set_calls [[]; [VNum 1]]
                         (set_impl (VConstFn (VStr "custom"))
                            (fresh_node 0 0))))
             ∧ calls n1 = [] ∧ results n1 = []
             ∧ onceQueue n1
               = onceQueue
                   (set_results
                      [ {| rtype := RReturn; rvalue := VStr "custom" |};
                        {| rtype := RReturn; rvalue := VStr "custom" |} ]
                      (set_calls [[]; [VNum 1]]
                         (set_impl (VConstFn (VStr "custom"))
                            (fresh_node 0 0))))
             ∧ impl n1 = VNestedFn (0 + 1))
    ∧ getCallInfo sample_host_get sample_host_readonly h1 (VProxy 0 0)
      = Ok {| callCount := 0; info_calls := []; info_results := [];
              lastCall := [];
              lastResult := {| rtype := RReturn; rvalue := VUndef |} |} h1
    ∧ (onceQueue
         (set_results [ {| rtype := RReturn; rvalue := VStr "custom" |};
                        {| rtype := RReturn; rvalue := VStr "custom" |} ]
            (set_calls [[]; [VNum 1]]
               (set_impl (VConstFn (VStr "custom")) (fresh_node 0 0)))) = [] →
       0 < MAX_DEPTH →
       ∃ h2, invoke sample_user_fn sample_host_get h1 0 [VNum 9]
             = Ok (VProxy (0 + 1) (List.length sample_used)) h2).
Proof.
  assert (Hnode : is_mock_node sample_used 0 0)
    by (eexists; split; reflexivity).
  exact (reset_restores_default sample_user_fn sample_host_get
           sample_host_readonly sample_used 0 0 _ [VNum 9] Hnode eq_refl).
Defined.

Lemma isMock_recognises_witness :
  isMock sample_host_get sample_host_readonly sample_read (VProxy 1 1)
    = Ok true sample_read
  ∧ isMock sample_host_get sample_host_readonly sample_read (VBase 1)
    = Ok true sample_read.
Proof.
  assert (Hnode : is_mock_node sample_read 1 1)
    by (eexists; split; reflexivity).
  pose proof (isMock_recognises sample_host_get sample_host_readonly
                sample_read 1 1 Hnode) as (H1 & H2 & _).
  exact (conj H1 H2).
Defined.

Lemma reserved_read_is_direct_witness :
  get_member sample_host_get sample_host_readonly sample_root (VProxy 0 0)
    "mockRestore" = Ok VUndef sample_root
  ∧ call_member sample_user_fn sample_host_get sample_host_readonly
      sample_root (VProxy 0 0) "mockRestore" []
    = Throw VHostTypeError sample_root.
Proof.
  apply (proj2 (reserved_read_is_direct sample_user_fn sample_host_get
                  sample_host_readonly sample_root 0 0 (fresh_node 0 0)
                  "mockRestore" [] eq_refl eq_refl));
    reflexivity.
Defined.

Lemma exhausted_read_marks_key_witness :
  ∃ h',
    get_member sample_host_get sample_host_readonly sample_deep (VProxy 10 0)
      "next" = Ok VUndef h'
    ∧ List.length h' = List.length sample_deep
    ∧ prop_of h' 0 "next" = Some VUndef
    ∧ (∃ ks, ownKeys h' 0 = Some ks ∧ "next" ∈ ks)
    ∧ (∃ ks, ownKeys sample_deep 0 = Some ks ∧ "next" ∉ ks)
    ∧ get_member sample_host_get sample_host_readonly h' (VProxy 10 0) "next"
      = Ok VUndef h'.
Proof.
  apply (exhausted_read_marks_key sample_host_get sample_host_readonly
           sample_deep 10 0 (fresh_node 10 0) "next").
  - reflexivity.
  - vm_compute. reflexivity.
  - by repeat split.
  - unfold MAX_DEPTH. lia.
Defined.

Lemma defaults_on_method_name_witness :
  createMockWithDefaults sample_user_fn sample_host_get sample_host_readonly
    [] (Some [("mockClear", VNum 5); ("getUser", VFn 0)])
  = Throw VHostTypeError ([] ++ [fresh_node 0 (List.length ([] : store))]).
Proof.
  apply (defaults_on_method_name sample_user_fn sample_host_get
           sample_host_readonly [] "mockClear" (VNum 5) [("getUser", VFn 0)]).
  - unfold method_names. do 8 right. left.
  - reflexivity.
  - reflexivity.
Defined.

Lemma defaults_on_mock_key_witness :
  ∃ h',
    createMockWithDefaults sample_user_fn sample_host_get sample_host_readonly
      [] (Some [("mock", VStr "log")])
      = Ok (VProxy 0 (List.length ([] : store))) h'
    ∧ prop_of h' (List.length ([] : store)) "mock" = Some (VStr "log")
    ∧ isMock sample_host_get sample_host_readonly h'
        (VProxy 0 (List.length ([] : store))) = Ok false h'
    ∧ getCallInfo sample_host_get sample_host_readonly h'
        (VProxy 0 (List.length ([] : store)))
      = Throw (VTypeError "Argument must be a mock function") h'
    ∧ invoke sample_user_fn sample_host_get h' (List.length ([] : store))
        [VNum 1] = Throw VHostTypeError h'.
Proof.
  apply (defaults_on_mock_key sample_user_fn sample_host_get
           sample_host_readonly [] (VStr "log") [VNum 1]).
  - reflexivity.
  - discriminate.
Defined.

Lemma nullish_one_shot_falls_through_witness :
  ∃ h',
    invoke sample_user_fn sample_host_get sample_nullish 0 [VStr "echo"]
      = res_of (apply_stateless sample_user_fn (VFn 0) [VStr "echo"]) h'
    ∧ configured h' 0 0 [VConstFn (VNum 2)] (VFn 0).
Proof.
  assert (Hcfg : configured sample_nullish 0 0 [VUndef; VConstFn (VNum 2)]
                   (VFn 0))
    by (eexists; split; [reflexivity | split; [reflexivity | split; reflexivity]]).
  apply (nullish_one_shot_falls_through sample_user_fn sample_host_get
           sample_nullish 0 0 VUndef [VConstFn (VNum 2)] (VFn 0)
           [VStr "echo"] Hcfg); reflexivity.
Defined.

Lemma non_function_behaviour_witness :
  ∃ h' n',
    invoke sample_user_fn sample_host_get (sample_with_impl (VNum 5)) 0 []
      = (if truthy (chosen (set_impl (VNum 5) (fresh_node 0 0)))
         then Throw VHostTypeError h' else Ok VUndef h')
    ∧ h' !! 0 = Some n'
    ∧ calls n' = calls (set_impl (VNum 5) (fresh_node 0 0)) ++ [[]]
    ∧ results n'
      = results (set_impl (VNum 5) (fresh_node 0 0))
        ++ [if truthy (chosen (set_impl (VNum 5) (fresh_node 0 0)))
            then {| rtype := RThrow; rvalue := VHostTypeError |}
            else {| rtype := RReturn; rvalue := VUndef |}].
Proof.
  assert (Hnode : is_mock_node (sample_with_impl (VNum 5)) 0 0)
    by (eexists; split; reflexivity).
  exact (non_function_behaviour sample_user_fn sample_host_get
           (sample_with_impl (VNum 5)) 0 0 _ [] Hnode eq_refl eq_refl).
Defined.

Lemma default_sugar_witness :
  ∃ h1 h2,
    call_member sample_user_fn sample_host_get sample_host_readonly
      sample_root (VProxy 0 0) "mockRejectedValue" [VObj 7]
      = Ok (VBase 0) h1
    ∧ invocations sample_user_fn sample_host_get h1 0 [[]; [VNum 1]]
      = Some (map (fun _ => Return (VPromiseReject (VObj 7))) [[]; [VNum 1]],
              h2).
Proof.
  assert (Hnode : is_mock_node sample_root 0 0)
    by (eexists; split; reflexivity).
  exact (proj2 (proj2 (default_sugar sample_user_fn sample_host_get
                         sample_host_readonly sample_root 0 0 _ (VObj 7)
                         [[]; [VNum 1]] Hnode eq_refl eq_refl))).
Defined.


Lemma descriptor_after_read_witness :
  getOwnPropertyDescriptor sample_host_get sample_host_has sample_read 0 "repo"
    = Ok (Some {| configurable := true; enumerable := true;
                  desc_value := VProxy 1 1 |}) sample_read
  ∧ (∃ ks, ownKeys sample_read 0 = Some ks ∧ "repo" ∈ ks)
  ∧ ∀ k' n1, sample_read !! 0 = Some n1 → props n1 !! k' = None →
      sample_host_has k' = false →
      getOwnPropertyDescriptor sample_host_get sample_host_has sample_read 0 k'
        = Ok None sample_read.
Proof.
  apply (descriptor_after_read sample_host_get sample_host_readonly
           sample_host_has sample_root sample_read 0 0 "repo" (VProxy 1 1)).
  - by repeat split.
  - vm_compute. reflexivity.
Defined.

Lemma one_shot_sugar_witness :
  ∃ h1 h2 h3 h4,
    call_member sample_user_fn sample_host_get sample_host_readonly
      (sample_with_impl (VFn 0)) (VProxy 0 0) "mockReturnValueOnce" [VNum 1]
      = Ok (VBase 0) h1
    ∧ call_member sample_user_fn sample_host_get sample_host_readonly
        h1 (VProxy 0 0) "mockResolvedValueOnce" [VNum 2] = Ok (VBase 0) h2
    ∧ call_member sample_user_fn sample_host_get sample_host_readonly
        h2 (VProxy 0 0) "mockRejectedValueOnce" [VObj 3] = Ok (VBase 0) h3
    ∧ invocations sample_user_fn sample_host_get h3 0
        ([] :: [] :: [] :: [[VStr "x"]])
      = Some (Return (VNum 1) :: Return (VPromiseResolve (VNum 2))
              :: Return (VPromiseReject (VObj 3))
              :: map (apply_stateless sample_user_fn (VFn 0)) [[VStr "x"]],
              h4).
Proof.
  assert (Hcfg : configured (sample_with_impl (VFn 0)) 0 0 [] (VFn 0))
    by (eexists; split; [reflexivity | split; [reflexivity | split; reflexivity]]).
  exact (one_shot_sugar sample_user_fn sample_host_get sample_host_readonly
           (sample_with_impl (VFn 0)) 0 0 (VFn 0) (VNum 1) (VNum 2) (VObj 3)
           [] [] [] [[VStr "x"]] Hcfg eq_refl).
Defined.

Lemma first_read_materializes_witness :
  ∃ h' n',
    get_member sample_host_get sample_host_readonly sample_used (VProxy 0 0)
      "cache" = Ok (VProxy (0 + 1) (List.length sample_used)) h'
    ∧ List.length h' = S (List.length sample_used)
    ∧ h' !! List.length sample_used
      = Some (fresh_node (0 + 1) (List.length sample_used))
    ∧ is_mock_node h' (0 + 1) (List.length sample_used)
    ∧ h' !! 0 = Some n'
    ∧ props n' !! "cache" = Some (VProxy (0 + 1) (List.length sample_used))
    ∧ (∀ k', k' ≠ "cache" →
         props n' !! k' = protocol_props 0 0 !! k')
    ∧ impl n' = VConstFn (VStr "custom") ∧ onceQueue n' = []
    ∧ calls n' = [[]; [VNum 1]]
    ∧ results n' = [ {| rtype := RReturn; rvalue := VStr "custom" |};
                     {| rtype := RReturn; rvalue := VStr "custom" |} ]
    ∧ ∀ b m, b ≠ 0 → sample_used !! b = Some m → h' !! b = Some m.
Proof.
  apply (first_read_materializes sample_host_get sample_host_readonly
           sample_used 0 0
           (set_results [ {| rtype := RReturn; rvalue := VStr "custom" |};
                          {| rtype := RReturn; rvalue := VStr "custom" |} ]
              (set_calls [[]; [VNum 1]]
                 (set_impl (VConstFn (VStr "custom")) (fresh_node 0 0))))
           "cache").
  - reflexivity.
  - vm_compute. reflexivity.
  - by repeat split.
  - unfold MAX_DEPTH. lia.
Defined.

Lemma call_info_summary_witness :
  ∃ info,
    getCallInfo sample_host_get sample_host_readonly sample_used (VProxy 0 0)
      = Ok info sample_used
    ∧ callCount info = 2
    ∧ lastCall info = [VNum 1]
    ∧ lastResult info = {| rtype := RReturn; rvalue := VStr "custom" |}.
Proof.
  assert (Hnode : is_mock_node sample_used 0 0)
    by (eexists; split; reflexivity).
  destruct (proj1 (call_info_summary sample_host_get sample_host_readonly
                     sample_used 0 0 _ Hnode eq_refl))
    as (info & Hinfo & Hcount & _ & _ & _ & _ & Hlc & Hlr).
  exists info. split; [exact Hinfo |]. split; [exact Hcount |].
  split; [exact (Hlc [[]] [VNum 1] eq_refl) |].
  exact (Hlr [ {| rtype := RReturn; rvalue := VStr "custom" |} ]
             {| rtype := RReturn; rvalue := VStr "custom" |} eq_refl).
Defined.





(** C10 as stated fails on keys the runtime owns: with a default for [name]
    the third branch is taken and the assignment to the read-only member
    raises, and with a default for [toString] the inherited function is found
    under the key and has no [mockImplementation] to call.  In both cases
    the root has been created, nothing is installed on it and it is not
    returned. *)
Lemma defaults_on_runtime_member :
  createMockWithDefaults sample_user_fn sample_host_get sample_host_readonly
    [] (Some [("name", VStr "John")]) = Throw VHostTypeError sample_root
  ∧ createMockWithDefaults sample_user_fn sample_host_get sample_host_readonly
      [] (Some [("toString", VFn 0)]) = Throw VHostTypeError sample_root
  ∧ prop_of sample_root 0 "name" = None
  ∧ prop_of sample_root 0 "toString" = None.
Proof. repeat split; vm_compute; reflexivity. Qed.
